(** * Naruto jutsu detector: hand-sign classifier and sequence matcher

    A shallow embedding of [hand-signs.js] (module [HandSignClassifier]) and
    [jutsu-detector.js] (module [JutsuDetector]).

    JavaScript numbers are IEEE-754 binary64 values.  They are modelled with
    the executable specification of the Standard Library ([SpecFloat], at
    precision 53 and maximal exponent 1024, rounding to nearest even), so
    every arithmetic step of the classifier can be evaluated exactly as the
    JavaScript engine evaluates it, including division by zero and NaN. *)

From Stdlib Require Import ZArith List Bool Lia.
From Stdlib Require String.
Import String.StringSyntax.
From Stdlib Require Import Floats.SpecFloat.
Import ListNotations.

(** ** IEEE-754 binary64 numbers *)

Module F64.

Definition prec : Z := 53.
Definition emax : Z := 1024.

Definition float := spec_float.

Definition add : float -> float -> float := SFadd prec emax.
Definition sub : float -> float -> float := SFsub prec emax.
Definition mul : float -> float -> float := SFmul prec emax.
Definition div : float -> float -> float := SFdiv prec emax.
Definition sqrt : float -> float := SFsqrt prec emax.
Definition opp : float -> float := SFopp.

(** [a < b] and [a > b]; both are false as soon as one side is NaN. *)
Definition ltb (a b : float) : bool := SFltb a b.
Definition gtb (a b : float) : bool := SFltb b a.
Definition leb (a b : float) : bool := SFleb a b.

Definition nan : float := S754_nan.
Definition infinity : float := S754_infinity false.
Definition zero : float := S754_zero false.

(** The double nearest to the integer [n]. *)
Definition ofZ (n : Z) : float := binary_normalize prec emax n 0 false.

(** The double denoted by the decimal literal [n]e-[k].  Division is
    correctly rounded and both [n] and [10^k] are exact doubles for the
    literals of the program, so this is the nearest double to [n / 10^k],
    which is what a JavaScript decimal literal denotes. *)
Definition dec (n : Z) (k : Z) : float := div (ofZ n) (ofZ (10 ^ k)).

Definition is_nan (a : float) : bool :=
  match a with S754_nan => true | _ => false end.

Definition is_finite (a : float) : bool :=
  match a with
  | S754_zero _ | S754_finite _ _ _ => true
  | S754_infinity _ | S754_nan => false
  end.

(** JavaScript truthiness of a number: NaN, +0 and -0 are falsy. *)
Definition truthy (a : float) : bool :=
  match a with
  | S754_nan | S754_zero _ => false
  | _ => true
  end.

(** [Math.max(a, b)]: NaN if either argument is NaN; +0 is larger than -0. *)
Definition Math_max (a b : float) : float :=
  match SFcompare a b with
  | None => nan
  | Some Lt => b
  | Some Gt => a
  | Some Eq => match a with S754_zero true => b | _ => a end
  end.

(** [Math.min(a, b)]: NaN if either argument is NaN; -0 is smaller than +0. *)
Definition Math_min (a b : float) : float :=
  match SFcompare a b with
  | None => nan
  | Some Lt => a
  | Some Gt => b
  | Some Eq => match a with S754_zero false => b | _ => a end
  end.

(** The order [SFcompare] puts on two finite doubles of the same sign:
    exponents first, then mantissas. *)
Definition lex (e1 : Z) (m1 : positive) (e2 : Z) (m2 : positive) : comparison :=
  match (e1 ?= e2)%Z with
  | Lt => Lt
  | Gt => Gt
  | Eq => Pos.compare_cont Eq m1 m2
  end.

(** [Math.PI], the double 0x1.921fb54442d18p+1. *)
Definition Math_PI : float := S754_finite false 7074237752028440 (-51).

(** Decimal literals of the two source files. *)
Definition d0 : float := zero.
Definition d1 : float := Eval vm_compute in ofZ 1.
Definition d2 : float := Eval vm_compute in ofZ 2.
Definition d100 : float := Eval vm_compute in ofZ 100.
Definition d180 : float := Eval vm_compute in ofZ 180.
Definition d1e_9 : float := Eval vm_compute in dec 1 9.
Definition d0_05 : float := Eval vm_compute in dec 5 2.
Definition d0_1 : float := Eval vm_compute in dec 1 1.
Definition d0_15 : float := Eval vm_compute in dec 15 2.
Definition d0_2 : float := Eval vm_compute in dec 2 1.
Definition d0_25 : float := Eval vm_compute in dec 25 2.
Definition d0_3 : float := Eval vm_compute in dec 3 1.
Definition d0_35 : float := Eval vm_compute in dec 35 2.
Definition d0_4 : float := Eval vm_compute in dec 4 1.
Definition d0_45 : float := Eval vm_compute in dec 45 2.
Definition d0_5 : float := Eval vm_compute in dec 5 1.
Definition d0_55 : float := Eval vm_compute in dec 55 2.
Definition d0_6 : float := Eval vm_compute in dec 6 1.
Definition d0_65 : float := Eval vm_compute in dec 65 2.
Definition d0_7 : float := Eval vm_compute in dec 7 1.
Definition d0_8 : float := Eval vm_compute in dec 8 1.
Definition d0_9 : float := Eval vm_compute in dec 9 1.

End F64.

Abbreviation string := String.string.
Open Scope string_scope.

Declare Scope f64_scope.
Delimit Scope f64_scope with f64.
Bind Scope f64_scope with F64.float.
Infix "+" := F64.add : f64_scope.
Infix "-" := F64.sub : f64_scope.
Infix "*" := F64.mul : f64_scope.
Infix "/" := F64.div : f64_scope.
Infix "<" := F64.ltb : f64_scope.
Infix ">" := F64.gtb : f64_scope.

(** ** The twelve hand signs

    Both files name signs by the strings ['Tiger'] ... ['Rat']; the
    constructors are listed in the key order of [signRules]. *)

Inductive Sign : Type :=
  | Tiger | Snake | Ram | Monkey | Boar | Horse
  | Bird | Dog | Dragon | Ox | Hare | Rat.

Definition Sign_eq_dec (a b : Sign) : {a = b} + {a <> b}.
Proof. decide equality. Defined.

(** [a === b] on sign names. *)
Definition Sign_eqb (a b : Sign) : bool :=
  if Sign_eq_dec a b then true else false.

(** The fixed set of signs, in the key order of [signRules]. *)
Definition allSigns : list Sign :=
  [Tiger; Snake; Ram; Monkey; Boar; Horse; Bird; Dog; Dragon; Ox; Hare; Rat].

(** ** hand-signs.js *)

Module HandSignClassifier.

Import F64.
Local Open Scope f64_scope.

(** A landmark [{x, y, z}]; [z] may be absent. *)
Record Landmark : Type := mkLandmark {
  x : float;
  y : float;
  z : option float
}.

(** [(a.z || 0)]: an absent, NaN or zero [z] reads as +0. *)
Definition z_or_0 (a : Landmark) : float :=
  match z a with
  | Some v => if truthy v then v else d0
  | None => d0
  end.

(** *** Geometry helpers *)

Definition dist (a b : Landmark) : float :=
  let dx := x a - x b in
  let dy := y a - y b in
  let dz := z_or_0 a - z_or_0 b in
  sqrt (dx * dx + dy * dy + dz * dz).

Definition vec (a b : Landmark) : Landmark :=
  {| x := x b - x a; y := y b - y a; z := Some (z_or_0 b - z_or_0 a) |}.

Definition dot (u v : Landmark) : float :=
  x u * x v + y u * y v + z_or_0 u * z_or_0 v.

Definition mag (v : Landmark) : float :=
  sqrt (x v * x v + y v * y v + z_or_0 v * z_or_0 v).

Definition cross2D (u v : Landmark) : float :=
  x u * y v - y u * x v.

Definition midpoint (a b : Landmark) : Landmark :=
  {| x := (x a + x b) / d2;
     y := (y a + y b) / d2;
     z := Some ((z_or_0 a + z_or_0 b) / d2) |}.

(** *** Landmark arrays

    [lm[i]] on an array.  Every read below is at an index in 0..20; on an
    array of fewer than 21 landmarks [lm[20]] is [undefined] and reading
    its [x] throws, which [getHandFeatures] reports as [None]. *)

Definition undefined_landmark : Landmark :=
  {| x := nan; y := nan; z := None |}.

Definition at_ (lm : list Landmark) (i : nat) : Landmark :=
  nth i lm undefined_landmark.

Local Notation "lm [[ i ]]" := (at_ lm i) (at level 1, format "lm [[ i ]]").

(** *** Finger feature extraction *)

Definition getFingerCurl (lm : list Landmark) (base pip dip tip : nat) : float :=
  let fullLen := dist lm[[base]] lm[[pip]] + dist lm[[pip]] lm[[dip]]
                 + dist lm[[dip]] lm[[tip]] in
  let directLen := dist lm[[base]] lm[[tip]] in
  let ratio := directLen / (fullLen + d1e_9) in
  d1 - Math_max d0 (Math_min d1 ((ratio - d0_5) / d0_5)).

Definition getThumbCurl (lm : list Landmark) : float :=
  let fullLen := dist lm[[1]] lm[[2]] + dist lm[[2]] lm[[3]]
                 + dist lm[[3]] lm[[4]] in
  let directLen := dist lm[[1]] lm[[4]] in
  let ratio := directLen / (fullLen + d1e_9) in
  d1 - Math_max d0 (Math_min d1 ((ratio - d0_5) / d0_5)).

Definition isFingerExtended (lm : list Landmark) (base pip dip tip : nat) : bool :=
  getFingerCurl lm base pip dip tip < d0_4.

Definition isFingerCurled (lm : list Landmark) (base pip dip tip : nat) : bool :=
  getFingerCurl lm base pip dip tip > d0_55.

Definition getPalmSize (lm : list Landmark) : float :=
  dist lm[[0]] lm[[9]].

Record HandFeatures : Type := mkHandFeatures {
  palmSize : float;
  thumbCurl : float; indexCurl : float; middleCurl : float;
  ringCurl : float; pinkyCurl : float;
  thumbExtended : bool; indexExtended : bool; middleExtended : bool;
  ringExtended : bool; pinkyExtended : bool;
  thumbCurled : bool; indexCurled : bool; middleCurled : bool;
  ringCurled : bool; pinkyCurled : bool;
  indexMiddleSpread : float; middleRingSpread : float;
  ringPinkySpread : float; indexRingSpread : float;
  thumbToPalm : float; thumbToIndex : float;
  thumbToMiddle : float; thumbToPinky : float;
  indexToWrist : float; middleToWrist : float;
  ringToWrist : float; pinkyToWrist : float;
  indexMiddleTouching : bool; indexMiddleUp : bool;
  indexAngle : float; middleAngle : float;
  ringAngle : float; pinkyAngle : float;
  palmFacingCamera : bool; thumbCrossingPalm : bool;
  indexMiddleOnly : bool; allFingersCurled : bool;
  allFingersExtended : bool; hornsShape : bool;
  lm_ : list Landmark
}.

(** The result [{ score, rules }] of a scoring rule. *)
Record RuleResult : Type := mkRuleResult {
  score : float;
  rules : list string
}.

Section WithAcos.

(** [Math.acos] is a host function with no counterpart in [SpecFloat];
    it is a parameter of the feature extractor.  Only the four joint
    angles depend on it, and no scoring rule reads them. *)
Variable Math_acos : float -> float.

Definition angleBetween (a b c : Landmark) : float :=
  let v1 := vec b a in
  let v2 := vec b c in
  let cosA := dot v1 v2 / (mag v1 * mag v2 + d1e_9) in
  Math_acos (Math_max (opp d1) (Math_min d1 cosA)) * (d180 / Math_PI).

Definition getFingerAngle (lm : list Landmark) (mcp pip dip : nat) : float :=
  angleBetween lm[[mcp]] lm[[pip]] lm[[dip]].

(** The body of [getHandFeatures], for an array on which every read is
    defined. *)
Definition handFeatures (lm : list Landmark) : HandFeatures :=
  let palmSize := getPalmSize lm in

  let thumbCurl := getThumbCurl lm in
  let indexCurl := getFingerCurl lm 5 6 7 8 in
  let middleCurl := getFingerCurl lm 9 10 11 12 in
  let ringCurl := getFingerCurl lm 13 14 15 16 in
  let pinkyCurl := getFingerCurl lm 17 18 19 20 in

  let thumbExtended := thumbCurl < d0_4 in
  let indexExtended := indexCurl < d0_4 in
  let middleExtended := middleCurl < d0_4 in
  let ringExtended := ringCurl < d0_4 in
  let pinkyExtended := pinkyCurl < d0_4 in

  let indexCurled := indexCurl > d0_55 in
  let middleCurled := middleCurl > d0_55 in
  let ringCurled := ringCurl > d0_55 in
  let pinkyCurled := pinkyCurl > d0_55 in
  let thumbCurled := thumbCurl > d0_55 in

  let indexMiddleSpread := dist lm[[8]] lm[[12]] / palmSize in
  let middleRingSpread := dist lm[[12]] lm[[16]] / palmSize in
  let ringPinkySpread := dist lm[[16]] lm[[20]] / palmSize in
  let indexRingSpread := dist lm[[8]] lm[[16]] / palmSize in

  let thumbToPalm := dist lm[[4]] lm[[9]] / palmSize in
  let thumbToIndex := dist lm[[4]] lm[[8]] / palmSize in
  let thumbToMiddle := dist lm[[4]] lm[[12]] / palmSize in
  let thumbToPinky := dist lm[[4]] lm[[20]] / palmSize in

  let indexToWrist := dist lm[[8]] lm[[0]] / palmSize in
  let middleToWrist := dist lm[[12]] lm[[0]] / palmSize in
  let ringToWrist := dist lm[[16]] lm[[0]] / palmSize in
  let pinkyToWrist := dist lm[[20]] lm[[0]] / palmSize in

  let indexMiddleTouching := dist lm[[8]] lm[[12]] / palmSize < d0_25 in

  let indexMiddleUp :=
    (y lm[[8]] < y lm[[6]]) && (y lm[[12]] < y lm[[10]]) in

  let indexAngle := getFingerAngle lm 5 6 7 in
  let middleAngle := getFingerAngle lm 9 10 11 in
  let ringAngle := getFingerAngle lm 13 14 15 in
  let pinkyAngle := getFingerAngle lm 17 18 19 in

  let palmVec1 := vec lm[[0]] lm[[5]] in
  let palmVec2 := vec lm[[0]] lm[[17]] in
  let palmNormal := cross2D palmVec1 palmVec2 in
  let palmFacingCamera := palmNormal > d0 in

  let thumbCrossingPalm :=
    Bool.eqb (x lm[[4]] > x lm[[9]]) (x lm[[0]] < x lm[[9]]) in

  let indexMiddleOnly :=
    indexExtended && middleExtended && ringCurled && pinkyCurled in
  let allFingersCurled :=
    indexCurled && middleCurled && ringCurled && pinkyCurled in
  let allFingersExtended :=
    indexExtended && middleExtended && ringExtended && pinkyExtended in
  let hornsShape :=
    indexExtended && pinkyExtended && middleCurled && ringCurled in

  {| palmSize := palmSize;
     thumbCurl := thumbCurl; indexCurl := indexCurl;
     middleCurl := middleCurl; ringCurl := ringCurl;
     pinkyCurl := pinkyCurl;
     thumbExtended := thumbExtended; indexExtended := indexExtended;
     middleExtended := middleExtended; ringExtended := ringExtended;
     pinkyExtended := pinkyExtended;
     thumbCurled := thumbCurled; indexCurled := indexCurled;
     middleCurled := middleCurled; ringCurled := ringCurled;
     pinkyCurled := pinkyCurled;
     indexMiddleSpread := indexMiddleSpread;
     middleRingSpread := middleRingSpread;
     ringPinkySpread := ringPinkySpread;
     indexRingSpread := indexRingSpread;
     thumbToPalm := thumbToPalm; thumbToIndex := thumbToIndex;
     thumbToMiddle := thumbToMiddle; thumbToPinky := thumbToPinky;
     indexToWrist := indexToWrist; middleToWrist := middleToWrist;
     ringToWrist := ringToWrist; pinkyToWrist := pinkyToWrist;
     indexMiddleTouching := indexMiddleTouching;
     indexMiddleUp := indexMiddleUp;
     indexAngle := indexAngle; middleAngle := middleAngle;
     ringAngle := ringAngle; pinkyAngle := pinkyAngle;
     palmFacingCamera := palmFacingCamera;
     thumbCrossingPalm := thumbCrossingPalm;
     indexMiddleOnly := indexMiddleOnly;
     allFingersCurled := allFingersCurled;
     allFingersExtended := allFingersExtended;
     hornsShape := hornsShape;
     lm_ := lm |}.

(** [getHandFeatures(lm)]: [None] stands for the [TypeError] thrown when
    [lm[20]] is [undefined]. *)
Definition getHandFeatures (lm : list Landmark) : option HandFeatures :=
  if (List.length lm <? 21)%nat then None else Some (handFeatures lm).

End WithAcos.

(** *** Sign classification rules

    Each rule starts from [score = 0], runs its [if (c) score += w] and
    [if (c) score -= w] statements in source order and returns
    [{ score: Math.max(0, score), rules }]. *)

(** [if (c) score += w] *)
Definition plus_if (c : bool) (w : float) (score : float) : float :=
  if c then score + w else score.

(** [if (c) score -= w] *)
Definition minus_if (c : bool) (w : float) (score : float) : float :=
  if c then score - w else score.

(** TIGER (Tora): index and middle extended together, ring and pinky curled. *)
Definition Tiger_rule (f : HandFeatures) : RuleResult :=
  let score := d0 in
  let score := plus_if (indexExtended f) d0_25 score in
  let score := plus_if (middleExtended f) d0_25 score in
  let score := plus_if (ringCurled f) d0_15 score in
  let score := plus_if (pinkyCurled f) d0_15 score in
  let score := plus_if (indexMiddleTouching f) d0_1 score in
  let score := plus_if (indexMiddleUp f) d0_1 score in
  let score := minus_if (ringExtended f) d0_3 score in
  let score := minus_if (pinkyExtended f) d0_3 score in
  {| score := Math_max d0 score;
     rules := ["idx+mid ext, ring+pink curl, tips close"] |}.

(** SNAKE (Mi): fist with the thumb wrapping over. *)
Definition Snake_rule (f : HandFeatures) : RuleResult :=
  let score := d0 in
  let score := plus_if (allFingersCurled f) d0_4 score in
  let score := plus_if (thumbCurled f) d0_2 score in
  let score := plus_if (thumbToPalm f < d0_8) d0_2 score in
  let score := plus_if (pinkyCurled f) d0_1 score in
  let score := plus_if (indexCurl f > d0_6) d0_1 score in
  let score := minus_if (indexExtended f) d0_3 score in
  let score := minus_if (middleExtended f) d0_2 score in
  let score := minus_if (pinkyExtended f) d0_3 score in
  {| score := Math_max d0 score;
     rules := ["tight fist, thumb wrap"] |}.

(** RAM (Hitsuji): index and middle extended and spread apart. *)
Definition Ram_rule (f : HandFeatures) : RuleResult :=
  let score := d0 in
  let score := plus_if (indexExtended f) d0_2 score in
  let score := plus_if (middleExtended f) d0_2 score in
  let score := plus_if (ringCurled f) d0_15 score in
  let score := plus_if (pinkyCurled f) d0_15 score in
  let score := plus_if (indexMiddleSpread f > d0_35) d0_2 score in
  let score := plus_if (negb (indexMiddleTouching f)) d0_1 score in
  let score := minus_if (indexMiddleTouching f) d0_3 score in
  let score := minus_if (ringExtended f) d0_3 score in
  let score := minus_if (pinkyExtended f) d0_3 score in
  {| score := Math_max d0 score;
     rules := ["idx+mid ext spread, ring+pink curl"] |}.

(** MONKEY (Saru): all fingers extended, thumb tucked. *)
Definition Monkey_rule (f : HandFeatures) : RuleResult :=
  let score := d0 in
  let score := plus_if (allFingersExtended f) d0_4 score in
  let score := plus_if (thumbCurled f || (thumbCurl f > d0_3)) d0_2 score in
  let score := plus_if (thumbToPalm f < d0_7) d0_15 score in
  let score := plus_if (indexMiddleSpread f < d0_4) d0_1 score in
  let score := plus_if (middleRingSpread f < d0_4) d0_1 score in
  let score := minus_if (thumbExtended f) d0_3 score in
  let score := minus_if (indexCurled f) d0_3 score in
  let score := minus_if (middleCurled f) d0_3 score in
  {| score := Math_max d0 score;
     rules := ["all ext, thumb tuck, flat palm"] |}.

(** BOAR (I): open palm, fingers and thumb extended and spread. *)
Definition Boar_rule (f : HandFeatures) : RuleResult :=
  let score := d0 in
  let score := plus_if (allFingersExtended f) d0_3 score in
  let score := plus_if (thumbExtended f) d0_25 score in
  let score := plus_if (indexMiddleSpread f > d0_3) d0_1 score in
  let score := plus_if (middleRingSpread f > d0_2) d0_1 score in
  let score := plus_if (ringPinkySpread f > d0_2) d0_1 score in
  let score := plus_if (thumbToPalm f > d0_9) d0_15 score in
  let score := minus_if (indexCurled f) d0_3 score in
  let score := minus_if (middleCurled f) d0_3 score in
  let score := minus_if (thumbCurled f) d0_3 score in
  {| score := Math_max d0 score;
     rules := ["all ext + thumb ext, spread"] |}.

(** HORSE (Uma): index only extended, thumb out, the rest curled. *)
Definition Horse_rule (f : HandFeatures) : RuleResult :=
  let score := d0 in
  let score := plus_if (indexExtended f) d0_3 score in
  let score := plus_if (middleCurled f) d0_2 score in
  let score := plus_if (ringCurled f) d0_15 score in
  let score := plus_if (pinkyCurled f) d0_15 score in
  let score := plus_if (thumbExtended f) d0_1 score in
  let score := plus_if (thumbToIndex f > d0_6) d0_1 score in
  let score := minus_if (middleExtended f) d0_35 score in
  let score := minus_if (ringExtended f) d0_2 score in
  let score := minus_if (pinkyExtended f) d0_2 score in
  {| score := Math_max d0 score;
     rules := ["index only ext, thumb out, rest curl"] |}.

(** BIRD (Tori): ring and pinky extended, index and middle curled. *)
Definition Bird_rule (f : HandFeatures) : RuleResult :=
  let score := d0 in
  let score := plus_if (pinkyExtended f) d0_25 score in
  let score := plus_if (ringExtended f) d0_2 score in
  let score := plus_if (indexCurled f) d0_2 score in
  let score := plus_if (middleCurled f) d0_2 score in
  let score := plus_if (ringPinkySpread f < d0_35) d0_1 score in
  let score := minus_if (indexExtended f) d0_35 score in
  let score := minus_if (middleExtended f) d0_35 score in
  let score := minus_if (pinkyCurled f) d0_3 score in
  {| score := Math_max d0 score;
     rules := ["ring+pinky ext, idx+mid curl"] |}.

(** DOG (Inu): flat hand, all extended, fingers together. *)
Definition Dog_rule (f : HandFeatures) : RuleResult :=
  let score := d0 in
  let score := plus_if (allFingersExtended f) d0_3 score in
  let score := plus_if (thumbExtended f) d0_1 score in
  let score := plus_if (indexMiddleSpread f < d0_25) d0_15 score in
  let score := plus_if (middleRingSpread f < d0_2) d0_15 score in
  let score := plus_if (ringPinkySpread f < d0_2) d0_15 score in
  let score := plus_if (thumbToPalm f < d0_9) d0_15 score in
  let score := minus_if (indexMiddleSpread f > d0_4) d0_3 score in
  let score := minus_if (indexCurled f) d0_3 score in
  {| score := Math_max d0 score;
     rules := ["all ext, fingers together, palm flat"] |}.

(** DRAGON (Tatsu): index extended, middle and ring partially curled, pinky curled, thumb out. *)
Definition Dragon_rule (f : HandFeatures) : RuleResult :=
  let score := d0 in
  let score := plus_if (indexExtended f) d0_2 score in
  let score := plus_if ((middleCurl f > d0_25) && (middleCurl f < d0_65)) d0_2 score in
  let score := plus_if ((ringCurl f > d0_25) && (ringCurl f < d0_65)) d0_2 score in
  let score := plus_if (pinkyCurled f) d0_15 score in
  let score := plus_if (thumbExtended f) d0_15 score in
  let score := plus_if (indexMiddleSpread f > d0_3) d0_1 score in
  let score := minus_if (middleExtended f && ringExtended f) d0_2 score in
  let score := minus_if (allFingersCurled f) d0_3 score in
  {| score := Math_max d0 score;
     rules := ["idx ext, mid+ring partial, pinky curl, thumb out"] |}.

(** OX (Ushi): horns, index and pinky extended, middle and ring curled. *)
Definition Ox_rule (f : HandFeatures) : RuleResult :=
  let score := d0 in
  let score := plus_if (hornsShape f) d0_5 score in
  let score := plus_if (indexExtended f) d0_15 score in
  let score := plus_if (pinkyExtended f) d0_15 score in
  let score := plus_if (middleCurled f) d0_1 score in
  let score := plus_if (ringCurled f) d0_1 score in
  let score := minus_if (middleExtended f) d0_35 score in
  let score := minus_if (ringExtended f) d0_35 score in
  let score := minus_if (pinkyCurled f) d0_3 score in
  {| score := Math_max d0 score;
     rules := ["idx+pinky ext (horns), mid+ring curl"] |}.

(** HARE (U): pinky only extended, the rest curled. *)
Definition Hare_rule (f : HandFeatures) : RuleResult :=
  let score := d0 in
  let score := plus_if (pinkyExtended f) d0_3 score in
  let score := plus_if (indexCurled f) d0_2 score in
  let score := plus_if (middleCurled f) d0_2 score in
  let score := plus_if (ringCurled f) d0_15 score in
  let score := plus_if (thumbCurl f > d0_3) d0_1 score in
  let score := minus_if (indexExtended f) d0_3 score in
  let score := minus_if (middleExtended f) d0_3 score in
  let score := minus_if (ringExtended f) d0_2 score in
  let score := minus_if (pinkyCurled f) d0_5 score in
  {| score := Math_max d0 score;
     rules := ["pinky only ext, rest curl"] |}.

(** RAT (Ne): thumb up, all others curled. *)
Definition Rat_rule (f : HandFeatures) : RuleResult :=
  let score := d0 in
  let score := plus_if (thumbExtended f) d0_35 score in
  let score := plus_if (indexCurled f) d0_15 score in
  let score := plus_if (middleCurled f) d0_15 score in
  let score := plus_if (ringCurled f) d0_15 score in
  let score := plus_if (pinkyCurled f) d0_15 score in
  let score := plus_if (thumbToPalm f > d0_8) d0_05 score in
  let score := minus_if (indexExtended f) d0_3 score in
  let score := minus_if (middleExtended f) d0_3 score in
  let score := minus_if (pinkyExtended f) d0_3 score in
  let score := minus_if (thumbCurled f) d0_5 score in
  {| score := Math_max d0 score;
     rules := ["thumb up, all others curl"] |}.

(** [signRules], as [Object.entries] enumerates it: in key insertion
    order. *)
Definition signRules : list (Sign * (HandFeatures -> RuleResult)) :=
  [ (Tiger, Tiger_rule); (Snake, Snake_rule); (Ram, Ram_rule);
    (Monkey, Monkey_rule); (Boar, Boar_rule); (Horse, Horse_rule);
    (Bird, Bird_rule); (Dog, Dog_rule); (Dragon, Dragon_rule);
    (Ox, Ox_rule); (Hare, Hare_rule); (Rat, Rat_rule) ].

(** *** Main classification *)

(** The object returned by [classify]; [sign = None] is [sign: null]. *)
Record Classification : Type := mkClassification {
  sign : option Sign;
  confidence : float;
  allScores : list (Sign * RuleResult);
  features : HandFeatures;
  threshold : float
}.

(** The loop variables of [classify]: [results], [bestSign], [bestScore]. *)
Record Best : Type := mkBest {
  results : list (Sign * RuleResult);
  bestSign : option Sign;
  bestScore : float
}.

(** One iteration of [for (const [sign, ruleFn] of Object.entries(signRules))]. *)
Definition classify_step (features : HandFeatures) (acc : Best)
    (entry : Sign * (HandFeatures -> RuleResult)) : Best :=
  let '(sign, ruleFn) := entry in
  let r := ruleFn features in
  let results :=
    results acc ++ [(sign, {| score := Math_min d1 (score r); rules := rules r |})] in
  if score r > bestScore acc
  then {| results := results; bestSign := Some sign; bestScore := score r |}
  else {| results := results; bestSign := bestSign acc; bestScore := bestScore acc |}.

(** The rules evaluated between Tiger and Dragon, and those evaluated
    after Dragon. *)
Definition rulesBeforeDragon : list (Sign * (HandFeatures -> RuleResult)) :=
  [ (Snake, Snake_rule); (Ram, Ram_rule); (Monkey, Monkey_rule);
    (Boar, Boar_rule); (Horse, Horse_rule); (Bird, Bird_rule);
    (Dog, Dog_rule) ].

Definition rulesAfterDragon : list (Sign * (HandFeatures -> RuleResult)) :=
  [ (Ox, Ox_rule); (Hare, Hare_rule); (Rat, Rat_rule) ].

(** The derived flags of a feature set are the comparisons and
    conjunctions [getHandFeatures] computes them by. *)
Definition flags_consistent (f : HandFeatures) : Prop :=
  thumbExtended f = (thumbCurl f < d0_4)
  /\ indexExtended f = (indexCurl f < d0_4)
  /\ middleExtended f = (middleCurl f < d0_4)
  /\ ringExtended f = (ringCurl f < d0_4)
  /\ pinkyExtended f = (pinkyCurl f < d0_4)
  /\ indexCurled f = (indexCurl f > d0_55)
  /\ middleCurled f = (middleCurl f > d0_55)
  /\ ringCurled f = (ringCurl f > d0_55)
  /\ pinkyCurled f = (pinkyCurl f > d0_55)
  /\ thumbCurled f = (thumbCurl f > d0_55)
  /\ indexMiddleTouching f = (indexMiddleSpread f < d0_25)
  /\ indexMiddleOnly f
     = indexExtended f && middleExtended f && ringCurled f && pinkyCurled f
  /\ allFingersCurled f
     = indexCurled f && middleCurled f && ringCurled f && pinkyCurled f
  /\ allFingersExtended f
     = indexExtended f && middleExtended f && ringExtended f && pinkyExtended f
  /\ hornsShape f
     = indexExtended f && pinkyExtended f && middleCurled f && ringCurled f.

(** The conditions of the Dragon rule that a hand with index and middle
    extended, ring and pinky curled and the two tips touching leaves
    open: thumb extended, middle curl above 0.25, ring curl below 0.65. *)
Definition dragonShape (f : HandFeatures) : bool :=
  thumbExtended f && (middleCurl f > d0_25) && (ringCurl f < d0_65).

(** [0 + 0.2 + 0.2 + 0.2 + 0.15 + 0.15] as the Dragon rule adds it up: the
    double 0.9000000000000001, one unit in the last place above 0.9. *)
Definition dragonScore : float :=
  Eval vm_compute in d0 + d0_2 + d0_2 + d0_2 + d0_15 + d0_15.

(** [0 + 0.25 + 0.25 + 0.15 + 0.15 + 0.1] is the double 0.9, and adding
    0.1 for [indexMiddleUp] gives 1. *)
Definition tigerScore (f : HandFeatures) : float :=
  if indexMiddleUp f then d1 else d0_9.

(** What an iteration stores in [results[sign]]. *)
Definition reported (f : HandFeatures) (e : Sign * (HandFeatures -> RuleResult))
    : Sign * RuleResult :=
  (fst e, {| score := Math_min d1 (score (snd e f)); rules := rules (snd e f) |}).

(** The loop variables are consistent: no best sign yet and
    [bestScore = 0], or a best sign with a positive score. *)
Definition best_ok (acc : Best) : Prop :=
  (bestSign acc = None /\ bestScore acc = d0)
  \/ (exists s, bestSign acc = Some s /\ ltb d0 (bestScore acc) = true).

(** The feature set [f] with its [lm] field replaced. *)
Definition with_lm (lm : list Landmark) (f : HandFeatures) : HandFeatures :=
  match f with
  | mkHandFeatures a1 a2 a3 a4 a5 a6 a7 a8 a9 a10 a11 a12 a13 a14 a15 a16
      a17 a18 a19 a20 a21 a22 a23 a24 a25 a26 a27 a28 a29 a30 a31 a32 a33
      a34 a35 a36 a37 a38 a39 a40 _ =>
    mkHandFeatures a1 a2 a3 a4 a5 a6 a7 a8 a9 a10 a11 a12 a13 a14 a15 a16
      a17 a18 a19 a20 a21 a22 a23 a24 a25 a26 a27 a28 a29 a30 a31 a32 a33
      a34 a35 a36 a37 a38 a39 a40 lm
  end.

Section WithAcos.

Variable Math_acos : float -> float.

(** [classify(landmarks)]; [None] is the [null] returned for an array of
    fewer than 21 landmarks.  After that guard [getHandFeatures] never
    throws. *)
Definition classify (landmarks : list Landmark) : option Classification :=
  if (List.length landmarks <? 21)%nat then None else
  match getHandFeatures Math_acos landmarks with
  | None => None
  | Some features =>
    let acc :=
      fold_left (classify_step features) signRules
        {| results := []; bestSign := None; bestScore := d0 |} in
    let minConfidence := d0_45 in
    if bestScore acc < minConfidence then
      Some {| sign := None;
              confidence := d0;
              allScores := results acc;
              features := features;
              threshold := minConfidence |}
    else
      Some {| sign := bestSign acc;
              confidence := Math_min d1 (bestScore acc);
              allScores := results acc;
              features := features;
              threshold := minConfidence |}
  end.

End WithAcos.

(** *** Notions used by the properties *)

(** The rules seen so far by the loop of [classify] are split by the best
    one: those before it score strictly less, those after it score no
    more; with no best sign yet, none has scored above 0. *)
Definition best_is_first_max (f : HandFeatures)
    (seen : list (Sign * (HandFeatures -> RuleResult))) (acc : Best) : Prop :=
  match bestSign acc with
  | None =>
    bestScore acc = d0
    /\ Forall (fun e => ltb d0 (score (snd e f)) = false) seen
  | Some s =>
    exists before rule after,
      seen = before ++ (s, rule) :: after
      /\ bestScore acc = score (rule f)
      /\ Forall (fun e => ltb (score (snd e f)) (score (rule f)) = true) before
      /\ Forall (fun e => ltb (score (rule f)) (score (snd e f)) = false) after
  end.

(** [0 + 0.2 + 0.2 + 0.15 + 0.15 + 0.2 + 0.1] as the Ram rule adds it up:
    the double 1.0000000000000002, one unit in the last place above 1. *)
Definition ramScore : float :=
  Eval vm_compute in d0 + d0_2 + d0_2 + d0_15 + d0_15 + d0_2 + d0_1.

(** [signRules] before and after the Ram rule. *)
Definition rulesBeforeRam : list (Sign * (HandFeatures -> RuleResult)) :=
  [ (Tiger, Tiger_rule); (Snake, Snake_rule) ].

Definition rulesAfterRam : list (Sign * (HandFeatures -> RuleResult)) :=
  [ (Monkey, Monkey_rule); (Boar, Boar_rule); (Horse, Horse_rule);
    (Bird, Bird_rule); (Dog, Dog_rule); (Dragon, Dragon_rule);
    (Ox, Ox_rule); (Hare, Hare_rule); (Rat, Rat_rule) ].

(** A landmark whose coordinates are numbers: [x], [y] and [(z || 0)] are
    neither infinite nor NaN. *)
Definition finiteLandmark (p : Landmark) : bool :=
  is_finite (x p) && is_finite (y p) && is_finite (z_or_0 p).

(** What the rules read of the features of a hand whose 21 landmarks
    coincide: a palm of size 0, every curl 1, every ratio [0 / 0 = NaN].
    The fields no rule reads are filled with NaN and [false]. *)
Definition collapsedFeatures : HandFeatures :=
  {| palmSize := d0;
     thumbCurl := d1; indexCurl := d1; middleCurl := d1;
     ringCurl := d1; pinkyCurl := d1;
     thumbExtended := false; indexExtended := false; middleExtended := false;
     ringExtended := false; pinkyExtended := false;
     thumbCurled := true; indexCurled := true; middleCurled := true;
     ringCurled := true; pinkyCurled := true;
     indexMiddleSpread := nan; middleRingSpread := nan;
     ringPinkySpread := nan; indexRingSpread := nan;
     thumbToPalm := nan; thumbToIndex := nan;
     thumbToMiddle := nan; thumbToPinky := nan;
     indexToWrist := nan; middleToWrist := nan;
     ringToWrist := nan; pinkyToWrist := nan;
     indexMiddleTouching := false; indexMiddleUp := false;
     indexAngle := nan; middleAngle := nan;
     ringAngle := nan; pinkyAngle := nan;
     palmFacingCamera := false; thumbCrossingPalm := false;
     indexMiddleOnly := false; allFingersCurled := true;
     allFingersExtended := false; hornsShape := false;
     lm_ := [] |}.

(** The feature set [f] with the fields no rule reads replaced: the four
    joint angles, [palmFacingCamera], [thumbCrossingPalm] and [lm]. *)
Definition with_unread (indexAngle middleAngle ringAngle pinkyAngle : float)
    (palmFacingCamera thumbCrossingPalm : bool) (lm : list Landmark)
    (f : HandFeatures) : HandFeatures :=
  match f with
  | mkHandFeatures a1 a2 a3 a4 a5 a6 a7 a8 a9 a10 a11 a12 a13 a14 a15 a16
      a17 a18 a19 a20 a21 a22 a23 a24 a25 a26 a27 a28 a29 a30 _ _ _ _
      _ _ a37 a38 a39 a40 _ =>
    mkHandFeatures a1 a2 a3 a4 a5 a6 a7 a8 a9 a10 a11 a12 a13 a14 a15 a16
      a17 a18 a19 a20 a21 a22 a23 a24 a25 a26 a27 a28 a29 a30
      indexAngle middleAngle ringAngle pinkyAngle
      palmFacingCamera thumbCrossingPalm a37 a38 a39 a40 lm
  end.

(** The landmark reflected in the image's vertical axis. *)
Definition mirrorX (p : Landmark) : Landmark :=
  {| x := opp (x p); y := y p; z := z p |}.

(** What the caller reads of a classification besides the features. *)
Definition verdict (r : Classification)
    : option Sign * float * list (Sign * RuleResult) :=
  (sign r, confidence r, allScores r).

(** [0 + 0.5 + 0.15 + 0.15 + 0.1 + 0.1] as the Ox rule adds it up: the
    double 1. *)
Definition oxScore : float :=
  Eval vm_compute in d0 + d0_5 + d0_15 + d0_15 + d0_1 + d0_1.

(** [signRules] before and after the Ox rule. *)
Definition rulesBeforeOx : list (Sign * (HandFeatures -> RuleResult)) :=
  [ (Tiger, Tiger_rule); (Snake, Snake_rule); (Ram, Ram_rule);
    (Monkey, Monkey_rule); (Boar, Boar_rule); (Horse, Horse_rule);
    (Bird, Bird_rule); (Dog, Dog_rule); (Dragon, Dragon_rule) ].

Definition rulesAfterOx : list (Sign * (HandFeatures -> RuleResult)) :=
  [ (Hare, Hare_rule); (Rat, Rat_rule) ].

End HandSignClassifier.

(** ** jutsu-detector.js *)

Module JutsuDetector.

Import F64.

(** *** Jutsu definitions *)

Record Jutsu : Type := mkJutsu {
  id : string;
  name : string;
  japanese : string;
  element : string;
  signs : list Sign;
  effect : string;
  color : string;
  description : string
}.

Definition fireball : Jutsu :=
  {| id := "fireball";
     name := "Fireball Jutsu";
     japanese := "Katon: Gōkakyū no Jutsu";
     element := "Fire";
     signs := [Snake; Ram; Monkey; Boar; Horse; Tiger];
     effect := "fireball";
     color := "#ff4400";
     description := "A massive ball of roaring fire erupts from the user's mouth!" |}.

Definition chidori : Jutsu :=
  {| id := "chidori";
     name := "Chidori";
     japanese := "Chidori — One Thousand Birds";
     element := "Lightning";
     signs := [Ox; Hare; Monkey];
     effect := "chidori";
     color := "#44aaff";
     description := "Lightning chakra concentrates in the palm, chirping like a thousand birds!" |}.

Definition shadowclone : Jutsu :=
  {| id := "shadowclone";
     name := "Shadow Clone Jutsu";
     japanese := "Kage Bunshin no Jutsu";
     element := "None";
     signs := [Ram; Snake; Tiger];
     effect := "shadowclone";
     color := "#aa88ff";
     description := "The user splits into multiple solid shadow clones!" |}.

Definition waterdragon : Jutsu :=
  {| id := "waterdragon";
     name := "Water Dragon Jutsu";
     japanese := "Suiton: Suiryūdan no Jutsu";
     element := "Water";
     signs := [Ox; Monkey; Hare; Rat; Boar; Bird];
     effect := "waterdragon";
     color := "#0088ff";
     description := "A massive dragon made of water rises and strikes the target!" |}.

Definition jutsus : list Jutsu :=
  [fireball; chidori; shadowclone; waterdragon].

(** An element of [matchingJutsus]:
    [{ ...jutsu, progress, total, percentage }]. *)
Record Match : Type := mkMatch {
  jutsu : Jutsu;
  progress : nat;
  total : nat;
  percentage : float
}.

(** *** State *)

(** The module-level variables.  A callback variable is modelled by
    whether a function has been registered in it.  [timers] lists the
    pending [setTimeout] callbacks of [processSign] by due time, in the
    order they were scheduled; they all run the same closure. *)
Record State : Type := mkState {
  currentSequence : list Sign;
  lastSignTime : Z;
  lastDetectedSign : option Sign;
  signHoldCount : nat;
  matchingJutsus : list Match;
  onJutsuComplete : bool;
  onSequenceUpdate : bool;
  onSequenceReset : bool;
  timers : list Z
}.

Definition initial : State :=
  {| currentSequence := [];
     lastSignTime := 0;
     lastDetectedSign := None;
     signHoldCount := 0;
     matchingJutsus := [];
     onJutsuComplete := false;
     onSequenceUpdate := false;
     onSequenceReset := false;
     timers := [] |}.

(** Calls made to the registered callbacks. *)
Inductive Event : Type :=
  | JutsuComplete (completedJutsu : Jutsu)
  | SequenceUpdate (sequence : list Sign) (matching : list Match)
  | SequenceReset (reason : string).

(** Config *)
Definition SEQUENCE_TIMEOUT_MS : Z := 5000.
Definition SIGN_HOLD_FRAMES : nat := 8.
Definition MIN_CONFIDENCE : float := d0_5.

(** What [processSign] reads of its argument: the properties [sign] and
    [confidence]. *)
Record Sample : Type := mkSample {
  sign : option Sign;
  confidence : float
}.

Definition sample_of (c : HandSignClassifier.Classification) : Sample :=
  {| sign := HandSignClassifier.sign c;
     confidence := HandSignClassifier.confidence c |}.

(** *** Core logic *)

(** [a === b] where either side may be [undefined] or [null]. *)
Definition option_Sign_eqb (a b : option Sign) : bool :=
  match a, b with
  | Some a, Some b => Sign_eqb a b
  | None, None => true
  | _, _ => false
  end.

(** The callback of [jutsus.filter] in [findMatchingJutsus]: the recorded
    signs are no longer than the jutsu's and agree with them index by
    index. *)
Definition isPrefixOf (currentSequence : list Sign) (jutsu : Jutsu) : bool :=
  if (List.length (signs jutsu) <? List.length currentSequence)%nat
  then false
  else forallb (fun i =>
                  option_Sign_eqb (nth_error currentSequence i)
                                  (nth_error (signs jutsu) i))
               (seq 0 (List.length currentSequence)).

(** The callback of [.map] in [findMatchingJutsus]. *)
Definition withProgress (currentSequence : list Sign) (jutsu : Jutsu) : Match :=
  {| jutsu := jutsu;
     progress := List.length currentSequence;
     total := List.length (signs jutsu);
     percentage :=
       mul (div (ofZ (Z.of_nat (List.length currentSequence)))
                (ofZ (Z.of_nat (List.length (signs jutsu)))))
           d100 |}.

Definition findMatchingJutsus (currentSequence : list Sign) : list Match :=
  map (withProgress currentSequence)
      (filter (isPrefixOf currentSequence) jutsus).

(** The callback of [jutsus.find] in [findCompletedJutsu]. *)
Definition isCompletedBy (currentSequence : list Sign) (jutsu : Jutsu) : bool :=
  if negb (List.length currentSequence =? List.length (signs jutsu))%nat
  then false
  else forallb (fun i =>
                  option_Sign_eqb (nth_error (signs jutsu) i)
                                  (nth_error currentSequence i))
               (seq 0 (List.length (signs jutsu))).

Definition findCompletedJutsu (currentSequence : list Sign) : option Jutsu :=
  find (isCompletedBy currentSequence) jutsus.

Definition resetSequence (reason : string) (st : State) : State * list Event :=
  let hadSigns := (0 <? List.length (currentSequence st))%nat in
  ({| currentSequence := [];
      matchingJutsus := [];
      lastDetectedSign := None;
      signHoldCount := 0;
      lastSignTime := lastSignTime st;
      onJutsuComplete := onJutsuComplete st;
      onSequenceUpdate := onSequenceUpdate st;
      onSequenceReset := onSequenceReset st;
      timers := timers st |},
   if hadSigns && onSequenceReset st then [SequenceReset reason] else []).

(** The timeout check at the head of [processSign]. *)
Definition timedOut (now : Z) (st : State) : bool :=
  (0 <? List.length (currentSequence st))%nat
  && (SEQUENCE_TIMEOUT_MS <? now - lastSignTime st)%Z.

Definition checkTimeout (now : Z) (st : State) : State * list Event :=
  if timedOut now st then resetSequence "timeout" st else (st, []).

(** [if (lastDetectedSign !== null) { signHoldCount = 0; lastDetectedSign = null; }] *)
Definition clearHold (st : State) : State :=
  match lastDetectedSign st with
  | Some _ =>
    {| currentSequence := currentSequence st;
       matchingJutsus := matchingJutsus st;
       lastDetectedSign := None;
       signHoldCount := 0;
       lastSignTime := lastSignTime st;
       onJutsuComplete := onJutsuComplete st;
       onSequenceUpdate := onSequenceUpdate st;
       onSequenceReset := onSequenceReset st;
       timers := timers st |}
  | None => st
  end.

(** Sign hold detection. *)
Definition holdSign (sign : Sign) (st : State) : State :=
  let same := option_Sign_eqb (Some sign) (lastDetectedSign st) in
  {| currentSequence := currentSequence st;
     matchingJutsus := matchingJutsus st;
     lastDetectedSign := if same then lastDetectedSign st else Some sign;
     signHoldCount := if same then S (signHoldCount st) else 1;
     lastSignTime := lastSignTime st;
     onJutsuComplete := onJutsuComplete st;
     onSequenceUpdate := onSequenceUpdate st;
     onSequenceReset := onSequenceReset st;
     timers := timers st |}.

(** [currentSequence[currentSequence.length - 1] === sign], guarded by
    [currentSequence.length > 0]. *)
Definition repeatsLast (sign : Sign) (st : State) : bool :=
  (0 <? List.length (currentSequence st))%nat
  && option_Sign_eqb
       (nth_error (currentSequence st) (List.length (currentSequence st) - 1))
       (Some sign).

(** [processSign] from [currentSequence.push(sign)] to its end. *)
Definition registerSign (sign : Sign) (now : Z) (st : State) : State * list Event :=
  let currentSequence' := currentSequence st ++ [sign] in
  let matchingJutsus' := findMatchingJutsus currentSequence' in
  let st :=
    {| currentSequence := currentSequence';
       lastSignTime := now;
       matchingJutsus := matchingJutsus';
       lastDetectedSign := lastDetectedSign st;
       signHoldCount := signHoldCount st;
       onJutsuComplete := onJutsuComplete st;
       onSequenceUpdate := onSequenceUpdate st;
       onSequenceReset := onSequenceReset st;
       timers := timers st |} in
  let notified :=
    if onSequenceUpdate st
    then [SequenceUpdate (currentSequence st) (matchingJutsus st)]
    else [] in
  match findCompletedJutsu (currentSequence st) with
  | Some completedJutsu =>
    let completed :=
      if onJutsuComplete st then [JutsuComplete completedJutsu] else [] in
    let '(st, reset) := resetSequence "completed" st in
    (st, notified ++ completed ++ reset)
  | None =>
    if (List.length (matchingJutsus st) =? 0)%nat
       && (0 <? List.length (currentSequence st))%nat
    then
      ({| currentSequence := currentSequence st;
          lastSignTime := lastSignTime st;
          matchingJutsus := matchingJutsus st;
          lastDetectedSign := lastDetectedSign st;
          signHoldCount := signHoldCount st;
          onJutsuComplete := onJutsuComplete st;
          onSequenceUpdate := onSequenceUpdate st;
          onSequenceReset := onSequenceReset st;
          timers := timers st ++ [(now + 1000)%Z] |},
       notified)
    else (st, notified)
  end.

(** [processSign] after the timeout check. *)
Definition acceptSign (classification : Sample) (now : Z) (st : State)
    : State * list Event :=
  match sign classification with
  | None => (clearHold st, [])
  | Some sign =>
    if ltb (confidence classification) MIN_CONFIDENCE then (clearHold st, [])
    else
      let st := holdSign sign st in
      if negb (signHoldCount st =? SIGN_HOLD_FRAMES)%nat then (st, [])
      else if repeatsLast sign st then (st, [])
      else registerSign sign now st
  end.

(** [processSign(classification)], with [now] the value of [Date.now()].
    [None] is a falsy argument, as [classify] returns for a malformed
    landmark array and as [app.js] passes when no hand is seen. *)
Definition processSign (classification : option Sample) (now : Z) (st : State)
    : State * list Event :=
  match classification with
  | None => (st, [])
  | Some classification =>
    let '(st, reset) := checkTimeout now st in
    let '(st, events) := acceptSign classification now st in
    (st, reset ++ events)
  end.

(** The closure given to [setTimeout]: it reads [matchingJutsus] when it
    runs. *)
Definition noMatchCheck (st : State) : State * list Event :=
  if (List.length (matchingJutsus st) =? 0)%nat
  then resetSequence "no-match" st
  else (st, []).

(** The oldest pending timer fires. *)
Definition fireTimer (st : State) : State * list Event :=
  match timers st with
  | [] => (st, [])
  | _ :: pending =>
    noMatchCheck
      {| currentSequence := currentSequence st;
         lastSignTime := lastSignTime st;
         matchingJutsus := matchingJutsus st;
         lastDetectedSign := lastDetectedSign st;
         signHoldCount := signHoldCount st;
         onJutsuComplete := onJutsuComplete st;
         onSequenceUpdate := onSequenceUpdate st;
         onSequenceReset := onSequenceReset st;
         timers := pending |}
  end.

(** [setCallbacks({ onComplete, onUpdate, onReset })]: a truthy entry is
    registered, a missing one leaves the variable as it is. *)
Definition setCallbacks (onComplete onUpdate onReset : bool) (st : State) : State :=
  {| currentSequence := currentSequence st;
     lastSignTime := lastSignTime st;
     matchingJutsus := matchingJutsus st;
     lastDetectedSign := lastDetectedSign st;
     signHoldCount := signHoldCount st;
     onJutsuComplete := onComplete || onJutsuComplete st;
     onSequenceUpdate := onUpdate || onSequenceUpdate st;
     onSequenceReset := onReset || onSequenceReset st;
     timers := timers st |}.

(** *** The detector as a transition system

    What the host can do to the detector between two frames. *)
Inductive Action : Type :=
  | Frame (classification : option Sample) (now : Z)
  | TimerFires
  | ResetCall (reason : string)
  | SetCallbacks (onComplete onUpdate onReset : bool).

Definition step (a : Action) (st : State) : State * list Event :=
  match a with
  | Frame classification now => processSign classification now st
  | TimerFires => fireTimer st
  | ResetCall reason => resetSequence reason st
  | SetCallbacks c u r => (setCallbacks c u r st, [])
  end.

(** Runs the actions in order and collects the callback calls. *)
Fixpoint run (actions : list Action) (st : State) : State * list Event :=
  match actions with
  | [] => (st, [])
  | a :: rest =>
    let '(st, events) := step a st in
    let '(st, events') := run rest st in
    (st, events ++ events')
  end.

Inductive reachable : State -> Prop :=
  | reachable_initial : reachable initial
  | reachable_step a st : reachable st -> reachable (fst (step a st)).

(** [n] consecutive frames showing [sign] with the given confidence, all
    stamped [now]. *)
Definition hold (n : nat) (sign : Sign) (conf : float) (now : Z) : list Action :=
  repeat (Frame (Some {| sign := Some sign; confidence := conf |}) now) n.

(** Consecutive frames that all show [sign], given by their confidence
    and their time stamp. *)
Definition framesOf (sign : Sign) (frames : list (float * Z)) : list Action :=
  map (fun fr => Frame (Some {| sign := Some sign; confidence := fst fr |}) (snd fr))
      frames.

(** No frame of the run finds the sequence timed out. *)
Fixpoint calm (actions : list Action) (st : State) : Prop :=
  match actions with
  | [] => True
  | a :: rest =>
    match a with
    | Frame _ now => timedOut now st = false
    | _ => True
    end
    /\ calm rest (fst (step a st))
  end.

(** Between two steps [matchingJutsus] is up to date with a non-empty
    [currentSequence], which is not a full catalog sequence, and a
    sequence that matches nothing has a deferred check pending. *)
Definition consistent (st : State) : Prop :=
  (currentSequence st = [] /\ matchingJutsus st = [])
  \/ (currentSequence st <> []
      /\ matchingJutsus st = findMatchingJutsus (currentSequence st)
      /\ findCompletedJutsu (currentSequence st) = None
      /\ (matchingJutsus st = [] -> timers st <> [])).

Definition isUpdate (e : Event) : bool :=
  match e with SequenceUpdate _ _ => true | _ => false end.

Definition isComplete (e : Event) : bool :=
  match e with JutsuComplete _ => true | _ => false end.

(** *** Notions used by the properties *)

(** No element of the list equals the one before it. *)
Fixpoint noRepeat (l : list Sign) : bool :=
  match l with
  | a :: (b :: _) as rest => negb (Sign_eqb a b) && noRepeat rest
  | _ => true
  end.

(** The hold count is 0 exactly when no sign is being held. *)
Definition holdState_ok (st : State) : Prop :=
  match lastDetectedSign st with
  | None => signHoldCount st = 0%nat
  | Some _ => (1 <= signHoldCount st)%nat
  end.

(** [getProgress()]: the pair [{ sequence, matching }]. *)
Definition getProgress (st : State) : list Sign * list Match :=
  (currentSequence st, matchingJutsus st).

(** The number of frames the sign has been held for so far. *)
Definition heldFor (sign : Sign) (st : State) : nat :=
  if option_Sign_eqb (Some sign) (lastDetectedSign st)
  then signHoldCount st else 0.

(** The state in which [sign] has been seen on [count] frames in a row. *)
Definition holding (sign : Sign) (count : nat) (st : State) : State :=
  {| currentSequence := currentSequence st;
     lastSignTime := lastSignTime st;
     lastDetectedSign := Some sign;
     signHoldCount := count;
     matchingJutsus := matchingJutsus st;
     onJutsuComplete := onJutsuComplete st;
     onSequenceUpdate := onSequenceUpdate st;
     onSequenceReset := onSequenceReset st;
     timers := timers st |}.

(** Each sign of the list shown on eight frames in a row: the sign [s]
    with confidence [conf s], and the [k]-th sign, counted from [first],
    at time [times k]. *)
Fixpoint performFrom (first : nat) (signs : list Sign) (conf : Sign -> float)
    (times : nat -> Z) : list Action :=
  match signs with
  | [] => []
  | s :: rest =>
    hold 8 s (conf s) (times first) ++ performFrom (S first) rest conf times
  end.

Definition perform (signs : list Sign) (conf : Sign -> float)
    (times : nat -> Z) : list Action :=
  performFrom 0 signs conf times.

(** The update events for the first [k] signs of [jutsu]. *)
Definition updatesUpTo (st : State) (jutsu : Jutsu) (k : nat) : list Event :=
  if onSequenceUpdate st
  then map (fun i => SequenceUpdate (firstn i (signs jutsu))
                       (findMatchingJutsus (firstn i (signs jutsu))))
           (seq 1 k)
  else [].

(** The callbacks fired while [jutsu] is performed from an empty
    sequence: an update per sign, the completion, the reset. *)
Definition performanceEvents (st : State) (jutsu : Jutsu) : list Event :=
  updatesUpTo st jutsu (List.length (signs jutsu))
  ++ (if onJutsuComplete st then [JutsuComplete jutsu] else [])
  ++ (if onSequenceReset st then [SequenceReset "completed"] else []).

(** The detector has recorded the first [k] signs of [jutsu], the last
    of them at time [times (k - 1)], coming from [st]. *)
Definition recordedPrefix (st : State) (jutsu : Jutsu) (times : nat -> Z)
    (k : nat) (st' : State) : Prop :=
  currentSequence st' = firstn k (signs jutsu)
  /\ match k with
     | O => lastDetectedSign st' = None
     | S k' => lastDetectedSign st' = Some (nth k' (signs jutsu) Tiger)
               /\ lastSignTime st' = times k'
     end
  /\ onJutsuComplete st' = onJutsuComplete st
  /\ onSequenceUpdate st' = onSequenceUpdate st
  /\ onSequenceReset st' = onSequenceReset st.

(** Every callback registered in [st] is registered in [st']. *)
Definition keepsCallbacks (st st' : State) : Prop :=
  (onJutsuComplete st = true -> onJutsuComplete st' = true)
  /\ (onSequenceUpdate st = true -> onSequenceUpdate st' = true)
  /\ (onSequenceReset st = true -> onSequenceReset st' = true).

End JutsuDetector.

(** ** app.js *)

Module App.
Import F64 HandSignClassifier.

(** The landmark pairs joined by a line. *)
Definition HAND_CONNECTIONS : list (nat * nat) :=
  [ (0, 1); (1, 2); (2, 3); (3, 4);
    (0, 5); (5, 6); (6, 7); (7, 8);
    (0, 9); (9, 10); (10, 11); (11, 12);
    (0, 13); (13, 14); (14, 15); (15, 16);
    (0, 17); (17, 18); (18, 19); (19, 20);
    (5, 9); (9, 13); (13, 17) ]%nat.

(** [drawLandmarks(landmarks, handedness)], as far as it can fail: it reads
    [landmarks[a].x] and [landmarks[b].x] for every connection, which
    throws a TypeError when the array has no such element; [None] is
    that exception.  The drawing itself is not modelled. *)
Definition drawLandmarks (landmarks : list Landmark) : option unit :=
  if forallb (fun c => (fst c <? List.length landmarks)%nat
                       && (snd c <? List.length landmarks)%nat)
             HAND_CONNECTIONS
  then Some tt else None.

Section WithAcos.

Variable Math_acos : float -> float.

(** The body of the [if] in the loop of [onResults]:
    [classification && (!bestClassification ||
     classification.confidence > bestClassification.confidence)]. *)
Definition keepBest (bestClassification classification : option Classification)
    : option Classification :=
  match classification with
  | None => bestClassification
  | Some c =>
    match bestClassification with
    | None => Some c
    | Some b => if gtb (confidence c) (confidence b) then Some c
                else bestClassification
    end
  end.

(** The loop over [results.multiHandLandmarks], from the value of
    [bestClassification] before it; [None] when [drawLandmarks] throws. *)
Fixpoint handsLoop (hands : list (list Landmark))
    (bestClassification : option Classification)
    : option (option Classification) :=
  match hands with
  | [] => Some bestClassification
  | landmarks :: rest =>
    match drawLandmarks landmarks with
    | None => None
    | Some _ =>
      handsLoop rest (keepBest bestClassification (classify Math_acos landmarks))
    end
  end.

(** [onResults(results)] as far as the detector is concerned:
    [multiHandLandmarks] is [None] where MediaPipe leaves the property
    out, [now] is the value [Date.now()] has in [processSign].  [None] is
    an exception that leaves [onResults] before [processSign] is
    called.  [results.multiHandedness] is taken to come with
    [multiHandLandmarks], as MediaPipe delivers it; the canvas, the sign
    display, the debug panel and the data handed to the effects are not
    modelled. *)
Definition onResults (multiHandLandmarks : option (list (list Landmark)))
    (now : Z) (st : JutsuDetector.State)
    : option (JutsuDetector.State * list JutsuDetector.Event) :=
  let bestClassification :=
    match multiHandLandmarks with
    | Some hands => handsLoop hands None
    | None => Some None
    end in
  match bestClassification with
  | None => None
  | Some bestClassification =>
    Some (JutsuDetector.processSign
            (option_map JutsuDetector.sample_of bestClassification) now st)
  end.

(** The hand whose classification the loop keeps: the first one of
    greatest confidence among the hands seen. *)
Definition kept (seen : list (list Landmark)) (best : option Classification) : Prop :=
  match best with
  | None => seen = []
  | Some b =>
    exists before lm after,
      seen = before ++ lm :: after
      /\ classify Math_acos lm = Some b
      /\ Forall (fun l => forall c, classify Math_acos l = Some c ->
                          ltb (confidence c) (confidence b) = true) before
      /\ Forall (fun l => forall c, classify Math_acos l = Some c ->
                          leb (confidence c) (confidence b) = true) after
  end.

(** [onResults] called on the frames in turn, each given by its
    [multiHandLandmarks] and the time it is processed at; the session is
    not followed past an exception. *)
Fixpoint session (frames : list (option (list (list Landmark)) * Z))
    (st : JutsuDetector.State)
    : option (JutsuDetector.State * list JutsuDetector.Event) :=
  match frames with
  | [] => Some (st, [])
  | (multiHandLandmarks, now) :: rest =>
    match onResults multiHandLandmarks now st with
    | None => None
    | Some (st, events) =>
      match session rest st with
      | None => None
      | Some (st, events') => Some (st, events ++ events')
      end
    end
  end.

End WithAcos.

End App.

(** ** Sample inputs *)

Module Samples.

Import F64 HandSignClassifier JutsuDetector.

(** The landmark [(a/100, b/100)], without [z]. *)
Definition pt (a b : Z) : Landmark :=
  {| x := dec a 2; y := dec b 2; z := None |}.

(** A hand pointing down the image: thumb and index straight, middle
    slightly bent with its tip next to the index tip, ring half curled,
    pinky folded. *)
Definition twoFingerHand : list Landmark :=
  [ pt 50 20;
    pt 46 25; pt 43 30; pt 40 35; pt 37 40;
    pt 47 40; pt 47 46; pt 47 52; pt 47 58;
    pt 50 40; pt 50 46; pt 54 50; pt 50 55;
    pt 53 40; pt 53 46; pt 54 44; pt 56 49;
    pt 56 39; pt 56 44; pt 58 42; pt 57 40 ].

(** The same hand with the wrist on the middle-finger base, so that the
    palm has length zero. *)
Definition zeroPalmHand : list Landmark :=
  pt 50 40 :: tl twoFingerHand.

(** A stand-in for [Math.acos] where a closed term is needed. *)
Definition acos_nan (a : float) : float := nan.

(** A frame showing [s] with confidence 0.9. *)
Definition shows (s : Sign) (now : Z) : Action :=
  Frame (Some {| sign := Some s; confidence := d0_9 |}) now.

(** A frame on which the classifier found no sign. *)
Definition noSign (now : Z) : Action :=
  Frame (Some {| sign := None; confidence := d0 |}) now.

(** All three callbacks registered; Ox and Hare recorded, Monkey held
    for seven frames. *)
Definition chidoriAlmost : State :=
  fst (run (SetCallbacks true true true
            :: hold 8 Ox d0_9 100 ++ hold 8 Hare d0_9 200
               ++ hold 7 Monkey d0_9 300)
           initial).

(** Ram recorded, then one frame without a sign. *)
Definition ramThenPause : State :=
  fst (run (hold 8 Ram d0_9 100 ++ [noSign 150]) initial).

(** Ram recorded, then Snake held for three frames. *)
Definition ramThenSnake : State :=
  fst (run (hold 8 Ram d0_9 100 ++ hold 3 Snake d0_9 200) initial).

(** Tiger held for eight frames from the start. *)
Definition tigerAlone : State :=
  fst (run (hold 8 Tiger d0_9 100) initial).

(** Ram recorded at time 100. *)
Definition ramRecorded : State :=
  fst (run (hold 8 Ram d0_9 100) initial).

(** [twoFingerHand] with the index finger moved away from the middle
    finger: the two tips are more than 0.35 palm sizes apart. *)
Definition peaceHand : list Landmark :=
  [ pt 50 20;
    pt 46 25; pt 43 30; pt 40 35; pt 37 40;
    pt 41 40; pt 41 46; pt 41 52; pt 41 58;
    pt 50 40; pt 50 46; pt 54 50; pt 50 55;
    pt 53 40; pt 53 46; pt 54 44; pt 56 49;
    pt 56 39; pt 56 44; pt 58 42; pt 57 40 ].

(** Five frames showing Ram, one frame without a sign, five more frames
    showing Ram. *)
Definition fiveRamFrames : list (float * Z) := repeat (d0_9, 100%Z) 5.

(** The time of the [k]-th sign of a performance at one sign a second. *)
Definition everySecond (k : nat) : Z := (100 + 1000 * Z.of_nat k)%Z.

(** For each sign a hand that shows it, with landmarks on the grid of
    hundredths. *)
Definition handShowing (s : Sign) : list Landmark :=
  match s with
  | Tiger =>
    [ pt 50 20;
      pt 46 25; pt 46 32; pt 48 30; pt 47 26;
      pt 42 40; pt 43 48; pt 44 56; pt 45 64;
      pt 50 40; pt 50 48; pt 50 56; pt 50 64;
      pt 53 40; pt 53 48; pt 55 46; pt 54 41;
      pt 62 39; pt 62 45; pt 64 43; pt 63 40 ]
  | Snake =>
    [ pt 50 20;
      pt 46 25; pt 46 32; pt 50 36; pt 50 30;
      pt 47 40; pt 47 48; pt 49 46; pt 48 41;
      pt 50 40; pt 50 46; pt 54 50; pt 54 44;
      pt 56 40; pt 56 48; pt 58 46; pt 57 41;
      pt 64 39; pt 64 43; pt 68 47; pt 68 41 ]
  | Ram => peaceHand
  | Monkey =>
    [ pt 50 20;
      pt 46 25; pt 46 30; pt 50 34; pt 50 28;
      pt 45 40; pt 43 48; pt 41 56; pt 39 64;
      pt 50 40; pt 49 48; pt 48 56; pt 47 64;
      pt 58 40; pt 56 46; pt 54 52; pt 52 58;
      pt 57 39; pt 57 45; pt 57 51; pt 57 57 ]
  | Boar =>
    [ pt 50 20;
      pt 46 25; pt 46 30; pt 46 35; pt 46 40;
      pt 41 40; pt 42 44; pt 43 48; pt 44 52;
      pt 50 40; pt 52 46; pt 54 52; pt 56 58;
      pt 53 40; pt 52 48; pt 51 56; pt 50 64;
      pt 57 39; pt 58 43; pt 59 47; pt 60 51 ]
  | Horse =>
    [ pt 50 20;
      pt 46 25; pt 44 28; pt 42 31; pt 40 34;
      pt 47 40; pt 49 44; pt 51 48; pt 53 52;
      pt 50 40; pt 50 48; pt 54 52; pt 54 46;
      pt 52 40; pt 52 44; pt 56 48; pt 56 42;
      pt 56 39; pt 56 45; pt 60 49; pt 60 43 ]
  | Bird =>
    [ pt 50 20;
      pt 46 25; pt 49 32; pt 52 39; pt 55 46;
      pt 46 40; pt 46 46; pt 48 44; pt 47 41;
      pt 50 40; pt 50 48; pt 52 46; pt 51 41;
      pt 57 40; pt 58 44; pt 59 48; pt 60 52;
      pt 58 39; pt 58 43; pt 58 47; pt 58 51 ]
  | Dog =>
    [ pt 50 20;
      pt 46 25; pt 46 28; pt 46 31; pt 46 34;
      pt 45 40; pt 46 48; pt 47 56; pt 48 64;
      pt 50 40; pt 50 48; pt 50 56; pt 50 64;
      pt 52 40; pt 51 48; pt 50 56; pt 49 64;
      pt 58 39; pt 56 47; pt 54 55; pt 52 63 ]
  | Dragon => twoFingerHand
  | Ox =>
    [ pt 50 20;
      pt 46 25; pt 46 28; pt 48 26; pt 47 26;
      pt 44 40; pt 42 48; pt 40 56; pt 38 64;
      pt 50 40; pt 50 44; pt 52 42; pt 51 41;
      pt 58 40; pt 58 46; pt 60 44; pt 59 41;
      pt 57 39; pt 59 43; pt 61 47; pt 63 51 ]
  | Hare =>
    [ pt 50 20;
      pt 46 25; pt 46 30; pt 48 28; pt 47 26;
      pt 46 40; pt 46 48; pt 48 46; pt 47 41;
      pt 50 40; pt 50 46; pt 52 44; pt 51 41;
      pt 58 40; pt 58 44; pt 62 48; pt 62 42;
      pt 64 39; pt 66 45; pt 68 51; pt 70 57 ]
  | Rat =>
    [ pt 50 20;
      pt 46 25; pt 44 30; pt 42 35; pt 40 40;
      pt 40 40; pt 40 46; pt 42 44; pt 41 41;
      pt 50 40; pt 50 48; pt 52 46; pt 51 41;
      pt 52 40; pt 52 48; pt 56 52; pt 56 46;
      pt 61 39; pt 61 43; pt 65 47; pt 65 41 ]
  end.

(** The confidence [classify] gives the hand that shows [s]. *)
Definition confidenceShown (Math_acos : float -> float) (s : Sign) : float :=
  match classify Math_acos (handShowing s) with
  | Some r => HandSignClassifier.confidence r
  | None => d0
  end.

(** The camera frames of a performance: for each sign in turn, eight
    frames with the one hand that shows it; the frames of the [k]-th
    sign, counted from [first], are processed at time [times k]. *)
Fixpoint showingFrom (first : nat) (signs : list Sign) (times : nat -> Z)
    : list (option (list (list Landmark)) * Z) :=
  match signs with
  | [] => []
  | s :: rest =>
    repeat (Some [handShowing s], times first) 8
    ++ showingFrom (S first) rest times
  end.

Definition showing (signs : list Sign) (times : nat -> Z)
    : list (option (list (list Landmark)) * Z) :=
  showingFrom 0 signs times.

End Samples.

(** * Properties *)

(** ** The order on doubles *)

Section FloatOrder.

Import F64.

Lemma lex_Lt e1 m1 e2 m2 :
  lex e1 m1 e2 m2 = Lt <-> (e1 < e2)%Z \/ (e1 = e2 /\ (m1 < m2)%positive).
Proof.
  unfold lex. change (Pos.compare_cont Eq m1 m2) with (m1 ?= m2)%positive.
  destruct (Z.compare_spec e1 e2); rewrite ?Pos.compare_lt_iff;
    split; intros; try lia; try discriminate.
  reflexivity.
Qed.

Lemma lex_Gt e1 m1 e2 m2 :
  lex e1 m1 e2 m2 = Gt <-> (e2 < e1)%Z \/ (e1 = e2 /\ (m2 < m1)%positive).
Proof.
  unfold lex. change (Pos.compare_cont Eq m1 m2) with (m1 ?= m2)%positive.
  destruct (Z.compare_spec e1 e2); rewrite ?Pos.compare_gt_iff;
    split; intros; try lia; try discriminate.
  reflexivity.
Qed.

Lemma lex_refl e m : lex e m e m = Eq.
Proof. unfold lex. rewrite Z.compare_refl. apply Pos.compare_cont_refl. Qed.

Lemma SFcompare_finite s1 m1 e1 s2 m2 e2 :
  SFcompare (S754_finite s1 m1 e1) (S754_finite s2 m2 e2) =
  Some match s1, s2 with
       | true, false => Lt
       | false, true => Gt
       | false, false => lex e1 m1 e2 m2
       | true, true => CompOpp (lex e1 m1 e2 m2)
       end.
Proof.
  unfold lex; destruct s1, s2; cbn [SFcompare]; try reflexivity.
  destruct (e1 ?= e2)%Z; reflexivity.
Qed.

Lemma ltb_trans (a b c : float) :
  ltb a b = true -> ltb b c = true -> ltb a c = true.
Proof.
  unfold ltb, SFltb.
  destruct a as [sa|sa| |sa ma ea], b as [sb|sb| |sb mb eb],
           c as [sc|sc| |sc mc ec];
    rewrite ?SFcompare_finite;
    try (destruct sa); try (destruct sb); try (destruct sc);
    cbn [SFcompare]; try discriminate; try reflexivity.
  - destruct (lex ea ma eb mb) eqn:E1; try discriminate.
    destruct (lex eb mb ec mc) eqn:E2; try discriminate.
    intros _ _. apply lex_Gt in E1, E2.
    assert (E : lex ea ma ec mc = Gt) by (apply lex_Gt; lia).
    rewrite E; reflexivity.
  - destruct (lex ea ma eb mb) eqn:E1; try discriminate.
    destruct (lex eb mb ec mc) eqn:E2; try discriminate.
    intros _ _. apply lex_Lt in E1, E2.
    assert (E : lex ea ma ec mc = Lt) by (apply lex_Lt; lia).
    rewrite E; reflexivity.
Qed.

Lemma ltb_irrefl (a : float) : ltb a a = false.
Proof.
  unfold ltb, SFltb.
  destruct a as [sa|sa| |sa ma ea]; rewrite ?SFcompare_finite;
    try destruct sa; cbn [SFcompare]; try reflexivity;
    rewrite lex_refl; reflexivity.
Qed.

Lemma ltb_asym (a b : float) : ltb a b = true -> ltb b a = false.
Proof.
  intros H. destruct (ltb b a) eqn:E; [|reflexivity].
  pose proof (ltb_trans _ _ _ H E) as F.
  rewrite ltb_irrefl in F. discriminate.
Qed.

Lemma lex_Eq_not_Lt e1 m1 e2 m2 :
  lex e1 m1 e2 m2 = Eq -> lex e2 m2 e1 m1 = Eq.
Proof.
  unfold lex. change (Pos.compare_cont Eq m1 m2) with (m1 ?= m2)%positive.
  destruct (Z.compare_spec e1 e2); try discriminate.
  intros E. apply Pos.compare_eq in E. subst.
  rewrite Z.compare_refl. apply Pos.compare_cont_refl.
Qed.

(** [a <= b] excludes [b < a]. *)
Lemma leb_not_ltb (a b : float) : leb a b = true -> ltb b a = false.
Proof.
  unfold leb, ltb, SFleb, SFltb.
  destruct a as [sa|sa| |sa ma ea], b as [sb|sb| |sb mb eb];
    rewrite ?SFcompare_finite;
    try (destruct sa); try (destruct sb);
    cbn [SFcompare]; try discriminate; try reflexivity.
  - destruct (lex ea ma eb mb) eqn:E1; cbn [CompOpp]; try discriminate; intros _.
    + rewrite (lex_Eq_not_Lt _ _ _ _ E1). reflexivity.
    + apply lex_Gt in E1. destruct (lex eb mb ea ma) eqn:E2; try reflexivity.
      apply lex_Gt in E2. lia.
  - destruct (lex ea ma eb mb) eqn:E1; cbn [CompOpp]; try discriminate; intros _.
    + rewrite (lex_Eq_not_Lt _ _ _ _ E1). reflexivity.
    + apply lex_Lt in E1. destruct (lex eb mb ea ma) eqn:E2; try reflexivity.
      apply lex_Lt in E2. lia.
Qed.

(** [0 <= b < s] gives [0 < s]. *)
Lemma ltb_zero_trans (b s : float) :
  leb d0 b = true -> ltb b s = true -> ltb d0 s = true.
Proof.
  destruct b as [[]|[]| |[] m e], s as [[]|[]| |[] m' e'];
    cbn; try discriminate; try reflexivity.
Qed.

Lemma ltb_leb (a b : float) : ltb a b = true -> leb a b = true.
Proof.
  unfold ltb, leb, SFltb, SFleb.
  destruct (SFcompare a b) as [[]|]; try discriminate; reflexivity.
Qed.

Ltac fold_lex :=
  repeat match goal with
  | |- context [match (?e1 ?= ?e2)%Z with
                | Eq => Pos.compare_cont Eq ?m1 ?m2 | Lt => Lt | Gt => Gt end] =>
    change (match (e1 ?= e2)%Z with
            | Eq => Pos.compare_cont Eq m1 m2 | Lt => Lt | Gt => Gt end)
      with (lex e1 m1 e2 m2)
  end.

(** [Math.min(c, s)] for a positive finite [c] and a positive [s] lies in
    the interval (0, c]. *)
Lemma Math_min_pos (mc : positive) (ec : Z) (s : float) :
  ltb d0 s = true ->
  ltb d0 (Math_min (S754_finite false mc ec) s) = true
  /\ leb (Math_min (S754_finite false mc ec) s) (S754_finite false mc ec) = true.
Proof.
  unfold Math_min, ltb, leb, SFltb, SFleb, d0, zero.
  destruct s as [[]|[]| |[] m e]; cbn [SFcompare]; fold_lex;
    try discriminate; intros _.
  - rewrite lex_refl. split; reflexivity.
  - destruct (lex ec mc e m) eqn:E; cbn [SFcompare]; fold_lex;
      rewrite ?lex_refl; try (split; reflexivity).
    apply lex_Gt in E. rewrite (proj2 (lex_Lt e m ec mc)) by lia.
    split; reflexivity.
Qed.

Lemma Math_min_nonneg (mc : positive) (ec : Z) (s : float) :
  leb d0 s = true -> leb d0 (Math_min (S754_finite false mc ec) s) = true.
Proof.
  unfold Math_min, leb, SFleb, d0, zero.
  destruct s as [[]|[]| |[] m e]; cbn [SFcompare]; fold_lex;
    try discriminate; intros _; try reflexivity.
  destruct (lex ec mc e m); reflexivity.
Qed.

End FloatOrder.

(** ** The classifier *)

(** Splits on the atomic conditions of the [if] statements of a rule. *)
Ltac destruct_atom c :=
  lazymatch c with
  | true => fail
  | false => fail
  | negb ?a => destruct_atom a
  | andb ?a ?b => first [destruct_atom a | destruct_atom b]
  | orb ?a ?b => first [destruct_atom a | destruct_atom b]
  | _ => destruct c
  end.

Ltac split_flags :=
  repeat (match goal with
          | |- context [HandSignClassifier.plus_if ?c _ _] => destruct_atom c
          | |- context [HandSignClassifier.minus_if ?c _ _] => destruct_atom c
          end;
          cbn [negb andb orb HandSignClassifier.plus_if HandSignClassifier.minus_if]).

Section Classifier.

Import F64 HandSignClassifier.

Variable Math_acos : float -> float.

Lemma signRules_keys : map fst signRules = allSigns.
Proof. reflexivity. Qed.

(** Every rule returns a score that is a number and at least 0, whatever
    the features: the sums of its weights are checked one by one. *)
Lemma rule_scores_nonneg (f : HandFeatures) :
  Forall (fun e => leb d0 (score (snd e f)) = true) signRules.
Proof.
  unfold signRules.
  repeat (apply Forall_cons; [|]); [..|apply Forall_nil]; cbn [snd].
  all: lazymatch goal with |- leb _ (score (?r _)) = true => unfold r end.
  all: cbn [score].
  all: split_flags; vm_compute; reflexivity.
Qed.

Lemma best_ok_nonneg acc : best_ok acc -> leb d0 (bestScore acc) = true.
Proof.
  intros [[_ ->]|[s [_ H]]]; [reflexivity | apply ltb_leb, H].
Qed.

Lemma classify_step_ok f acc e :
  leb d0 (score (snd e f)) = true -> best_ok acc ->
  best_ok (classify_step f acc e)
  /\ results (classify_step f acc e) = results acc ++ [reported f e].
Proof.
  intros He Hacc. destruct e as [s r]. unfold classify_step, reported.
  cbn [fst snd] in *.
  destruct (gtb (score (r f)) (bestScore acc)) eqn:E;
    cbn [results bestSign bestScore].
  - split; [|reflexivity]. right. exists s. split; [reflexivity|].
    eapply ltb_zero_trans; [apply best_ok_nonneg, Hacc | exact E].
  - split; [exact Hacc | reflexivity].
Qed.

Lemma classify_fold_ok f rs acc :
  Forall (fun e => leb d0 (score (snd e f)) = true) rs -> best_ok acc ->
  best_ok (fold_left (classify_step f) rs acc)
  /\ results (fold_left (classify_step f) rs acc)
     = results acc ++ map (reported f) rs.
Proof.
  intros Hrs. revert acc. induction Hrs as [|e rs He Hrs IH]; intros acc Hacc.
  - cbn. rewrite app_nil_r. auto.
  - cbn [fold_left map].
    destruct (classify_step_ok f acc e He Hacc) as [Hok Hres].
    destruct (IH _ Hok) as [Hok' Hres'].
    split; [exact Hok'|]. rewrite Hres', Hres, <- app_assoc. reflexivity.
Qed.

(** C5.  On every landmark array of at least 21 points, whatever its
    coordinates, [classify] returns a result that either has [sign = null]
    and [confidence = 0], or has one of the twelve signs and a confidence
    in (0, 1]; in both cases [allScores] has one entry per sign, in the
    order of [signRules], and every reported score is at least 0. *)
Theorem classify_result_shape (lm : list Landmark) :
  (21 <= List.length lm)%nat ->
  exists r,
    classify Math_acos lm = Some r
    /\ ((sign r = None /\ confidence r = d0)
        \/ (exists s, sign r = Some s /\ In s allSigns
                      /\ ltb d0 (confidence r) = true
                      /\ leb (confidence r) d1 = true))
    /\ map fst (allScores r) = allSigns
    /\ Forall (fun e => leb d0 (score (snd e)) = true) (allScores r).
Proof.
  intros H. unfold classify, getHandFeatures.
  destruct (Nat.ltb_spec (List.length lm) 21) as [|_]; [lia|].
  set (f := handFeatures Math_acos lm).
  set (acc0 := {| results := []; bestSign := None; bestScore := d0 |}).
  destruct (@classify_fold_ok f signRules acc0 (rule_scores_nonneg f))
    as [Hok Hres].
  { left. split; reflexivity. }
  assert (Hkeys : map fst (results (fold_left (classify_step f) signRules acc0))
                  = allSigns).
  { rewrite Hres. reflexivity. }
  assert (Hsc : Forall (fun e => leb d0 (score (snd e)) = true)
                  (results (fold_left (classify_step f) signRules acc0))).
  { rewrite Hres. cbn [results acc0 app]. apply Forall_map.
    eapply Forall_impl; [|apply (rule_scores_nonneg f)].
    intros e He. cbn [reported snd score]. apply Math_min_nonneg, He. }
  destruct (ltb (bestScore _) d0_45) eqn:Efloor; eexists; (split; [reflexivity|]);
    cbn [sign confidence allScores]; (split; [|split; assumption]).
  - left. split; reflexivity.
  - right. destruct Hok as [[_ Hz]|[s [Hs Hpos]]].
    + rewrite Hz in Efloor. discriminate Efloor.
    + exists s. split; [exact Hs|]. split.
      * destruct s; cbn; tauto.
      * apply Math_min_pos, Hpos.
Qed.

Lemma at_firstn (l1 l2 : list Landmark) (k : nat) :
  firstn 21 l1 = firstn 21 l2 -> (k < 21)%nat -> at_ l1 k = at_ l2 k.
Proof.
  intros H Hk. unfold at_.
  assert (E : forall l, nth k l undefined_landmark
                        = nth k (firstn 21 l) undefined_landmark).
  { intros l. rewrite nth_firstn.
    destruct (Nat.ltb_spec k 21); [reflexivity | lia]. }
  rewrite (E l1), (E l2), H. reflexivity.
Qed.

(** No rule reads the [lm] field of the feature set. *)
Lemma rules_ignore_lm (lm : list Landmark) (f : HandFeatures) :
  forall e, In e signRules -> snd e (with_lm lm f) = snd e f.
Proof.
  intros e He. destruct f.
  repeat (destruct He as [<-|He]; [reflexivity|]). destruct He.
Qed.

(** Apart from that field, the features are computed from landmarks 0 to
    20 only. *)
Lemma handFeatures_first_21 (l1 l2 : list Landmark) :
  firstn 21 l1 = firstn 21 l2 ->
  handFeatures Math_acos l1 = with_lm l1 (handFeatures Math_acos l2).
Proof.
  intros H.
  unfold handFeatures, getFingerCurl, getThumbCurl, getPalmSize, getFingerAngle.
  rewrite !(at_firstn l1 l2 _ H) by lia.
  reflexivity.
Qed.

Lemma classify_fold_ext (f g : HandFeatures) rs acc :
  (forall e, In e rs -> snd e f = snd e g) ->
  fold_left (classify_step f) rs acc = fold_left (classify_step g) rs acc.
Proof.
  revert acc. induction rs as [|e rs IH]; intros acc H; [reflexivity|].
  cbn [fold_left].
  assert (E : classify_step f acc e = classify_step g acc e).
  { unfold classify_step. destruct e as [s r].
    specialize (H (s, r) (or_introl eq_refl)). cbn [snd] in H. rewrite H.
    reflexivity. }
  rewrite E. apply IH. intros e' He'. apply H. right. exact He'.
Qed.

(** C10.  [classify] accepts arrays of more than 21 landmarks, and two
    arrays of at least 21 landmarks that agree at indices 0 to 20 get the
    same sign, the same confidence and the same per-sign score table. *)
Theorem classify_reads_first_21 (l1 l2 : list Landmark) :
  (21 <= List.length l1)%nat -> (21 <= List.length l2)%nat ->
  firstn 21 l1 = firstn 21 l2 ->
  exists r1 r2,
    classify Math_acos l1 = Some r1 /\ classify Math_acos l2 = Some r2
    /\ sign r1 = sign r2
    /\ confidence r1 = confidence r2
    /\ allScores r1 = allScores r2.
Proof.
  intros H1 H2 H. unfold classify, getHandFeatures.
  destruct (Nat.ltb_spec (List.length l1) 21) as [|_]; [lia|].
  destruct (Nat.ltb_spec (List.length l2) 21) as [|_]; [lia|].
  rewrite (handFeatures_first_21 l1 l2 H).
  rewrite (@classify_fold_ext _ _ signRules _
             (rules_ignore_lm l1 (handFeatures Math_acos l2))).
  destruct (ltb (bestScore _) d0_45); do 2 eexists;
    (split; [reflexivity|]); (split; [reflexivity|]);
    cbn [sign confidence allScores]; repeat split.
Qed.

End Classifier.

(** ** Tiger against Ram and Dragon *)

Section TigerHand.

Import F64 HandSignClassifier.
Local Open Scope f64_scope.

Variable Math_acos : float -> float.

Lemma handFeatures_flags (lm : list Landmark) :
  flags_consistent (handFeatures Math_acos lm).
Proof.
  cbv beta iota zeta delta
    [flags_consistent handFeatures
     thumbCurl indexCurl middleCurl ringCurl pinkyCurl indexMiddleSpread
     thumbExtended indexExtended middleExtended ringExtended pinkyExtended
     thumbCurled indexCurled middleCurled ringCurled pinkyCurled
     indexMiddleTouching indexMiddleOnly allFingersCurled
     allFingersExtended hornsShape].
  repeat split.
Qed.

Lemma ltb_gtb_conflict (x a b : float) :
  ltb b a = false -> ltb x a = true -> gtb x b = false.
Proof.
  intros Hba Hxa. unfold gtb. fold (ltb b x).
  destruct (ltb b x) eqn:E; [|reflexivity].
  rewrite (ltb_trans _ _ _ E Hxa) in Hba. discriminate.
Qed.

Lemma gtb_ltb_conflict (x a b : float) :
  ltb a b = false -> gtb x a = true -> ltb x b = false.
Proof.
  intros Hab Hxa. destruct (ltb x b) eqn:E; [|reflexivity].
  rewrite (ltb_trans _ _ _ Hxa E) in Hab. discriminate.
Qed.

Section Hand.

Variable f : HandFeatures.
Hypothesis Hflags : flags_consistent f.
Hypothesis Hindex : (indexCurl f < d0_4) = true.
Hypothesis Hmiddle : (middleCurl f < d0_4) = true.
Hypothesis Hring : (ringCurl f > d0_55) = true.
Hypothesis Hpinky : (pinkyCurl f > d0_55) = true.
Hypothesis Hspread : (indexMiddleSpread f < d0_25) = true.

Lemma hand_flags :
  indexExtended f = true /\ middleExtended f = true
  /\ ringCurled f = true /\ pinkyCurled f = true
  /\ indexMiddleTouching f = true
  /\ indexCurled f = false /\ middleCurled f = false
  /\ ringExtended f = false /\ pinkyExtended f = false
  /\ allFingersCurled f = false /\ allFingersExtended f = false
  /\ hornsShape f = false.
Proof.
  destruct Hflags as (_ & E1 & E2 & E3 & E4 & E5 & E6 & E7 & E8 & _ & E9
                      & _ & E10 & E11 & E12).
  assert (indexCurled f = false)
    by (rewrite E5; apply (ltb_gtb_conflict _ d0_4); [reflexivity|assumption]).
  assert (middleCurled f = false)
    by (rewrite E6; apply (ltb_gtb_conflict _ d0_4); [reflexivity|assumption]).
  assert (ringExtended f = false)
    by (rewrite E3; apply (gtb_ltb_conflict _ d0_55); [reflexivity|assumption]).
  assert (pinkyExtended f = false)
    by (rewrite E4; apply (gtb_ltb_conflict _ d0_55); [reflexivity|assumption]).
  rewrite E10, E11, E12, E1, E2, E7, E8, E9.
  repeat match goal with H : _ = false |- _ => rewrite H end.
  rewrite Hindex, Hmiddle, Hring, Hpinky, Hspread. repeat split.
Qed.

Lemma hand_bounds :
  (indexCurl f > d0_6) = false
  /\ (indexMiddleSpread f > d0_35) = false
  /\ (indexMiddleSpread f > d0_3) = false
  /\ (indexMiddleSpread f > d0_4) = false
  /\ (indexMiddleSpread f < d0_4) = true
  /\ (middleCurl f < d0_65) = true
  /\ (ringCurl f > d0_25) = true.
Proof.
  repeat split.
  - apply (ltb_gtb_conflict _ d0_4); [reflexivity|assumption].
  - apply (ltb_gtb_conflict _ d0_25); [reflexivity|assumption].
  - apply (ltb_gtb_conflict _ d0_25); [reflexivity|assumption].
  - apply (ltb_gtb_conflict _ d0_25); [reflexivity|assumption].
  - apply (ltb_trans _ d0_25); [assumption|reflexivity].
  - apply (ltb_trans _ d0_4); [assumption|reflexivity].
  - apply (ltb_trans d0_25 d0_55); [reflexivity|assumption].
Qed.

Ltac use_hand :=
  destruct hand_flags as (F1 & F2 & F3 & F4 & F5 & F6 & F7 & F8 & F9 & F10 & F11 & F12);
  destruct hand_bounds as (B1 & B2 & B3 & B4 & B5 & B6 & B7);
  cbn [score];
  rewrite ?F1, ?F2, ?F3, ?F4, ?F5, ?F6, ?F7, ?F8, ?F9, ?F10, ?F11, ?F12,
          ?B1, ?B2, ?B3, ?B4, ?B5, ?B6, ?B7, ?Hspread;
  cbn [negb andb orb plus_if minus_if].

Lemma Tiger_score :
  score (Tiger_rule f) = if indexMiddleUp f then d1 else d0_9.
Proof.
  unfold Tiger_rule. use_hand.
  destruct (indexMiddleUp f); cbn [plus_if]; vm_compute; reflexivity.
Qed.

Lemma Dragon_score :
  (dragonShape f = true -> score (Dragon_rule f) = dragonScore)
  /\ (dragonShape f = false -> ltb d0_9 (score (Dragon_rule f)) = false)
  /\ ltb d1 (score (Dragon_rule f)) = false.
Proof.
  unfold Dragon_rule, dragonShape. use_hand.
  destruct (thumbExtended f), (middleCurl f > d0_25), (ringCurl f < d0_65);
    cbn [negb andb orb plus_if minus_if];
    (split; [|split]); try discriminate; intros; vm_compute; reflexivity.
Qed.

Lemma other_scores_low :
  Forall (fun e => ltb d0_9 (score (snd e f)) = false)
         (rulesBeforeDragon ++ rulesAfterDragon).
Proof.
  unfold rulesBeforeDragon, rulesAfterDragon, app.
  repeat (apply Forall_cons; [|]); [..|apply Forall_nil]; cbn [snd].
  all: lazymatch goal with |- ltb _ (score (?r _)) = false => unfold r end.
  all: use_hand.
  all: split_flags; vm_compute; reflexivity.
Qed.

Lemma low_against (b x : float) :
  ltb d0_9 x = false -> b = d0_9 \/ ltb d0_9 b = true -> ltb b x = false.
Proof.
  intros Hx Hb. destruct (ltb b x) eqn:E; [|reflexivity].
  destruct Hb as [->|Hb]; [congruence|].
  rewrite (ltb_trans _ _ _ Hb E) in Hx. discriminate.
Qed.

Lemma classify_step_keep (acc : Best) (s : Sign) (r : HandFeatures -> RuleResult) :
  ltb (bestScore acc) (score (r f)) = false ->
  bestSign (classify_step f acc (s, r)) = bestSign acc
  /\ bestScore (classify_step f acc (s, r)) = bestScore acc.
Proof.
  intros H. unfold classify_step, gtb. unfold ltb in H. rewrite H.
  split; reflexivity.
Qed.

Lemma classify_step_take (acc : Best) (s : Sign) (r : HandFeatures -> RuleResult) :
  ltb (bestScore acc) (score (r f)) = true ->
  bestSign (classify_step f acc (s, r)) = Some s
  /\ bestScore (classify_step f acc (s, r)) = score (r f).
Proof.
  intros H. unfold classify_step, gtb. unfold ltb in H. rewrite H.
  split; reflexivity.
Qed.

Lemma classify_fold_keep (rs : list (Sign * (HandFeatures -> RuleResult)))
    (acc : Best) :
  Forall (fun e => ltb (bestScore acc) (score (snd e f)) = false) rs ->
  bestSign (fold_left (classify_step f) rs acc) = bestSign acc
  /\ bestScore (fold_left (classify_step f) rs acc) = bestScore acc.
Proof.
  revert acc. induction rs as [|[s r] rs IH]; intros acc H; [split; reflexivity|].
  inversion H as [|e rs' He Hrs]; subst. cbn [fold_left]. cbn [snd] in He.
  destruct (classify_step_keep acc s r He) as [E1 E2].
  destruct (IH (classify_step f acc (s, r))) as [I1 I2].
  { rewrite E2. exact Hrs. }
  rewrite I1, I2. auto.
Qed.

Lemma others_keep (rs : list (Sign * (HandFeatures -> RuleResult))) (acc : Best) :
  incl rs (rulesBeforeDragon ++ rulesAfterDragon) ->
  bestScore acc = d0_9 \/ ltb d0_9 (bestScore acc) = true ->
  bestSign (fold_left (classify_step f) rs acc) = bestSign acc
  /\ bestScore (fold_left (classify_step f) rs acc) = bestScore acc.
Proof.
  intros Hin Hb. apply classify_fold_keep. apply Forall_forall. intros e He.
  apply low_against; [|exact Hb].
  exact (proj1 (Forall_forall _ _) other_scores_low e (Hin e He)).
Qed.

Lemma signRules_split :
  signRules = (Tiger, Tiger_rule) :: rulesBeforeDragon
              ++ (Dragon, Dragon_rule) :: rulesAfterDragon.
Proof. reflexivity. Qed.

Lemma fold_left_split (A B : Type) (g : A -> B -> A) x l1 y l2 a :
  fold_left g (x :: l1 ++ y :: l2) a
  = fold_left g l2 (g (fold_left g l1 (g a x)) y).
Proof. cbn [fold_left]. rewrite fold_left_app. reflexivity. Qed.

Lemma tigerScore_high : tigerScore f = d0_9 \/ ltb d0_9 (tigerScore f) = true.
Proof. unfold tigerScore. destruct (indexMiddleUp f); [right|left]; reflexivity. Qed.

Lemma after_Tiger (acc : Best) :
  bestScore acc = d0 ->
  bestSign (classify_step f acc (Tiger, Tiger_rule)) = Some Tiger
  /\ bestScore (classify_step f acc (Tiger, Tiger_rule)) = tigerScore f.
Proof.
  intros H.
  destruct (classify_step_take acc Tiger Tiger_rule) as [E1 E2].
  - rewrite H, Tiger_score. destruct (indexMiddleUp f); reflexivity.
  - rewrite E1, E2, Tiger_score. split; reflexivity.
Qed.

Lemma after_Dragon (acc : Best) :
  bestSign acc = Some Tiger -> bestScore acc = tigerScore f ->
  bestSign (classify_step f acc (Dragon, Dragon_rule))
  = Some (if dragonShape f && negb (indexMiddleUp f) then Dragon else Tiger)
  /\ (bestScore (classify_step f acc (Dragon, Dragon_rule)) = d0_9
      \/ ltb d0_9 (bestScore (classify_step f acc (Dragon, Dragon_rule))) = true).
Proof.
  intros Hs Hb. destruct Dragon_score as (Dyes & Dno & Dmax).
  unfold tigerScore in Hb.
  destruct (indexMiddleUp f).
  - destruct (classify_step_keep acc Dragon Dragon_rule) as [E1 E2].
    { rewrite Hb. exact Dmax. }
    rewrite E1, E2, Hs, Hb, andb_false_r. split; [reflexivity|right; reflexivity].
  - destruct (dragonShape f).
    + destruct (classify_step_take acc Dragon Dragon_rule) as [E1 E2].
      { rewrite Hb, (Dyes eq_refl). reflexivity. }
      rewrite E1, E2, (Dyes eq_refl). split; [reflexivity|right; reflexivity].
    + destruct (classify_step_keep acc Dragon Dragon_rule) as [E1 E2].
      { rewrite Hb. exact (Dno eq_refl). }
      rewrite E1, E2, Hs, Hb. split; [reflexivity|left; reflexivity].
Qed.

(** The loop of [classify] on such a hand ends on Tiger or on Dragon. *)
Lemma tiger_hand_best (acc : Best) :
  bestScore acc = d0 ->
  bestSign (fold_left (classify_step f) signRules acc)
  = Some (if dragonShape f && negb (indexMiddleUp f) then Dragon else Tiger)
  /\ ltb (bestScore (fold_left (classify_step f) signRules acc)) d0_45 = false.
Proof.
  intros H0. rewrite signRules_split, fold_left_split.
  destruct (after_Tiger acc H0) as [S1 B1].
  destruct (others_keep rulesBeforeDragon (classify_step f acc (Tiger, Tiger_rule)))
    as [S2 B2].
  { apply incl_appl, incl_refl. }
  { rewrite B1. apply tigerScore_high. }
  rewrite S1 in S2. rewrite B1 in B2.
  destruct (after_Dragon _ S2 B2) as [S3 B3].
  destruct (others_keep rulesAfterDragon _ (incl_appr _ (incl_refl _)) B3)
    as [S4 B4].
  rewrite S4, B4, S3. split; [reflexivity|].
  destruct B3 as [B3|B3].
  - rewrite B3. reflexivity.
  - destruct (ltb (bestScore _) d0_45) eqn:E; [|reflexivity].
    pose proof (ltb_trans _ _ _ B3 E) as F. discriminate F.
Qed.

End Hand.

(** C4, as the code has it.  On a hand with index and middle curl below
    0.4, ring and pinky curl above 0.55 and the index and middle tips
    closer than 0.25 palm sizes, [classify] never selects Ram, and it
    selects Tiger unless the thumb is extended, the middle curl is above
    0.25, the ring curl is below 0.65 and the two tips are not above
    their PIP joints: then the Dragon rule adds up to 0.9000000000000001,
    which is greater than Tiger's 0.9, and Dragon is selected. *)
Theorem tiger_unless_dragon (lm : list Landmark) (f : HandFeatures) :
  getHandFeatures Math_acos lm = Some f ->
  (indexCurl f < d0_4) = true ->
  (middleCurl f < d0_4) = true ->
  (ringCurl f > d0_55) = true ->
  (pinkyCurl f > d0_55) = true ->
  (indexMiddleSpread f < d0_25) = true ->
  exists r,
    classify Math_acos lm = Some r
    /\ sign r = Some (if dragonShape f && negb (indexMiddleUp f)
                      then Dragon else Tiger)
    /\ sign r <> Some Ram.
Proof.
  intros Hf Hi Hm Hr Hp Hs. unfold classify. rewrite Hf.
  unfold getHandFeatures in Hf.
  destruct (List.length lm <? 21)%nat; [discriminate|].
  injection Hf as Hf.
  assert (Hc : flags_consistent f) by (rewrite <- Hf; apply handFeatures_flags).
  destruct (tiger_hand_best f Hc Hi Hm Hr Hp Hs
              {| results := []; bestSign := None; bestScore := d0 |} eq_refl)
    as [Hbest Hfloor].
  rewrite Hfloor.
  eexists. split; [reflexivity|]. cbn [sign]. rewrite Hbest.
  split; [reflexivity|]. destruct (_ && _); discriminate.
Qed.

End TigerHand.

(** ** The classifier on sample hands *)

Section ClassifierSamples.

Import F64 HandSignClassifier Samples.
Local Open Scope f64_scope.

(** [classify_result_shape] on [twoFingerHand]. *)
Lemma classify_result_shape_witness :
  (21 <= List.length twoFingerHand)%nat
  /\ exists r,
      classify acos_nan twoFingerHand = Some r
      /\ ((sign r = None /\ confidence r = d0)
          \/ (exists s, sign r = Some s /\ In s allSigns
                        /\ ltb d0 (confidence r) = true
                        /\ leb (confidence r) d1 = true))
      /\ map fst (allScores r) = allSigns
      /\ Forall (fun e => leb d0 (score (snd e)) = true) (allScores r).
Proof.
  split; [vm_compute; lia|].
  apply (classify_result_shape acos_nan twoFingerHand). vm_compute. lia.
Defined.

(** [classify_reads_first_21] on [twoFingerHand] and the same hand
    followed by a twenty-second point. *)
Lemma classify_reads_first_21_witness :
  (21 <= List.length twoFingerHand)%nat
  /\ (21 <= List.length (twoFingerHand ++ [pt 0 0]))%nat
  /\ firstn 21 twoFingerHand = firstn 21 (twoFingerHand ++ [pt 0 0])
  /\ exists r1 r2,
      classify acos_nan twoFingerHand = Some r1
      /\ classify acos_nan (twoFingerHand ++ [pt 0 0]) = Some r2
      /\ sign r1 = sign r2
      /\ confidence r1 = confidence r2
      /\ allScores r1 = allScores r2.
Proof.
  split; [vm_compute; lia|]. split; [vm_compute; lia|].
  split; [reflexivity|].
  apply (classify_reads_first_21 acos_nan twoFingerHand (twoFingerHand ++ [pt 0 0])).
  - vm_compute. lia.
  - vm_compute. lia.
  - reflexivity.
Defined.

(** [tiger_unless_dragon] on [twoFingerHand], where it gives Dragon. *)
Lemma tiger_unless_dragon_witness :
  getHandFeatures acos_nan twoFingerHand
  = Some (handFeatures acos_nan twoFingerHand)
  /\ (indexCurl (handFeatures acos_nan twoFingerHand) < d0_4) = true
  /\ (middleCurl (handFeatures acos_nan twoFingerHand) < d0_4) = true
  /\ (ringCurl (handFeatures acos_nan twoFingerHand) > d0_55) = true
  /\ (pinkyCurl (handFeatures acos_nan twoFingerHand) > d0_55) = true
  /\ (indexMiddleSpread (handFeatures acos_nan twoFingerHand) < d0_25) = true
  /\ exists r,
      classify acos_nan twoFingerHand = Some r
      /\ sign r = Some Dragon /\ sign r <> Some Ram.
Proof.
  repeat (split; [vm_compute; reflexivity|]).
  destruct (tiger_unless_dragon acos_nan twoFingerHand
              (handFeatures acos_nan twoFingerHand))
    as [r [Hr [Hs Hn]]]; try (vm_compute; reflexivity).
  exists r. split; [exact Hr|]. split; [|exact Hn].
  rewrite Hs. vm_compute. reflexivity.
Defined.

(** C4 as stated fails on [twoFingerHand]: every hypothesis holds there,
    Tiger scores 0.9 and Dragon 0.9000000000000001, and the classifier
    answers Dragon. *)
Lemma tiger_hand_counterexample :
  ~ (forall (Math_acos : float -> float) (lm : list Landmark) (f : HandFeatures),
       getHandFeatures Math_acos lm = Some f ->
       (indexCurl f < d0_4) = true ->
       (middleCurl f < d0_4) = true ->
       (ringCurl f > d0_55) = true ->
       (pinkyCurl f > d0_55) = true ->
       (indexMiddleSpread f < d0_25) = true ->
       exists r, classify Math_acos lm = Some r /\ sign r = Some Tiger).
Proof.
  intros H.
  destruct (H acos_nan twoFingerHand (handFeatures acos_nan twoFingerHand))
    as [r [Hr Hs]]; try (vm_compute; reflexivity).
  assert (E : option_map sign (classify acos_nan twoFingerHand)
              = Some (Some Dragon)) by (vm_compute; reflexivity).
  rewrite Hr in E. cbn in E. congruence.
Qed.

(** The scores behind that answer. *)
Lemma twoFingerHand_scores :
  option_map (fun r => (sign r, confidence r,
                        map (fun e => score (snd e))
                            (filter (fun e => if Sign_eq_dec (fst e) Tiger then true
                                              else if Sign_eq_dec (fst e) Ram then true
                                              else if Sign_eq_dec (fst e) Dragon then true
                                              else false)
                                    (allScores r))))
             (classify acos_nan twoFingerHand)
  = Some (Some Dragon, dragonScore,
          [d0_9; S754_finite false 7205759403792795 (-54); dragonScore]).
Proof. vm_compute. reflexivity. Qed.

(** C9.  The twelve ratios are divided by [palmSize] itself: on
    [zeroPalmHand], whose wrist lies on the middle-finger base, the palm
    size is 0, each ratio is [+Infinity] and the touching test fails; on
    21 coinciding points each ratio is [NaN].  The epsilon that guards
    the divisions of [getFingerCurl] and [angleBetween] is absent here. *)
Theorem zero_palm_is_not_guarded :
  let f := handFeatures acos_nan zeroPalmHand in
  let g := handFeatures acos_nan (repeat (pt 50 50) 21) in
  palmSize f = zero
  /\ [indexMiddleSpread f; middleRingSpread f; ringPinkySpread f;
      indexRingSpread f; thumbToPalm f; thumbToIndex f; thumbToMiddle f;
      thumbToPinky f; indexToWrist f; middleToWrist f; ringToWrist f;
      pinkyToWrist f] = repeat infinity 12
  /\ indexMiddleTouching f = false
  /\ is_finite (indexMiddleSpread f) = false
  /\ palmSize g = zero
  /\ [indexMiddleSpread g; middleRingSpread g; ringPinkySpread g;
      indexRingSpread g; thumbToPalm g; thumbToIndex g; thumbToMiddle g;
      thumbToPinky g; indexToWrist g; middleToWrist g; ringToWrist g;
      pinkyToWrist g] = repeat nan 12
  /\ is_finite (indexCurl f) = true
  /\ is_finite (indexCurl g) = true.
Proof. vm_compute. repeat split. Qed.

End ClassifierSamples.

(** ** The sequence matcher *)

Section Matcher.

Import F64 JutsuDetector.
Local Open Scope string_scope.

Lemma Sign_eqb_eq (a b : Sign) : Sign_eqb a b = true <-> a = b.
Proof.
  unfold Sign_eqb. destruct (Sign_eq_dec a b); split; congruence.
Qed.

Lemma Sign_eqb_refl (a : Sign) : Sign_eqb a a = true.
Proof. apply Sign_eqb_eq. reflexivity. Qed.

Lemma forallb_seq_S (p : nat -> bool) (n : nat) :
  forallb p (seq 1 n) = forallb (fun i => p (S i)) (seq 0 n).
Proof.
  rewrite <- seq_shift. generalize (seq 0 n) as l.
  induction l as [|i l IH]; [reflexivity|]. cbn. rewrite IH. reflexivity.
Qed.

(** The index loop of [findMatchingJutsus] decides whether the recorded
    signs are a prefix of the required ones. *)
Lemma isPrefixOf_spec (cur : list Sign) (j : Jutsu) :
  isPrefixOf cur j = true <-> exists rest, signs j = cur ++ rest.
Proof.
  unfold isPrefixOf. generalize (signs j) as full. clear j.
  induction cur as [|a cur IH]; intros full.
  - cbn. split; [exists full; reflexivity | reflexivity].
  - destruct full as [|b full].
    + cbn. split; [discriminate | intros [rest H]; discriminate H].
    + cbn [List.length seq forallb nth_error].
      change (S (List.length full) <? S (List.length cur))%nat
        with (List.length full <? List.length cur)%nat.
      rewrite forallb_seq_S. cbn [nth_error option_Sign_eqb].
      specialize (IH full).
      destruct (List.length full <? List.length cur)%nat.
      * split; [discriminate|]. intros [rest H]. injection H as _ H.
        apply IH. exists rest. exact H.
      * rewrite andb_true_iff, Sign_eqb_eq, IH. split.
        -- intros [-> [rest ->]]. exists rest. reflexivity.
        -- intros [rest H]. injection H as -> H. split; [reflexivity|].
           exists rest. exact H.
Qed.

(** The test of [findCompletedJutsu] decides equality of the two
    sequences. *)
Lemma isCompletedBy_spec (cur : list Sign) (j : Jutsu) :
  isCompletedBy cur j = true <-> signs j = cur.
Proof.
  unfold isCompletedBy. generalize (signs j) as full. clear j.
  induction cur as [|a cur IH]; intros full.
  - destruct full; cbn; split; congruence.
  - destruct full as [|b full].
    + cbn. split; discriminate.
    + cbn [List.length seq forallb nth_error].
      change (S (List.length cur) =? S (List.length full))%nat
        with (List.length cur =? List.length full)%nat.
      rewrite forallb_seq_S. cbn [nth_error option_Sign_eqb].
      specialize (IH full).
      destruct (List.length cur =? List.length full)%nat; cbn [negb] in *.
      * rewrite andb_true_iff, Sign_eqb_eq, IH. split.
        -- intros [-> ->]. reflexivity.
        -- intros H. injection H as -> ->. auto.
      * split; [discriminate|]. intros H. injection H as _ H.
        apply IH, H.
Qed.

Lemma findCompletedJutsu_Some (cur : list Sign) (j : Jutsu) :
  findCompletedJutsu cur = Some j -> In j jutsus /\ signs j = cur.
Proof.
  intros H. apply find_some in H. destruct H as [Hin H].
  split; [exact Hin | apply isCompletedBy_spec, H].
Qed.

Lemma findCompletedJutsu_None (cur : list Sign) (j : Jutsu) :
  findCompletedJutsu cur = None -> In j jutsus -> signs j <> cur.
Proof.
  intros H Hin E. apply (find_none _ _ H) in Hin.
  apply isCompletedBy_spec in E. congruence.
Qed.

(** The catalog sequences are pairwise distinct, so the jutsu found for
    a full sequence is the one it belongs to. *)
Lemma findCompletedJutsu_catalog (j : Jutsu) :
  In j jutsus -> findCompletedJutsu (signs j) = Some j.
Proof.
  intros [<-|[<-|[<-|[<-|[]]]]]; vm_compute; reflexivity.
Qed.

Lemma findMatchingJutsus_nil (cur : list Sign) :
  findMatchingJutsus cur = [] <->
  forall j, In j jutsus -> ~ exists rest, signs j = cur ++ rest.
Proof.
  unfold findMatchingJutsus. split.
  - intros H j Hin Hp. apply isPrefixOf_spec in Hp.
    apply map_eq_nil in H.
    assert (Hf : In j (filter (isPrefixOf cur) jutsus))
      by (apply filter_In; auto).
    rewrite H in Hf. destruct Hf.
  - intros H. destruct (filter (isPrefixOf cur) jutsus) as [|j l] eqn:E;
      [reflexivity|].
    assert (Hf : In j (filter (isPrefixOf cur) jutsus))
      by (rewrite E; left; reflexivity).
    apply filter_In in Hf. destruct Hf as [Hin Hp].
    apply isPrefixOf_spec in Hp. destruct (H j Hin Hp).
Qed.

Lemma findMatchingJutsus_cons (cur : list Sign) :
  findMatchingJutsus cur <> [] ->
  exists j, In j jutsus /\ exists rest, signs j = cur ++ rest.
Proof.
  unfold findMatchingJutsus. intros H.
  destruct (filter (isPrefixOf cur) jutsus) as [|j l] eqn:E;
    [destruct H; reflexivity|].
  assert (Hf : In j (filter (isPrefixOf cur) jutsus))
    by (rewrite E; left; reflexivity).
  apply filter_In in Hf. destruct Hf as [Hin Hp].
  exists j. split; [exact Hin | apply isPrefixOf_spec, Hp].
Qed.

(** *** One step at a time *)

Lemma resetSequence_state (reason : string) (st : State) :
  let st' := fst (resetSequence reason st) in
  currentSequence st' = [] /\ matchingJutsus st' = []
  /\ lastDetectedSign st' = None /\ signHoldCount st' = 0%nat
  /\ lastSignTime st' = lastSignTime st /\ timers st' = timers st
  /\ onJutsuComplete st' = onJutsuComplete st
  /\ onSequenceUpdate st' = onSequenceUpdate st
  /\ onSequenceReset st' = onSequenceReset st.
Proof. cbn. repeat split. Qed.

Lemma resetSequence_events (reason : string) (st : State) :
  snd (resetSequence reason st)
  = if negb (Nat.eqb (List.length (currentSequence st)) 0) && onSequenceReset st
    then [SequenceReset reason] else [].
Proof.
  unfold resetSequence. cbn [snd].
  destruct (currentSequence st); reflexivity.
Qed.

Lemma timedOut_spec (now : Z) (st : State) :
  timedOut now st = true
  <-> currentSequence st <> [] /\ (now - lastSignTime st > 5000)%Z.
Proof.
  unfold timedOut, SEQUENCE_TIMEOUT_MS.
  rewrite andb_true_iff, Nat.ltb_lt, Z.ltb_lt.
  destruct (currentSequence st); cbn [List.length]; split;
    intros [H1 H2]; split; try lia; try congruence.
Qed.

Lemma clearHold_fields (st : State) :
  currentSequence (clearHold st) = currentSequence st
  /\ matchingJutsus (clearHold st) = matchingJutsus st
  /\ timers (clearHold st) = timers st
  /\ lastSignTime (clearHold st) = lastSignTime st
  /\ lastDetectedSign (clearHold st) = None.
Proof.
  unfold clearHold. destruct (lastDetectedSign st) eqn:E; cbn; auto.
Qed.

(** *** The timeout reset *)

(** C6.  When a classification is processed while [currentSequence] is
    not empty and more than 5000 ms have passed since [lastSignTime],
    [processSign] first runs [resetSequence('timeout')], whatever the sign
    and confidence of the classification: the reset leaves the sequence
    and the matching set empty, the hold count 0 and the last detected
    sign cleared, its event comes first, and the incoming classification
    is then processed from that state, which leaves the sequence empty. *)
Theorem timeout_resets_first (st : State) (classification : Sample) (now : Z) :
  currentSequence st <> [] ->
  (now - lastSignTime st > 5000)%Z ->
  let st1 := fst (resetSequence "timeout" st) in
  processSign (Some classification) now st
  = (fst (acceptSign classification now st1),
     (if onSequenceReset st then [SequenceReset "timeout"] else [])
     ++ snd (acceptSign classification now st1))
  /\ currentSequence st1 = []
  /\ signHoldCount st1 = 0%nat
  /\ lastDetectedSign st1 = None
  /\ matchingJutsus st1 = []
  /\ currentSequence (fst (processSign (Some classification) now st)) = [].
Proof.
  intros Hseq Hlate.
  assert (T : timedOut now st = true) by (apply timedOut_spec; auto).
  assert (E : processSign (Some classification) now st
              = (fst (acceptSign classification now (fst (resetSequence "timeout" st))),
                 (if onSequenceReset st then [SequenceReset "timeout"] else [])
                 ++ snd (acceptSign classification now
                           (fst (resetSequence "timeout" st))))).
  { unfold processSign, checkTimeout. rewrite T.
    rewrite (surjective_pairing (resetSequence "timeout" st)).
    rewrite resetSequence_events.
    destruct (currentSequence st) as [|a l]; [congruence|].
    cbn [List.length Nat.eqb negb andb].
    destruct (acceptSign classification now _); reflexivity. }
  cbv zeta. rewrite E. repeat split.
  cbn [fst]. unfold acceptSign.
  destruct (sign classification) as [s|].
  - destruct (ltb (confidence classification) MIN_CONFIDENCE).
    + apply clearHold_fields.
    + reflexivity.
  - apply clearHold_fields.
Qed.

(** *** The deferred no-match check *)

Lemma registerSign_no_match (st : State) (s : Sign) (now : Z) :
  findMatchingJutsus (currentSequence st ++ [s]) = [] ->
  let st' := fst (registerSign s now st) in
  timers st' = timers st ++ [(now + 1000)%Z]
  /\ currentSequence st' = currentSequence st ++ [s]
  /\ matchingJutsus st' = [].
Proof.
  intros H. unfold registerSign. cbn [currentSequence matchingJutsus].
  destruct (findCompletedJutsu (currentSequence st ++ [s])) as [j|] eqn:C.
  - apply findCompletedJutsu_Some in C. destruct C as [Hin Hs].
    exfalso. apply (proj1 (findMatchingJutsus_nil _) H j Hin).
    exists []. rewrite app_nil_r. exact Hs.
  - rewrite H. cbn [List.length Nat.eqb andb].
    rewrite length_app. cbn [List.length].
    replace (0 <? List.length (currentSequence st) + 1)%nat with true
      by (symmetry; apply Nat.ltb_lt; lia).
    cbn. auto.
Qed.

Lemma registerSign_match (st : State) (s : Sign) (now : Z) :
  findMatchingJutsus (currentSequence st ++ [s]) <> [] ->
  timers (fst (registerSign s now st)) = timers st.
Proof.
  intros H. unfold registerSign. cbn [currentSequence matchingJutsus].
  destruct (findCompletedJutsu (currentSequence st ++ [s])) as [j|]; [reflexivity|].
  destruct (findMatchingJutsus (currentSequence st ++ [s])); [congruence|].
  reflexivity.
Qed.

Lemma fireTimer_spec (st : State) (due : Z) (pending : list Z) :
  timers st = due :: pending ->
  let st' := fst (fireTimer st) in
  timers st' = pending
  /\ (matchingJutsus st = [] ->
      currentSequence st' = [] /\ lastDetectedSign st' = None
      /\ signHoldCount st' = 0%nat
      /\ snd (fireTimer st)
         = if negb (Nat.eqb (List.length (currentSequence st)) 0)
              && onSequenceReset st
           then [SequenceReset "no-match"] else [])
  /\ (matchingJutsus st <> [] ->
      currentSequence st' = currentSequence st
      /\ matchingJutsus st' = matchingJutsus st
      /\ lastDetectedSign st' = lastDetectedSign st
      /\ signHoldCount st' = signHoldCount st
      /\ lastSignTime st' = lastSignTime st
      /\ snd (fireTimer st) = []).
Proof.
  intros H. unfold fireTimer, noMatchCheck. rewrite H.
  cbn [matchingJutsus]. split; [|split].
  - destruct (matchingJutsus st); reflexivity.
  - intros ->. cbn. repeat split. destruct (currentSequence st); reflexivity.
  - intros Hm. destruct (matchingJutsus st); [congruence|]. cbn. repeat split.
Qed.

(** C7.  An append that leaves the matching set empty schedules a check
    1000 ms after [now] and resets nothing yet.  When a pending check
    fires it reads [matchingJutsus] of the state it fires in: if that is
    empty it runs [resetSequence('no-match')], and if it is not it
    changes nothing but the list of pending timers. *)
Theorem deferred_check_is_live (st : State) (s : Sign) (now : Z) :
  findMatchingJutsus (currentSequence st ++ [s]) = [] ->
  let st1 := fst (registerSign s now st) in
  (timers st1 = timers st ++ [(now + 1000)%Z]
   /\ currentSequence st1 = currentSequence st ++ [s]
   /\ matchingJutsus st1 = [])
  /\ forall (st2 : State) (due : Z) (pending : list Z),
       timers st2 = due :: pending ->
       let st3 := fst (fireTimer st2) in
       timers st3 = pending
       /\ (matchingJutsus st2 = [] ->
           currentSequence st3 = [] /\ lastDetectedSign st3 = None
           /\ signHoldCount st3 = 0%nat
           /\ snd (fireTimer st2)
              = if negb (Nat.eqb (List.length (currentSequence st2)) 0)
                   && onSequenceReset st2
                then [SequenceReset "no-match"] else [])
       /\ (matchingJutsus st2 <> [] ->
           currentSequence st3 = currentSequence st2
           /\ matchingJutsus st3 = matchingJutsus st2
           /\ lastDetectedSign st3 = lastDetectedSign st2
           /\ signHoldCount st3 = signHoldCount st2
           /\ lastSignTime st3 = lastSignTime st2
           /\ snd (fireTimer st2) = []).
Proof.
  intros H. split.
  - apply registerSign_no_match, H.
  - intros st2 due pending Ht. apply (fireTimer_spec st2 due pending Ht).
Qed.

(** *** A malformed landmark array *)

(** C8, as the code has it.  On fewer than 21 landmarks [classify]
    returns [null], and [processSign(null)] returns at once: no timeout
    check, no event, and the whole state, hold count and last detected
    sign included, is left as it was. *)
Theorem malformed_frame_is_ignored (Math_acos : float -> float)
    (lm : list HandSignClassifier.Landmark) (now : Z) (st : State) :
  (List.length lm < 21)%nat ->
  HandSignClassifier.classify Math_acos lm = None
  /\ processSign (option_map sample_of (HandSignClassifier.classify Math_acos lm))
       now st = (st, []).
Proof.
  intros H.
  assert (E : HandSignClassifier.classify Math_acos lm = None).
  { unfold HandSignClassifier.classify.
    destruct (Nat.ltb_spec (List.length lm) 21); [reflexivity | lia]. }
  rewrite E. split; reflexivity.
Qed.


(** *** Reaching the append *)

Lemma holdSign_same (s : Sign) (st : State) :
  lastDetectedSign st = Some s ->
  lastDetectedSign (holdSign s st) = Some s
  /\ signHoldCount (holdSign s st) = S (signHoldCount st).
Proof.
  intros H. unfold holdSign. rewrite H. cbn. rewrite Sign_eqb_refl. auto.
Qed.

Lemma holdSign_other (s : Sign) (st : State) :
  lastDetectedSign st <> Some s ->
  lastDetectedSign (holdSign s st) = Some s
  /\ signHoldCount (holdSign s st) = 1%nat.
Proof.
  intros H. unfold holdSign.
  destruct (lastDetectedSign st) as [t|]; cbn.
  - destruct (Sign_eqb s t) eqn:E; [|auto].
    apply Sign_eqb_eq in E. congruence.
  - auto.
Qed.

(** A frame that passes every guard of [processSign] runs the append. *)
Lemma processSign_registers (st : State) (s : Sign) (conf : float) (now : Z) :
  timedOut now st = false ->
  ltb conf MIN_CONFIDENCE = false ->
  lastDetectedSign st = Some s ->
  signHoldCount st = 7%nat ->
  repeatsLast s st = false ->
  processSign (Some {| sign := Some s; confidence := conf |}) now st
  = registerSign s now (holdSign s st).
Proof.
  intros T C L K R. unfold processSign, checkTimeout. rewrite T.
  unfold acceptSign. cbn [sign confidence]. rewrite C.
  destruct (holdSign_same s st L) as [_ HK]. rewrite HK, K.
  cbn [Nat.eqb SIGN_HOLD_FRAMES negb].
  change (repeatsLast s (holdSign s st)) with (repeatsLast s st). rewrite R.
  destruct (registerSign s now (holdSign s st)); reflexivity.
Qed.

(** No catalog sequence repeats a sign twice in a row at its end. *)
Lemma catalog_last_differs (j : Jutsu) (cur : list Sign) (s : Sign) :
  In j jutsus -> cur ++ [s] = signs j ->
  ((0 <? List.length cur)%nat
   && option_Sign_eqb (nth_error cur (List.length cur - 1)) (Some s)) = false.
Proof.
  intros [<-|[<-|[<-|[<-|[]]]]] H; cbn [signs fireball chidori shadowclone waterdragon] in H.
  - change [Snake; Ram; Monkey; Boar; Horse; Tiger]
      with ([Snake; Ram; Monkey; Boar; Horse] ++ [Tiger]) in H.
    apply app_inj_tail in H. destruct H as [-> ->]. reflexivity.
  - change [Ox; Hare; Monkey] with ([Ox; Hare] ++ [Monkey]) in H.
    apply app_inj_tail in H. destruct H as [-> ->]. reflexivity.
  - change [Ram; Snake; Tiger] with ([Ram; Snake] ++ [Tiger]) in H.
    apply app_inj_tail in H. destruct H as [-> ->]. reflexivity.
  - change [Ox; Monkey; Hare; Rat; Boar; Bird]
      with ([Ox; Monkey; Hare; Rat; Boar] ++ [Bird]) in H.
    apply app_inj_tail in H. destruct H as [-> ->]. reflexivity.
Qed.

Lemma registerSign_completes (st : State) (s : Sign) (now : Z) (j : Jutsu) :
  In j jutsus -> currentSequence st ++ [s] = signs j ->
  registerSign s now st
  = ({| currentSequence := [];
        lastSignTime := now;
        lastDetectedSign := None;
        signHoldCount := 0;
        matchingJutsus := [];
        onJutsuComplete := onJutsuComplete st;
        onSequenceUpdate := onSequenceUpdate st;
        onSequenceReset := onSequenceReset st;
        timers := timers st |},
     (if onSequenceUpdate st
      then [SequenceUpdate (signs j) (findMatchingJutsus (signs j))] else [])
     ++ (if onJutsuComplete st then [JutsuComplete j] else [])
     ++ (if onSequenceReset st then [SequenceReset "completed"] else [])).
Proof.
  intros Hin Hs. unfold registerSign.
  cbn [currentSequence matchingJutsus onSequenceUpdate onJutsuComplete].
  rewrite Hs, (findCompletedJutsu_catalog j Hin).
  unfold resetSequence.
  cbn [currentSequence matchingJutsus onSequenceUpdate onJutsuComplete
       onSequenceReset lastSignTime timers].
  destruct (signs j) as [|a l] eqn:E.
  - destruct (currentSequence st); discriminate Hs.
  - reflexivity.
Qed.

(** *** The completing sample *)

(** C1, as the code has it.  When the append of a processed sample makes
    [currentSequence] equal to the signs of a catalog jutsu, the callbacks
    registered are called in this order: the update callback with the
    full sequence, the completion callback with that jutsu, once, and the
    reset callback with reason [completed]; the sequence, the matching
    set and the hold state are empty when [processSign] returns. *)
Theorem completing_sample (st : State) (s : Sign) (conf : float) (now : Z)
    (j : Jutsu) :
  In j jutsus ->
  currentSequence st ++ [s] = signs j ->
  lastDetectedSign st = Some s ->
  signHoldCount st = 7%nat ->
  leb MIN_CONFIDENCE conf = true ->
  timedOut now st = false ->
  let result :=
    processSign (Some {| sign := Some s; confidence := conf |}) now st in
  snd result
  = (if onSequenceUpdate st
     then [SequenceUpdate (signs j) (findMatchingJutsus (signs j))] else [])
    ++ (if onJutsuComplete st then [JutsuComplete j] else [])
    ++ (if onSequenceReset st then [SequenceReset "completed"] else [])
  /\ currentSequence (fst result) = []
  /\ matchingJutsus (fst result) = []
  /\ lastDetectedSign (fst result) = None
  /\ signHoldCount (fst result) = 0%nat
  /\ lastSignTime (fst result) = now
  /\ timers (fst result) = timers st.
Proof.
  intros Hin Hs L K C T. cbv zeta.
  rewrite (processSign_registers st s conf now T (leb_not_ltb _ _ C) L K
             (catalog_last_differs j _ s Hin Hs)).
  rewrite (registerSign_completes (holdSign s st) s now j Hin Hs).
  cbn [fst snd]. cbn. repeat split.
Qed.


(** *** What the recorded sequence can be *)

Lemma consistent_reset (reason : string) (st : State) :
  consistent (fst (resetSequence reason st)).
Proof. left. split; reflexivity. Qed.

Lemma consistent_same (st st' : State) :
  currentSequence st' = currentSequence st ->
  matchingJutsus st' = matchingJutsus st ->
  (matchingJutsus st = [] -> timers st <> [] -> timers st' <> []) ->
  consistent st -> consistent st'.
Proof.
  intros Hc Hm Ht [[H1 H2]|(H1 & H2 & H3 & H4)].
  - left. rewrite Hc, Hm. auto.
  - right. rewrite Hc, Hm. repeat split; auto.
Qed.

Lemma consistent_registerSign (s : Sign) (now : Z) (st : State) :
  consistent (fst (registerSign s now st)).
Proof.
  unfold registerSign. cbn [currentSequence matchingJutsus].
  destruct (findCompletedJutsu (currentSequence st ++ [s])) as [j|] eqn:C.
  - left. split; reflexivity.
  - right.
    assert (N : currentSequence st ++ [s] <> [])
      by (destruct (currentSequence st); discriminate).
    destruct (findMatchingJutsus (currentSequence st ++ [s])) as [|m ms] eqn:M;
      cbn [List.length Nat.eqb andb].
    + rewrite length_app. cbn [List.length].
      replace (0 <? List.length (currentSequence st) + 1)%nat with true
        by (symmetry; apply Nat.ltb_lt; lia).
      cbn. repeat split; auto.
      intros _. destruct (timers st); discriminate.
    + cbn. repeat split; auto. discriminate.
Qed.

Lemma consistent_acceptSign (c : Sample) (now : Z) (st : State) :
  consistent st -> consistent (fst (acceptSign c now st)).
Proof.
  intros H. unfold acceptSign.
  assert (Hclear : consistent (clearHold st)).
  { apply (consistent_same st); try apply clearHold_fields; auto.
    intros _. destruct (clearHold_fields st) as (_ & _ & -> & _). auto. }
  destruct (sign c) as [s|]; [|exact Hclear].
  destruct (ltb (confidence c) MIN_CONFIDENCE); [exact Hclear|].
  assert (Hhold : consistent (holdSign s st))
    by (apply (consistent_same st); auto).
  destruct (negb _); [exact Hhold|].
  destruct (repeatsLast s (holdSign s st)); [exact Hhold|].
  apply consistent_registerSign.
Qed.

Lemma consistent_step (a : Action) (st : State) :
  consistent st -> consistent (fst (step a st)).
Proof.
  intros H. destruct a as [[c|] now| |reason|c u r]; cbn [step].
  - unfold processSign, checkTimeout.
    destruct (timedOut now st).
    + pose proof (consistent_reset "timeout" st) as R.
      destruct (resetSequence "timeout" st) as [st1 ev1]. cbn [fst] in R.
      pose proof (consistent_acceptSign c now st1 R) as A.
      destruct (acceptSign c now st1). exact A.
    + pose proof (consistent_acceptSign c now st H) as A.
      destruct (acceptSign c now st). exact A.
  - exact H.
  - unfold fireTimer. destruct (timers st) as [|due pending] eqn:T; [exact H|].
    unfold noMatchCheck. cbn [matchingJutsus].
    destruct (matchingJutsus st) as [|m ms] eqn:M; cbn [List.length Nat.eqb].
    + apply consistent_reset.
    + cbn [fst]. destruct H as [[H1 H2]|(H1 & H2 & H3 & H4)].
      * congruence.
      * right. cbn. rewrite M in *. repeat split; auto. discriminate.
  - apply consistent_reset.
  - apply (consistent_same st); auto.
Qed.

Lemma consistent_reachable (st : State) : reachable st -> consistent st.
Proof.
  induction 1 as [|a st _ IH].
  - left. split; reflexivity.
  - apply consistent_step, IH.
Qed.

Lemma reachable_run (actions : list Action) (st : State) :
  reachable st -> reachable (fst (run actions st)).
Proof.
  revert st. induction actions as [|a actions IH]; intros st H; [exact H|].
  cbn [run]. pose proof (reachable_step a st H) as R.
  destruct (step a st) as [st1 ev1]. cbn [fst] in R.
  specialize (IH st1 R). destruct (run actions st1). exact IH.
Qed.

(** C3, as the code has it.  In every reachable state [currentSequence]
    is empty, or a strict prefix of the signs of a catalog jutsu, or it
    is a prefix of none, [matchingJutsus] is empty and a deferred
    no-match check is pending. *)
Theorem recorded_signs_shape (st : State) :
  reachable st ->
  currentSequence st = []
  \/ (exists j, In j jutsus
                /\ exists rest, rest <> [] /\ signs j = currentSequence st ++ rest)
  \/ ((forall j, In j jutsus -> ~ exists rest, signs j = currentSequence st ++ rest)
      /\ matchingJutsus st = []
      /\ timers st <> []).
Proof.
  intros H. apply consistent_reachable in H.
  destruct H as [[H _]|(H1 & H2 & H3 & H4)]; [left; exact H|right].
  destruct (matchingJutsus st) as [|m ms] eqn:M.
  - right. split; [|split; [reflexivity | apply H4; reflexivity]].
    apply findMatchingJutsus_nil. symmetry. exact H2.
  - left. destruct (findMatchingJutsus_cons (currentSequence st)) as (j & Hin & rest & Hr).
    { rewrite <- H2. discriminate. }
    exists j. split; [exact Hin|]. exists rest. split; [|exact Hr].
    intros ->. rewrite app_nil_r in Hr.
    exact (findCompletedJutsu_None _ j H3 Hin Hr).
Qed.


(** *** A held sign is appended at most once *)

Lemma run_cons (a : Action) (rest : list Action) (st : State) :
  run (a :: rest) st
  = (fst (run rest (fst (step a st))),
     snd (step a st) ++ snd (run rest (fst (step a st)))).
Proof.
  cbn [run]. destruct (step a st) as [st1 ev1]. cbn [fst snd].
  destruct (run rest st1); reflexivity.
Qed.

(** A qualifying frame whose hold count does not reach 8 only counts. *)
Lemma processSign_counts (st : State) (s : Sign) (conf : float) (now : Z) :
  timedOut now st = false ->
  ltb conf MIN_CONFIDENCE = false ->
  signHoldCount (holdSign s st) <> 8%nat ->
  processSign (Some {| sign := Some s; confidence := conf |}) now st
  = (holdSign s st, []).
Proof.
  intros T C K. unfold processSign, checkTimeout. rewrite T.
  unfold acceptSign. cbn [sign confidence]. rewrite C.
  apply Nat.eqb_neq in K. unfold SIGN_HOLD_FRAMES. rewrite K. reflexivity.
Qed.

(** On the eighth frame a sign equal to the last recorded one is
    rejected. *)
Lemma processSign_rejects (st : State) (s : Sign) (conf : float) (now : Z) :
  timedOut now st = false ->
  ltb conf MIN_CONFIDENCE = false ->
  repeatsLast s st = true ->
  processSign (Some {| sign := Some s; confidence := conf |}) now st
  = (holdSign s st, []).
Proof.
  intros T C R. unfold processSign, checkTimeout. rewrite T.
  unfold acceptSign. cbn [sign confidence]. rewrite C.
  change (repeatsLast s (holdSign s st)) with (repeatsLast s st). rewrite R.
  destruct (negb _); reflexivity.
Qed.

Lemma registerSign_continues (st : State) (s : Sign) (now : Z) :
  findCompletedJutsu (currentSequence st ++ [s]) = None ->
  let st' := fst (registerSign s now st) in
  currentSequence st' = currentSequence st ++ [s]
  /\ lastDetectedSign st' = lastDetectedSign st
  /\ signHoldCount st' = signHoldCount st
  /\ snd (registerSign s now st)
     = if onSequenceUpdate st
       then [SequenceUpdate (currentSequence st ++ [s])
               (findMatchingJutsus (currentSequence st ++ [s]))]
       else [].
Proof.
  intros H. unfold registerSign. cbn [currentSequence matchingJutsus onSequenceUpdate].
  rewrite H. destruct (_ && _); cbn; auto.
Qed.

(** Once the hold count has reached 8, further frames of the same sign
    change neither the sequence nor fire any callback. *)
Lemma run_held_past (s : Sign) (frames : list (float * Z)) (st : State) :
  lastDetectedSign st = Some s ->
  (8 <= signHoldCount st)%nat ->
  Forall (fun fr => leb MIN_CONFIDENCE (fst fr) = true) frames ->
  calm (framesOf s frames) st ->
  currentSequence (fst (run (framesOf s frames) st)) = currentSequence st
  /\ snd (run (framesOf s frames) st) = [].
Proof.
  revert st. induction frames as [|[conf now] frames IH]; intros st L K C Q.
  - split; reflexivity.
  - cbn [framesOf map fst snd] in *. fold (framesOf s frames) in *.
    rewrite run_cons. cbn [step calm] in *. destruct Q as [T Q].
    inversion C as [|fr frs Cfr Cfrs]; subst. cbn [fst] in Cfr.
    destruct (holdSign_same s st L) as [L' K'].
    rewrite (processSign_counts st s conf now T (leb_not_ltb _ _ Cfr)) in *
      by (rewrite K'; lia).
    cbn [fst snd] in *.
    destruct (IH (holdSign s st) L' ltac:(rewrite K'; lia) Cfrs Q) as [I1 I2].
    rewrite I1, I2. split; reflexivity.
Qed.

Lemma run_held (s : Sign) (frames : list (float * Z)) (st : State) :
  lastDetectedSign st = Some s ->
  (signHoldCount st < 8)%nat ->
  Forall (fun fr => leb MIN_CONFIDENCE (fst fr) = true) frames ->
  calm (framesOf s frames) st ->
  findCompletedJutsu (currentSequence st ++ [s]) = None ->
  let hit := (8 - signHoldCount st <=? List.length frames)%nat
             && negb (repeatsLast s st) in
  currentSequence (fst (run (framesOf s frames) st))
  = (if hit then currentSequence st ++ [s] else currentSequence st)
  /\ snd (run (framesOf s frames) st)
     = (if hit && onSequenceUpdate st
        then [SequenceUpdate (currentSequence st ++ [s])
                (findMatchingJutsus (currentSequence st ++ [s]))]
        else []).
Proof.
  revert st. induction frames as [|[conf now] frames IH]; intros st L K C Q N.
  - cbv zeta. cbn [List.length].
    replace (8 - signHoldCount st <=? 0)%nat with false
      by (symmetry; apply Nat.leb_gt; lia).
    split; reflexivity.
  - cbv zeta. cbn [framesOf map fst snd] in *. fold (framesOf s frames) in *.
    rewrite run_cons. cbn [step calm List.length] in *. destruct Q as [T Q].
    inversion C as [|fr frs Cfr Cfrs]; subst. cbn [fst] in Cfr.
    pose proof (leb_not_ltb _ _ Cfr) as Cok.
    destruct (holdSign_same s st L) as [L' K'].
    destruct (Nat.eq_dec (signHoldCount st) 7) as [K7|K7].
    + rewrite K7. cbn [Nat.sub].
      replace (1 <=? S (List.length frames))%nat with true
        by (symmetry; apply Nat.leb_le; lia).
      cbn [andb].
      destruct (repeatsLast s st) eqn:R; cbn [negb andb].
      * rewrite (processSign_rejects st s conf now T Cok R) in *.
        cbn [fst snd] in *.
        destruct (run_held_past s frames (holdSign s st) L'
                    ltac:(rewrite K'; lia) Cfrs Q) as [I1 I2].
        rewrite I1, I2. split; reflexivity.
      * rewrite (processSign_registers st s conf now T Cok L K7 R) in *.
        destruct (registerSign_continues (holdSign s st) s now N)
          as (R1 & R2 & R3 & R4).
        cbn [holdSign currentSequence onSequenceUpdate] in R1, R4.
        destruct (run_held_past s frames (fst (registerSign s now (holdSign s st))))
          as [I1 I2]; auto.
        { rewrite R2. exact L'. }
        { rewrite R3, K'. lia. }
        cbn [fst snd]. rewrite I1, I2, R1, R4, app_nil_r. split; reflexivity.
    + rewrite (processSign_counts st s conf now T Cok) in * by (rewrite K'; lia).
      cbn [fst snd] in *.
      destruct (IH (holdSign s st) L' ltac:(rewrite K'; lia) Cfrs Q N) as [I1 I2].
      cbv zeta in I1, I2.
      change (repeatsLast s (holdSign s st)) with (repeatsLast s st) in I1, I2.
      change (currentSequence (holdSign s st)) with (currentSequence st) in I1, I2.
      change (onSequenceUpdate (holdSign s st)) with (onSequenceUpdate st) in I2.
      rewrite K' in I1, I2.
      replace (8 - signHoldCount st <=? S (List.length frames))%nat
        with (8 - S (signHoldCount st) <=? List.length frames)%nat.
      * rewrite I1, I2. split; reflexivity.
      * destruct (Nat.leb_spec (8 - S (signHoldCount st)) (List.length frames));
          symmetry; [apply Nat.leb_le | apply Nat.leb_gt]; lia.
Qed.

(** C2, as the code has it.  Over a run of frames that all show the sign
    [s] with confidence at least 0.5, starting when [s] is not the last
    detected sign, with no timeout and no completion on the way, the
    sign is appended exactly when the run has at least 8 frames and [s]
    is not the last recorded sign: the sequence after the run is the one
    before it, followed by [s] in that case, and the update callback is
    called once then and never otherwise.  Taken at every prefix of the
    run this puts the append on the eighth frame. *)
Theorem held_sign_appended_once (s : Sign) (frames : list (float * Z))
    (st : State) :
  lastDetectedSign st <> Some s ->
  Forall (fun fr => leb MIN_CONFIDENCE (fst fr) = true) frames ->
  calm (framesOf s frames) st ->
  findCompletedJutsu (currentSequence st ++ [s]) = None ->
  let appends := (8 <=? List.length frames)%nat && negb (repeatsLast s st) in
  currentSequence (fst (run (framesOf s frames) st))
  = (if appends then currentSequence st ++ [s] else currentSequence st)
  /\ snd (run (framesOf s frames) st)
     = (if appends && onSequenceUpdate st
        then [SequenceUpdate (currentSequence st ++ [s])
                (findMatchingJutsus (currentSequence st ++ [s]))]
        else []).
Proof.
  intros L C Q N. destruct frames as [|[conf now] frames].
  - split; reflexivity.
  - cbv zeta. cbn [framesOf map fst snd] in *. fold (framesOf s frames) in *.
    rewrite run_cons. cbn [step calm List.length] in *. destruct Q as [T Q].
    inversion C as [|fr frs Cfr Cfrs]; subst. cbn [fst] in Cfr.
    pose proof (leb_not_ltb _ _ Cfr) as Cok.
    destruct (holdSign_other s st L) as [L' K'].
    rewrite (processSign_counts st s conf now T Cok) in * by (rewrite K'; lia).
    cbn [fst snd] in *.
    destruct (run_held s frames (holdSign s st) L' ltac:(rewrite K'; lia) Cfrs Q N)
      as [I1 I2].
    cbv zeta in I1, I2.
    change (repeatsLast s (holdSign s st)) with (repeatsLast s st) in I1, I2.
    change (currentSequence (holdSign s st)) with (currentSequence st) in I1, I2.
    change (onSequenceUpdate (holdSign s st)) with (onSequenceUpdate st) in I2.
    rewrite K' in I1, I2.
    change (8 <=? S (List.length frames))%nat
      with (7 <=? List.length frames)%nat.
    change (8 - 1)%nat with 7%nat in I1, I2.
    rewrite I1, I2. split; reflexivity.
Qed.


End Matcher.

(** ** The matcher on sample runs *)

Section MatcherSamples.

Import F64 JutsuDetector Samples.
Local Open Scope string_scope.

Lemma reachable_chidoriAlmost : reachable chidoriAlmost.
Proof. apply reachable_run, reachable_initial. Qed.

Lemma reachable_ramThenPause : reachable ramThenPause.
Proof. apply reachable_run, reachable_initial. Qed.

Lemma reachable_ramThenSnake : reachable ramThenSnake.
Proof. apply reachable_run, reachable_initial. Qed.

Lemma reachable_tigerAlone : reachable tigerAlone.
Proof. apply reachable_run, reachable_initial. Qed.

(** [completing_sample] on the eighth Monkey frame after Ox and Hare. *)
Lemma completing_sample_witness :
  In chidori jutsus
  /\ currentSequence chidoriAlmost ++ [Monkey] = signs chidori
  /\ lastDetectedSign chidoriAlmost = Some Monkey
  /\ signHoldCount chidoriAlmost = 7%nat
  /\ leb MIN_CONFIDENCE d0_9 = true
  /\ timedOut 300 chidoriAlmost = false
  /\ snd (processSign (Some {| sign := Some Monkey; confidence := d0_9 |})
            300 chidoriAlmost)
     = [SequenceUpdate (signs chidori) (findMatchingJutsus (signs chidori));
        JutsuComplete chidori; SequenceReset "completed"]
  /\ currentSequence
       (fst (processSign (Some {| sign := Some Monkey; confidence := d0_9 |})
               300 chidoriAlmost)) = [].
Proof.
  assert (Hin : In chidori jutsus) by (right; left; reflexivity).
  assert (H1 : currentSequence chidoriAlmost ++ [Monkey] = signs chidori)
    by (vm_compute; reflexivity).
  assert (H2 : lastDetectedSign chidoriAlmost = Some Monkey)
    by (vm_compute; reflexivity).
  assert (H3 : signHoldCount chidoriAlmost = 7%nat) by (vm_compute; reflexivity).
  assert (H4 : leb MIN_CONFIDENCE d0_9 = true) by (vm_compute; reflexivity).
  assert (H5 : timedOut 300 chidoriAlmost = false) by (vm_compute; reflexivity).
  repeat (split; [assumption|]).
  pose proof (completing_sample chidoriAlmost Monkey d0_9 300 chidori
                Hin H1 H2 H3 H4 H5) as (He & Hc & _).
  split; [exact He | exact Hc].
Defined.

(** C1 as stated fails on that frame: the update callback is called on
    the completing sample too, before the completion callback. *)
Lemma completing_sample_counterexample :
  ~ (forall (st : State) (s : Sign) (conf : float) (now : Z) (j : Jutsu),
       reachable st ->
       onSequenceUpdate st = true -> onJutsuComplete st = true ->
       In j jutsus ->
       currentSequence st ++ [s] = signs j ->
       lastDetectedSign st = Some s ->
       signHoldCount st = 7%nat ->
       leb MIN_CONFIDENCE conf = true ->
       timedOut now st = false ->
       let result :=
         processSign (Some {| sign := Some s; confidence := conf |}) now st in
       filter isComplete (snd result) = [JutsuComplete j]
       /\ currentSequence (fst result) = []
       /\ filter isUpdate (snd result) = []).
Proof.
  intros H.
  destruct (H chidoriAlmost Monkey d0_9 300%Z chidori reachable_chidoriAlmost)
    as (_ & _ & Hu); try (vm_compute; reflexivity).
  - right; left; reflexivity.
  - vm_compute in Hu. discriminate Hu.
Qed.

(** [held_sign_appended_once] on eight Ram frames from the start. *)
Lemma held_sign_appended_once_witness :
  lastDetectedSign initial <> Some Ram
  /\ Forall (fun fr => leb MIN_CONFIDENCE (fst fr) = true) (repeat (d0_9, 100%Z) 8)
  /\ calm (framesOf Ram (repeat (d0_9, 100%Z) 8)) initial
  /\ findCompletedJutsu (currentSequence initial ++ [Ram]) = None
  /\ currentSequence (fst (run (framesOf Ram (repeat (d0_9, 100%Z) 8)) initial))
     = [Ram]
  /\ snd (run (framesOf Ram (repeat (d0_9, 100%Z) 8)) initial) = [].
Proof.
  assert (H1 : lastDetectedSign initial <> Some Ram) by discriminate.
  assert (H2 : Forall (fun fr => leb MIN_CONFIDENCE (fst fr) = true)
                 (repeat (d0_9, 100%Z) 8))
    by (repeat constructor).
  assert (H3 : calm (framesOf Ram (repeat (d0_9, 100%Z) 8)) initial)
    by (vm_compute; repeat split).
  assert (H4 : findCompletedJutsu (currentSequence initial ++ [Ram]) = None)
    by (vm_compute; reflexivity).
  repeat (split; [assumption|]).
  exact (held_sign_appended_once Ram (repeat (d0_9, 100%Z) 8) initial H1 H2 H3 H4).
Defined.

(** C2 as stated fails after Ram has been recorded and one frame without
    a sign has cleared the hold count: eight more Ram frames reach the
    hold count 8 and append nothing. *)
Lemma held_sign_counterexample :
  ~ (forall (s : Sign) (frames : list (float * Z)) (st : State),
       reachable st ->
       lastDetectedSign st <> Some s ->
       Forall (fun fr => leb MIN_CONFIDENCE (fst fr) = true) frames ->
       calm (framesOf s frames) st ->
       findCompletedJutsu (currentSequence st ++ [s]) = None ->
       (8 <= List.length frames)%nat ->
       currentSequence (fst (run (framesOf s frames) st))
       = currentSequence st ++ [s]).
Proof.
  intros H.
  specialize (H Ram (repeat (d0_9, 200%Z) 8) ramThenPause reachable_ramThenPause).
  assert (E : currentSequence
                (fst (run (framesOf Ram (repeat (d0_9, 200%Z) 8)) ramThenPause))
              = currentSequence ramThenPause ++ [Ram]).
  { apply H.
    - vm_compute. discriminate.
    - repeat constructor.
    - vm_compute. repeat split.
    - vm_compute. reflexivity.
    - cbn. lia. }
  vm_compute in E. discriminate E.
Qed.

(** [recorded_signs_shape] on the state left by eight Tiger frames, which
    is in its third case. *)
Lemma recorded_signs_shape_witness :
  reachable tigerAlone
  /\ (currentSequence tigerAlone = []
      \/ (exists j, In j jutsus
                    /\ exists rest, rest <> []
                                    /\ signs j = currentSequence tigerAlone ++ rest)
      \/ ((forall j, In j jutsus ->
                     ~ exists rest, signs j = currentSequence tigerAlone ++ rest)
          /\ matchingJutsus tigerAlone = []
          /\ timers tigerAlone <> [])).
Proof.
  split; [exact reachable_tigerAlone|].
  exact (recorded_signs_shape tigerAlone reachable_tigerAlone).
Defined.

(** C3 as stated fails there: [currentSequence] is [Tiger], and no catalog
    sequence starts with Tiger. *)
Lemma recorded_signs_counterexample :
  ~ (forall st : State,
       reachable st ->
       currentSequence st = []
       \/ exists j, In j jutsus
                    /\ exists rest, rest <> []
                                    /\ signs j = currentSequence st ++ rest).
Proof.
  intros H. destruct (H tigerAlone reachable_tigerAlone) as [E|(j & Hin & rest & _ & E)].
  - vm_compute in E. discriminate E.
  - change (currentSequence tigerAlone) with [Tiger] in E.
    destruct Hin as [<-|[<-|[<-|[<-|[]]]]]; discriminate E.
Qed.

(** [timeout_resets_first] on a Snake frame 5900 ms after Ram was
    recorded. *)
Lemma timeout_resets_first_witness :
  currentSequence ramRecorded <> []
  /\ (6000 - lastSignTime ramRecorded > 5000)%Z
  /\ currentSequence (fst (resetSequence "timeout" ramRecorded)) = []
  /\ currentSequence
       (fst (processSign (Some {| sign := Some Snake; confidence := d0_9 |})
               6000 ramRecorded)) = [].
Proof.
  assert (H1 : currentSequence ramRecorded <> []) by (vm_compute; discriminate).
  assert (H2 : (6000 - lastSignTime ramRecorded > 5000)%Z) by (vm_compute; reflexivity).
  split; [exact H1|]. split; [exact H2|].
  destruct (timeout_resets_first ramRecorded
              {| sign := Some Snake; confidence := d0_9 |} 6000 H1 H2)
    as (_ & Hc & _ & _ & _ & Hf).
  split; [exact Hc | exact Hf].
Defined.

(** [deferred_check_is_live] on the append of Tiger to the empty
    sequence. *)
Lemma deferred_check_is_live_witness :
  findMatchingJutsus (currentSequence initial ++ [Tiger]) = []
  /\ timers (fst (registerSign Tiger 100 initial)) = [1100%Z]
  /\ currentSequence (fst (registerSign Tiger 100 initial)) = [Tiger].
Proof.
  assert (H : findMatchingJutsus (currentSequence initial ++ [Tiger]) = [])
    by (vm_compute; reflexivity).
  split; [exact H|].
  destruct (deferred_check_is_live initial Tiger 100 H) as ((Ht & Hc & _) & _).
  split; [exact Ht | exact Hc].
Defined.

(** The check reads the state it fires in: Tiger alone schedules a check,
    a manual reset and eight Ram frames follow, and the check then finds
    shadowclone matching and does nothing. *)
Lemma stale_check_does_nothing :
  let before :=
    fst (run (hold 8 Tiger d0_9 100 ++ [ResetCall "manual"] ++ hold 8 Ram d0_9 300)
             initial) in
  timers before = [1100%Z]
  /\ currentSequence before = [Ram]
  /\ currentSequence (fst (fireTimer before)) = [Ram]
  /\ signHoldCount (fst (fireTimer before)) = 8%nat
  /\ timers (fst (fireTimer before)) = []
  /\ snd (fireTimer before) = [].
Proof. vm_compute. repeat split. Qed.

(** [malformed_frame_is_ignored] on the first 20 landmarks of a hand. *)
Lemma malformed_frame_is_ignored_witness :
  (List.length (firstn 20 twoFingerHand) < 21)%nat
  /\ HandSignClassifier.classify acos_nan (firstn 20 twoFingerHand) = None
  /\ processSign
       (option_map sample_of
          (HandSignClassifier.classify acos_nan (firstn 20 twoFingerHand)))
       9000 ramThenSnake = (ramThenSnake, []).
Proof.
  assert (H : (List.length (firstn 20 twoFingerHand) < 21)%nat)
    by (vm_compute; lia).
  split; [exact H|].
  exact (malformed_frame_is_ignored acos_nan (firstn 20 twoFingerHand)
           9000 ramThenSnake H).
Defined.

(** C8 as stated fails with Ram recorded and Snake held for three
    frames: 8900 ms later a low-confidence frame times the sequence out
    and clears the hold state, a malformed landmark array does neither. *)
Lemma malformed_frame_counterexample :
  ~ (forall (Math_acos : float -> float) (lm : list HandSignClassifier.Landmark)
            (now : Z) (st : State) (low : Sample),
       reachable st ->
       (List.length lm < 21)%nat ->
       sign low = None \/ ltb (confidence low) MIN_CONFIDENCE = true ->
       processSign (option_map sample_of (HandSignClassifier.classify Math_acos lm))
                   now st
       = processSign (Some low) now st).
Proof.
  intros H.
  specialize (H acos_nan [] 9000%Z ramThenSnake
                {| sign := None; confidence := d0 |} reachable_ramThenSnake).
  assert (E : processSign (option_map sample_of (HandSignClassifier.classify acos_nan []))
                          9000 ramThenSnake
              = processSign (Some {| sign := None; confidence := d0 |})
                            9000 ramThenSnake).
  { apply H; [cbn; lia | left; reflexivity]. }
  apply (f_equal (fun r => currentSequence (fst r))) in E.
  vm_compute in E. discriminate E.
Qed.

End MatcherSamples.

(** ** More on the order on doubles *)

Section FloatOrderMore.

Import F64.

Lemma lex_Eq e1 m1 e2 m2 :
  lex e1 m1 e2 m2 = Eq <-> e1 = e2 /\ m1 = m2.
Proof.
  unfold lex. change (Pos.compare_cont Eq m1 m2) with (m1 ?= m2)%positive.
  destruct (Z.compare_spec e1 e2); rewrite ?Pos.compare_eq_iff;
    split; intros; try lia; try discriminate; intuition congruence.
Qed.

(** Two numbers are always comparable: only NaN is not. *)
Lemma SFcompare_total (a b : float) :
  is_nan a = false -> is_nan b = false -> SFcompare a b <> None.
Proof.
  destruct a as [sa|sa| |sa ma ea], b as [sb|sb| |sb mb eb];
    cbn [is_nan]; try discriminate; intros _ _;
    rewrite ?SFcompare_finite; cbn [SFcompare]; discriminate.
Qed.

Lemma leb_not_nan (a b : float) : leb a b = true -> is_nan a = false /\ is_nan b = false.
Proof.
  unfold leb, SFleb.
  destruct a as [sa|sa| |sa ma ea], b as [sb|sb| |sb mb eb];
    cbn [SFcompare is_nan]; try discriminate; auto.
Qed.

Lemma ltb_not_nan (a b : float) : ltb a b = true -> is_nan a = false /\ is_nan b = false.
Proof. intros H. apply leb_not_nan, ltb_leb, H. Qed.

(** [a <= b] and [b < c] give [a < c]. *)
Lemma leb_ltb_trans (a b c : float) :
  leb a b = true -> ltb b c = true -> ltb a c = true.
Proof.
  unfold leb, ltb, SFleb, SFltb.
  destruct a as [sa|sa| |sa ma ea], b as [sb|sb| |sb mb eb],
           c as [sc|sc| |sc mc ec];
    rewrite ?SFcompare_finite;
    try (destruct sa); try (destruct sb); try (destruct sc);
    cbn [SFcompare]; try discriminate; try reflexivity.
  - destruct (lex ea ma eb mb) eqn:E1; cbn [CompOpp]; try discriminate;
      destruct (lex eb mb ec mc) eqn:E2; cbn [CompOpp]; try discriminate; intros _ _.
    + apply lex_Eq in E1. destruct E1 as [-> ->]. rewrite E2. reflexivity.
    + apply lex_Gt in E1, E2.
      assert (E : lex ea ma ec mc = Gt) by (apply lex_Gt; lia).
      rewrite E; reflexivity.
  - destruct (lex ea ma eb mb) eqn:E1; try discriminate;
      destruct (lex eb mb ec mc) eqn:E2; try discriminate; intros _ _.
    + apply lex_Eq in E1. destruct E1 as [-> ->]. rewrite E2. reflexivity.
    + apply lex_Lt in E1, E2.
      assert (E : lex ea ma ec mc = Lt) by (apply lex_Lt; lia).
      rewrite E; reflexivity.
Qed.

(** Among numbers, [a < b] fails only when [b <= a]. *)
Lemma not_ltb_leb (a b : float) :
  is_nan a = false -> is_nan b = false -> ltb a b = false -> leb b a = true.
Proof.
  unfold leb, ltb, SFleb, SFltb.
  destruct a as [sa|sa| |sa ma ea], b as [sb|sb| |sb mb eb];
    cbn [is_nan]; try discriminate; intros _ _;
    rewrite ?SFcompare_finite;
    try (destruct sa); try (destruct sb);
    cbn [SFcompare]; try discriminate; try reflexivity.
  - destruct (lex ea ma eb mb) eqn:E1; cbn [CompOpp]; try discriminate; intros _.
    + rewrite (lex_Eq_not_Lt _ _ _ _ E1). reflexivity.
    + apply lex_Lt in E1. rewrite (proj2 (lex_Gt eb mb ea ma)) by lia. reflexivity.
  - destruct (lex ea ma eb mb) eqn:E1; cbn [CompOpp]; try discriminate; intros _.
    + rewrite (lex_Eq_not_Lt _ _ _ _ E1). reflexivity.
    + apply lex_Gt in E1. rewrite (proj2 (lex_Lt eb mb ea ma)) by lia. reflexivity.
Qed.

Lemma leb_refl (a : float) : is_nan a = false -> leb a a = true.
Proof.
  intros H. apply not_ltb_leb; auto. apply ltb_irrefl.
Qed.

Lemma leb_trans (a b c : float) :
  leb a b = true -> leb b c = true -> leb a c = true.
Proof.
  intros H1 H2. destruct (ltb c a) eqn:E.
  - pose proof (leb_ltb_trans _ _ _ H2 E) as F.
    rewrite (leb_not_ltb _ _ H1) in F. discriminate F.
  - apply not_ltb_leb; [apply (leb_not_nan _ _ H2) | apply (leb_not_nan _ _ H1) | exact E].
Qed.

End FloatOrderMore.

(** ** Which sign [classify] selects *)

Section ClassifierChoice.

Import F64 HandSignClassifier.

Variable Math_acos : float -> float.

Lemma rule_score_number (f : HandFeatures) e :
  In e signRules -> leb d0 (score (snd e f)) = true.
Proof.
  intros H. exact (proj1 (Forall_forall _ _) (rule_scores_nonneg f) e H).
Qed.

Lemma best_is_first_max_step f seen acc e :
  Forall (fun e => leb d0 (score (snd e f)) = true) seen ->
  leb d0 (score (snd e f)) = true ->
  best_is_first_max f seen acc ->
  best_is_first_max f (seen ++ [e]) (classify_step f acc e).
Proof.
  intros Hseen He H. destruct e as [s r]. cbn [snd] in He.
  unfold classify_step.
  destruct (gtb (score (r f)) (bestScore acc)) eqn:G.
  - (* the new rule takes over *)
    unfold best_is_first_max. cbn [bestSign bestScore].
    exists seen, r, []. repeat split; [|constructor].
    unfold best_is_first_max in H. apply Forall_forall. intros e' He'.
    pose proof (proj1 (Forall_forall _ _) Hseen e' He') as N.
    destruct (bestSign acc) as [s0|].
    + destruct H as (before & rule & after & -> & Hb & Hlt & Hge).
      rewrite Hb in G.
      apply in_app_or in He'. destruct He' as [He'|[<-|He']].
      * eapply ltb_trans; [|exact G].
        exact (proj1 (Forall_forall _ _) Hlt e' He').
      * exact G.
      * eapply leb_ltb_trans; [|exact G].
        apply not_ltb_leb.
        -- apply (ltb_not_nan _ _ G).
        -- apply (leb_not_nan _ _ N).
        -- exact (proj1 (Forall_forall _ _) Hge e' He').
    + destruct H as [Hz Hall]. rewrite Hz in G.
      eapply leb_ltb_trans; [|exact G].
      apply not_ltb_leb; [reflexivity | apply (leb_not_nan _ _ N) |].
      exact (proj1 (Forall_forall _ _) Hall e' He').
  - (* the best so far stays *)
    unfold best_is_first_max in *. cbn [bestSign bestScore].
    destruct (bestSign acc) as [s0|].
    + destruct H as (before & rule & after & -> & Hb & Hlt & Hge).
      exists before, rule, (after ++ [(s, r)]).
      rewrite <- app_assoc. repeat split; auto.
      apply Forall_app. split; [exact Hge|].
      constructor; [|constructor]. cbn [snd]. rewrite <- Hb. exact G.
    + destruct H as [Hz Hall]. split; [exact Hz|].
      apply Forall_app. split; [exact Hall|].
      constructor; [|constructor]. cbn [snd]. rewrite <- Hz. exact G.
Qed.

Lemma best_is_first_max_fold f rs seen acc :
  Forall (fun e => leb d0 (score (snd e f)) = true) seen ->
  Forall (fun e => leb d0 (score (snd e f)) = true) rs ->
  best_is_first_max f seen acc ->
  best_is_first_max f (seen ++ rs) (fold_left (classify_step f) rs acc).
Proof.
  revert seen acc. induction rs as [|e rs IH]; intros seen acc Hseen Hrs H.
  - rewrite app_nil_r. exact H.
  - inversion Hrs as [|e' rs' He Hrs']; subst. cbn [fold_left].
    replace (seen ++ e :: rs) with ((seen ++ [e]) ++ rs)
      by (rewrite <- app_assoc; reflexivity).
    apply IH; auto.
    + apply Forall_app. split; [exact Hseen | constructor; [exact He|constructor]].
    + apply best_is_first_max_step; auto.
Qed.

(** What [classify] returns, in terms of the loop's final state. *)
Lemma classify_unfold (lm : list Landmark) (r : Classification) :
  classify Math_acos lm = Some r ->
  let f := handFeatures Math_acos lm in
  let acc := fold_left (classify_step f) signRules
               {| results := []; bestSign := None; bestScore := d0 |} in
  features r = f
  /\ allScores r = results acc
  /\ threshold r = d0_45
  /\ ((ltb (bestScore acc) d0_45 = true /\ sign r = None /\ confidence r = d0)
      \/ (ltb (bestScore acc) d0_45 = false /\ sign r = bestSign acc
          /\ confidence r = Math_min d1 (bestScore acc))).
Proof.
  unfold classify, getHandFeatures.
  destruct (List.length lm <? 21)%nat; [discriminate|].
  cbv zeta.
  generalize (fold_left (classify_step (handFeatures Math_acos lm)) signRules
                {| results := []; bestSign := None; bestScore := d0 |}).
  generalize (handFeatures Math_acos lm).
  intros f acc.
  destruct (ltb (bestScore acc) d0_45) eqn:E; intros H; injection H as <-;
    cbn [features allScores threshold sign confidence];
    (split; [reflexivity|]); (split; [reflexivity|]); (split; [reflexivity|]);
    [left|right]; auto.
Qed.

Lemma classify_final_state (lm : list Landmark) :
  let f := handFeatures Math_acos lm in
  best_is_first_max f signRules
    (fold_left (classify_step f) signRules
       {| results := []; bestSign := None; bestScore := d0 |}).
Proof.
  cbv zeta.
  apply (best_is_first_max_fold (handFeatures Math_acos lm) signRules []).
  - constructor.
  - apply rule_scores_nonneg.
  - split; [reflexivity | constructor].
Qed.

(** The state the loop ends in and the result returned, together. *)
Lemma classify_returns (lm : list Landmark) (r : Classification) :
  classify Math_acos lm = Some r ->
  exists acc,
    best_is_first_max (features r) signRules acc
    /\ allScores r = results acc
    /\ ((ltb (bestScore acc) d0_45 = true /\ sign r = None /\ confidence r = d0)
        \/ (ltb (bestScore acc) d0_45 = false /\ sign r = bestSign acc
            /\ confidence r = Math_min d1 (bestScore acc))).
Proof.
  intros Hr. destruct (classify_unfold lm r Hr) as (Hf & Ha & _ & Hc).
  pose proof (classify_final_state lm) as Hfin. cbv zeta in Hfin, Hc, Ha.
  rewrite <- Hf in Hfin, Hc, Ha.
  exists (fold_left (classify_step (features r)) signRules
            {| results := []; bestSign := None; bestScore := d0 |}).
  split; [exact Hfin|]. split; [exact Ha | exact Hc].
Qed.

(** X1.  The sign [classify] selects is the first rule of [signRules] with
    the greatest score: every rule before it scores strictly less, no
    rule after it scores more, and the confidence is that score capped at
    1.  A later rule that ties with an earlier one never wins. *)
Theorem classify_selects_first_maximum (lm : list Landmark) (r : Classification)
    (s : Sign) :
  classify Math_acos lm = Some r ->
  sign r = Some s ->
  exists before rule after,
    signRules = before ++ (s, rule) :: after
    /\ confidence r = Math_min d1 (score (rule (features r)))
    /\ Forall (fun e => ltb (score (snd e (features r)))
                            (score (rule (features r))) = true) before
    /\ Forall (fun e => ltb (score (rule (features r)))
                            (score (snd e (features r))) = false) after.
Proof.
  intros Hr Hs. destruct (classify_returns lm r Hr) as (acc & Hfin & _ & Hc).
  clear Hr. revert Hfin Hc Hs. generalize (features r) as f.
  generalize (sign r) as sg. generalize (confidence r) as conf.
  intros conf sg f Hfin Hc Hs. subst sg.
  unfold best_is_first_max in Hfin.
  destruct Hc as [(_ & Hn & _)|(_ & Hb & Hconf)]; [discriminate Hn|].
  rewrite <- Hb in Hfin.
  destruct Hfin as (before & rule & after & Hsplit & Hscore & Hlt & Hge).
  exists before, rule, after. rewrite Hconf, Hscore. auto.
Qed.

Lemma Math_min_floor (mc : positive) (ec : Z) (c b : float) :
  leb c (S754_finite false mc ec) = true -> leb c b = true ->
  leb c (Math_min (S754_finite false mc ec) b) = true.
Proof.
  intros H1 Hb. unfold Math_min.
  destruct (SFcompare (S754_finite false mc ec) b) as [[]|] eqn:E; auto.
  - destruct (leb_not_nan _ _ Hb) as [_ Nb].
    exfalso. apply (SFcompare_total (S754_finite false mc ec) b); auto.
Qed.

(** What [classify] reports: no sign with confidence 0, or a sign with a
    confidence of at least the threshold. *)
Lemma classify_confidence_cases (lm : list Landmark) (r : Classification) :
  classify Math_acos lm = Some r ->
  (sign r = None /\ confidence r = d0)
  \/ (exists s, sign r = Some s /\ leb d0_45 (confidence r) = true).
Proof.
  intros Hr. destruct (classify_returns lm r Hr) as (acc & Hfin & _ & Hc).
  clear Hr. revert Hfin Hc. generalize (features r) as f.
  generalize (sign r) as sg. generalize (confidence r) as conf.
  intros conf sg f Hfin Hc.
  destruct Hc as [(_ & Hn & Hz)|(Hhigh & Hb & Hconf)]; [left; auto|].
  right. unfold best_is_first_max in Hfin.
  destruct (bestSign acc) as [s|].
  - exists s. split; [exact Hb|]. rewrite Hconf.
    destruct Hfin as (before & rule & after & Hsplit & Hscore & _).
    assert (N : leb d0 (score (rule f)) = true).
    { apply (rule_score_number _ (s, rule)). rewrite Hsplit.
      apply in_or_app. right. left. reflexivity. }
    apply (Math_min_floor 4503599627370496 (-52)); [reflexivity|].
    apply not_ltb_leb; [|reflexivity|exact Hhigh].
    rewrite Hscore. apply (leb_not_nan _ _ N).
  - destruct Hfin as [Hz _]. rewrite Hz in Hhigh. discriminate Hhigh.
Qed.

Lemma classify_confidence_number (lm : list Landmark) (r : Classification) :
  classify Math_acos lm = Some r -> is_nan (confidence r) = false.
Proof.
  intros H. destruct (classify_confidence_cases lm r H) as [[_ ->]|(s & _ & L)];
    [reflexivity | apply (leb_not_nan _ _ L)].
Qed.

(** X2.  The threshold 0.45 separates the two kinds of result: when no sign
    is reported every rule scored below 0.45, and a reported sign has a
    confidence of at least 0.45. *)
Theorem classify_floor (lm : list Landmark) (r : Classification) :
  classify Math_acos lm = Some r ->
  (sign r = None ->
   Forall (fun e => ltb (score (snd e (features r))) d0_45 = true) signRules)
  /\ (forall s, sign r = Some s -> leb d0_45 (confidence r) = true).
Proof.
  intros Hr. destruct (classify_returns lm r Hr) as (acc & Hfin & _ & Hc).
  clear Hr. revert Hfin Hc. generalize (features r) as f.
  generalize (sign r) as sg. generalize (confidence r) as conf.
  intros conf sg f Hfin Hc.
  unfold best_is_first_max in Hfin. split.
  - intros ->. apply Forall_forall. intros e He.
    pose proof (rule_score_number f e He) as N.
    destruct Hc as [(Hlow & _ & _)|(Hhigh & Hb & _)].
    + assert (L : leb (score (snd e f)) (bestScore acc) = true).
      { destruct (bestSign acc) as [s0|].
        - destruct Hfin as (before & rule & after & Hsplit & Hscore & Hlt & Hge).
          rewrite Hscore. rewrite Hsplit in He.
          apply in_app_or in He. destruct He as [He|[<-|He]].
          + apply ltb_leb. exact (proj1 (Forall_forall _ _) Hlt e He).
          + apply leb_refl. apply (leb_not_nan _ _ N).
          + apply not_ltb_leb.
            * rewrite <- Hscore. apply (ltb_not_nan _ _ Hlow).
            * apply (leb_not_nan _ _ N).
            * exact (proj1 (Forall_forall _ _) Hge e He).
        - destruct Hfin as [Hz Hall]. rewrite Hz.
          apply not_ltb_leb; [reflexivity | apply (leb_not_nan _ _ N) |].
          exact (proj1 (Forall_forall _ _) Hall e He). }
      exact (leb_ltb_trans _ _ _ L Hlow).
    + rewrite <- Hb in Hfin. destruct Hfin as [Hz _].
      rewrite Hz in Hhigh. discriminate Hhigh.
  - intros s ->.
    destruct Hc as [(_ & Hn & _)|(Hhigh & Hb & Hconf)]; [discriminate Hn|].
    rewrite Hconf. rewrite <- Hb in Hfin.
    destruct Hfin as (before & rule & after & Hsplit & Hscore & _).
    assert (N : leb d0 (score (rule f)) = true).
    { apply (rule_score_number _ (s, rule)). rewrite Hsplit.
      apply in_or_app. right. left. reflexivity. }
    apply (Math_min_floor 4503599627370496 (-52)); [reflexivity|].
    apply not_ltb_leb; [|reflexivity|exact Hhigh].
    rewrite Hscore. apply (leb_not_nan _ _ N).
Qed.

End ClassifierChoice.

Section Reported.

Import F64 HandSignClassifier.
Local Open Scope f64_scope.

Variable Math_acos : float -> float.

Lemma signRules_keys_NoDup : NoDup (map fst signRules).
Proof.
  cbn. repeat (constructor; [cbn; intuition discriminate|]). constructor.
Qed.

Lemma same_key_same_rule (A B : Type) (l : list (A * B)) (k : A) (a b : B) :
  NoDup (map fst l) -> In (k, a) l -> In (k, b) l -> a = b.
Proof.
  induction l as [|[k' c] l IH]; intros N Ha Hb; [destruct Ha|].
  cbn [map fst] in N. inversion N as [|? ? Hnot N']; subst.
  destruct Ha as [Ha|Ha], Hb as [Hb|Hb].
  - congruence.
  - injection Ha as -> ->. exfalso. apply Hnot.
    apply (in_map fst) in Hb. exact Hb.
  - injection Hb as -> ->. exfalso. apply Hnot.
    apply (in_map fst) in Ha. exact Ha.
  - apply IH; assumption.
Qed.

(** X3.  The confidence of a result is the score listed for the selected
    sign in [allScores]: the table reports the capped scores, and each
    sign has one entry. *)
Theorem confidence_is_reported_score (lm : list Landmark) (r : Classification)
    (s : Sign) (entry : RuleResult) :
  classify Math_acos lm = Some r ->
  sign r = Some s ->
  In (s, entry) (allScores r) ->
  score entry = confidence r.
Proof.
  intros Hr Hs Hin.
  destruct (classify_returns Math_acos lm r Hr) as (acc & Hfin & _ & Hc).
  destruct (classify_unfold Math_acos lm r Hr) as (Hf & Ha & _).
  cbv zeta in Ha.
  destruct (classify_fold_ok (handFeatures Math_acos lm) signRules
              {| results := []; bestSign := None; bestScore := d0 |}
              (rule_scores_nonneg _)) as [_ Hres].
  { left. split; reflexivity. }
  rewrite Ha, Hres in Hin. cbn [results app] in Hin. rewrite <- Hf in Hin.
  clear Ha Hres Hr Hf. revert Hin Hfin Hc Hs. generalize (features r) as f.
  generalize (confidence r) as conf. generalize (sign r) as sg.
  intros sg conf f Hin Hfin Hc ->.
  destruct Hc as [(_ & Hn & _)|(_ & Hb & ->)]; [discriminate Hn|].
  unfold best_is_first_max in Hfin. rewrite <- Hb in Hfin.
  destruct Hfin as (before & rule & after & Hsplit & -> & _).
  apply in_map_iff in Hin. destruct Hin as ([s' rule'] & Heq & Hin').
  unfold reported in Heq. cbn [fst snd] in Heq. injection Heq as -> <-.
  cbn [score].
  assert (E : rule' = rule).
  { apply (same_key_same_rule _ _ signRules s); [apply signRules_keys_NoDup|exact Hin'|].
    rewrite Hsplit. apply in_or_app. right. left. reflexivity. }
  rewrite E. reflexivity.
Qed.

End Reported.

(** ** Fingers, shapes and the Ram hand *)

Section RamHand.

Import F64 HandSignClassifier.
Local Open Scope f64_scope.

Variable Math_acos : float -> float.

(** *** Fingers and shapes exclude one another *)

(** X4.  [isFingerExtended] and [isFingerCurled] never both hold of a finger,
    whatever the landmarks are (a curl between 0.4 and 0.55, or NaN,
    makes both false). *)
Theorem extended_and_curled_exclude (lm : list Landmark) (base pip dip tip : nat) :
  isFingerExtended lm base pip dip tip && isFingerCurled lm base pip dip tip = false.
Proof.
  unfold isFingerExtended, isFingerCurled.
  destruct (getFingerCurl lm base pip dip tip < d0_4) eqn:E; [|reflexivity].
  cbn [andb]. apply (ltb_gtb_conflict _ d0_4); [reflexivity | exact E].
Qed.

(** X5.  In the features of any hand no finger is both extended and curled,
    and at most one of the four hand shapes [indexMiddleOnly],
    [allFingersCurled], [allFingersExtended] and [hornsShape] holds. *)
Theorem shape_flags_exclude (lm : list Landmark) :
  let f := handFeatures Math_acos lm in
  (thumbExtended f && thumbCurled f = false
   /\ indexExtended f && indexCurled f = false
   /\ middleExtended f && middleCurled f = false
   /\ ringExtended f && ringCurled f = false
   /\ pinkyExtended f && pinkyCurled f = false)
  /\ (indexMiddleOnly f && allFingersCurled f = false
      /\ indexMiddleOnly f && allFingersExtended f = false
      /\ indexMiddleOnly f && hornsShape f = false
      /\ allFingersCurled f && allFingersExtended f = false
      /\ allFingersCurled f && hornsShape f = false
      /\ allFingersExtended f && hornsShape f = false).
Proof.
  cbv zeta. generalize (handFeatures_flags Math_acos lm).
  generalize (handFeatures Math_acos lm). intros f Hf.
  destruct Hf as (E1 & E2 & E3 & E4 & E5 & E6 & E7 & E8 & E9 & E10 & _
                  & E12 & E13 & E14 & E15).
  assert (X : forall x, (x < d0_4) && (x > d0_55) = false).
  { intros x. destruct (x < d0_4) eqn:E; [|reflexivity].
    cbn [andb]. apply (ltb_gtb_conflict _ d0_4); [reflexivity | exact E]. }
  assert (T : thumbExtended f && thumbCurled f = false) by (rewrite E1, E10; apply X).
  assert (I : indexExtended f && indexCurled f = false) by (rewrite E2, E6; apply X).
  assert (M : middleExtended f && middleCurled f = false) by (rewrite E3, E7; apply X).
  assert (R : ringExtended f && ringCurled f = false) by (rewrite E4, E8; apply X).
  assert (P : pinkyExtended f && pinkyCurled f = false) by (rewrite E5, E9; apply X).
  split; [auto|].
  rewrite E12, E13, E14, E15.
  destruct (indexExtended f), (indexCurled f), (middleExtended f), (middleCurled f),
           (ringExtended f), (ringCurled f), (pinkyExtended f), (pinkyCurled f);
    cbn in *; try discriminate; repeat split.
Qed.

(** *** The spread two-finger hand *)

Section Hand.

Variable f : HandFeatures.
Hypothesis Hflags : flags_consistent f.
Hypothesis Hindex : (indexCurl f < d0_4) = true.
Hypothesis Hmiddle : (middleCurl f < d0_4) = true.
Hypothesis Hring : (ringCurl f > d0_55) = true.
Hypothesis Hpinky : (pinkyCurl f > d0_55) = true.
Hypothesis Hspread : (indexMiddleSpread f > d0_35) = true.

Lemma ram_hand_flags :
  indexExtended f = true /\ middleExtended f = true
  /\ ringCurled f = true /\ pinkyCurled f = true
  /\ indexMiddleTouching f = false
  /\ indexCurled f = false /\ middleCurled f = false
  /\ ringExtended f = false /\ pinkyExtended f = false
  /\ allFingersCurled f = false /\ allFingersExtended f = false
  /\ hornsShape f = false.
Proof.
  destruct Hflags as (_ & E1 & E2 & E3 & E4 & E5 & E6 & E7 & E8 & _ & E9
                      & _ & E10 & E11 & E12).
  assert (indexCurled f = false)
    by (rewrite E5; apply (ltb_gtb_conflict _ d0_4); [reflexivity|assumption]).
  assert (middleCurled f = false)
    by (rewrite E6; apply (ltb_gtb_conflict _ d0_4); [reflexivity|assumption]).
  assert (ringExtended f = false)
    by (rewrite E3; apply (gtb_ltb_conflict _ d0_55); [reflexivity|assumption]).
  assert (pinkyExtended f = false)
    by (rewrite E4; apply (gtb_ltb_conflict _ d0_55); [reflexivity|assumption]).
  assert (indexMiddleTouching f = false)
    by (rewrite E9; apply (gtb_ltb_conflict _ d0_35); [reflexivity|assumption]).
  rewrite E10, E11, E12, E1, E2, E7, E8.
  repeat match goal with H : _ = false |- _ => rewrite H end.
  rewrite Hindex, Hmiddle, Hring, Hpinky. repeat split.
Qed.

Lemma ram_hand_bounds :
  (indexCurl f > d0_6) = false
  /\ (indexMiddleSpread f > d0_3) = true
  /\ (indexMiddleSpread f < d0_25) = false
  /\ (middleCurl f < d0_65) = true
  /\ (ringCurl f > d0_25) = true.
Proof.
  repeat split.
  - apply (ltb_gtb_conflict _ d0_4); [reflexivity|assumption].
  - apply (ltb_trans d0_3 d0_35); [reflexivity|assumption].
  - apply (gtb_ltb_conflict _ d0_35); [reflexivity|assumption].
  - apply (ltb_trans _ d0_4); [assumption|reflexivity].
  - apply (ltb_trans d0_25 d0_55); [reflexivity|assumption].
Qed.

Ltac use_ram_hand :=
  destruct ram_hand_flags
    as (F1 & F2 & F3 & F4 & F5 & F6 & F7 & F8 & F9 & F10 & F11 & F12);
  destruct ram_hand_bounds as (B1 & B2 & B3 & B4 & B5);
  cbn [score];
  rewrite ?F1, ?F2, ?F3, ?F4, ?F5, ?F6, ?F7, ?F8, ?F9, ?F10, ?F11, ?F12,
          ?B1, ?B2, ?B3, ?B4, ?B5, ?Hspread;
  cbn [negb andb orb plus_if minus_if].

Lemma Ram_score : score (Ram_rule f) = ramScore.
Proof. unfold Ram_rule. use_ram_hand. vm_compute. reflexivity. Qed.

Lemma before_Ram_lower :
  Forall (fun e => ltb (score (snd e f)) ramScore = true) rulesBeforeRam.
Proof.
  unfold rulesBeforeRam.
  repeat (apply Forall_cons; [|]); [..|apply Forall_nil]; cbn [snd].
  all: lazymatch goal with |- ltb (score (?r _)) _ = true => unfold r end.
  all: use_ram_hand.
  all: split_flags; vm_compute; reflexivity.
Qed.

Lemma after_Ram_not_higher :
  Forall (fun e => ltb ramScore (score (snd e f)) = false) rulesAfterRam.
Proof.
  unfold rulesAfterRam.
  repeat (apply Forall_cons; [|]); [..|apply Forall_nil]; cbn [snd].
  all: lazymatch goal with |- ltb _ (score (?r _)) = false => unfold r end.
  all: use_ram_hand.
  all: split_flags; vm_compute; reflexivity.
Qed.

(** The best score stays below a bound that every rule seen stays below. *)
Lemma classify_fold_below (c : float)
    (rs : list (Sign * (HandFeatures -> RuleResult))) (acc : Best) :
  ltb (bestScore acc) c = true ->
  Forall (fun e => ltb (score (snd e f)) c = true) rs ->
  ltb (bestScore (fold_left (classify_step f) rs acc)) c = true.
Proof.
  revert acc. induction rs as [|[s r] rs IH]; intros acc Hacc H; [exact Hacc|].
  inversion H as [|e rs' He Hrs]; subst. cbn [fold_left]. apply IH; [|exact Hrs].
  unfold classify_step. destruct (score (r f) > bestScore acc); assumption.
Qed.

Lemma fold_left_middle (A B : Type) (g : A -> B -> A) l1 y l2 a :
  fold_left g (l1 ++ y :: l2) a = fold_left g l2 (g (fold_left g l1 a) y).
Proof. rewrite fold_left_app. reflexivity. Qed.

Lemma signRules_split_Ram :
  signRules = rulesBeforeRam ++ (Ram, Ram_rule) :: rulesAfterRam.
Proof. reflexivity. Qed.

Lemma ram_hand_best (acc : Best) :
  bestScore acc = d0 ->
  bestSign (fold_left (classify_step f) signRules acc) = Some Ram
  /\ bestScore (fold_left (classify_step f) signRules acc) = ramScore.
Proof.
  intros H0.
  rewrite signRules_split_Ram, fold_left_middle.
  assert (L : ltb (bestScore (fold_left (classify_step f) rulesBeforeRam acc))
                  ramScore = true).
  { apply classify_fold_below; [rewrite H0; reflexivity | apply before_Ram_lower]. }
  destruct (classify_step_take f
              (fold_left (classify_step f) rulesBeforeRam acc) Ram Ram_rule)
    as [S1 B1].
  { rewrite Ram_score. exact L. }
  rewrite Ram_score in B1.
  destruct (classify_fold_keep f rulesAfterRam
              (classify_step f (fold_left (classify_step f) rulesBeforeRam acc)
                 (Ram, Ram_rule))) as [S2 B2].
  { rewrite B1. apply after_Ram_not_higher. }
  rewrite S2, B2, S1, B1. split; reflexivity.
Qed.

End Hand.


End RamHand.

(** ** The Ox hand *)

Section OxHand.

Import F64 HandSignClassifier.
Local Open Scope f64_scope.

Variable Math_acos : float -> float.

Section Hand.

Variable f : HandFeatures.
Hypothesis Hflags : flags_consistent f.
Hypothesis Hindex : (indexCurl f < d0_4) = true.
Hypothesis Hpinky : (pinkyCurl f < d0_4) = true.
Hypothesis Hmiddle : (middleCurl f > d0_55) = true.
Hypothesis Hring : (ringCurl f > d0_55) = true.

Lemma ox_hand_flags :
  indexExtended f = true /\ pinkyExtended f = true
  /\ middleCurled f = true /\ ringCurled f = true
  /\ indexCurled f = false /\ pinkyCurled f = false
  /\ middleExtended f = false /\ ringExtended f = false
  /\ allFingersCurled f = false /\ allFingersExtended f = false
  /\ hornsShape f = true.
Proof.
  destruct Hflags as (_ & E1 & E2 & E3 & E4 & E5 & E6 & E7 & E8 & _ & _
                      & _ & E10 & E11 & E12).
  assert (indexCurled f = false)
    by (rewrite E5; apply (ltb_gtb_conflict _ d0_4); [reflexivity|assumption]).
  assert (pinkyCurled f = false)
    by (rewrite E8; apply (ltb_gtb_conflict _ d0_4); [reflexivity|assumption]).
  assert (middleExtended f = false)
    by (rewrite E2; apply (gtb_ltb_conflict _ d0_55); [reflexivity|assumption]).
  assert (ringExtended f = false)
    by (rewrite E3; apply (gtb_ltb_conflict _ d0_55); [reflexivity|assumption]).
  rewrite E10, E11, E12, E1, E4, E6, E7.
  repeat match goal with H : _ = false |- _ => rewrite H end.
  rewrite Hindex, Hpinky, Hmiddle, Hring. repeat split.
Qed.

Lemma ox_hand_bounds :
  (indexCurl f > d0_6) = false
  /\ (middleCurl f > d0_25) = true
  /\ (ringCurl f > d0_25) = true.
Proof.
  repeat split.
  - apply (ltb_gtb_conflict _ d0_4); [reflexivity|assumption].
  - apply (ltb_trans d0_25 d0_55); [reflexivity|assumption].
  - apply (ltb_trans d0_25 d0_55); [reflexivity|assumption].
Qed.

Ltac use_ox_hand :=
  destruct ox_hand_flags
    as (F1 & F2 & F3 & F4 & F5 & F6 & F7 & F8 & F9 & F10 & F11);
  destruct ox_hand_bounds as (B1 & B2 & B3);
  cbn [score];
  rewrite ?F1, ?F2, ?F3, ?F4, ?F5, ?F6, ?F7, ?F8, ?F9, ?F10, ?F11,
          ?B1, ?B2, ?B3;
  cbn [negb andb orb plus_if minus_if].

Lemma Ox_score : score (Ox_rule f) = oxScore.
Proof. unfold Ox_rule. use_ox_hand. vm_compute. reflexivity. Qed.

Lemma before_Ox_lower :
  Forall (fun e => ltb (score (snd e f)) oxScore = true) rulesBeforeOx.
Proof.
  unfold rulesBeforeOx.
  repeat (apply Forall_cons; [|]); [..|apply Forall_nil]; cbn [snd].
  all: lazymatch goal with |- ltb (score (?r _)) _ = true => unfold r end.
  all: use_ox_hand.
  all: split_flags; vm_compute; reflexivity.
Qed.

Lemma after_Ox_not_higher :
  Forall (fun e => ltb oxScore (score (snd e f)) = false) rulesAfterOx.
Proof.
  unfold rulesAfterOx.
  repeat (apply Forall_cons; [|]); [..|apply Forall_nil]; cbn [snd].
  all: lazymatch goal with |- ltb _ (score (?r _)) = false => unfold r end.
  all: use_ox_hand.
  all: split_flags; vm_compute; reflexivity.
Qed.

Lemma signRules_split_Ox :
  signRules = rulesBeforeOx ++ (Ox, Ox_rule) :: rulesAfterOx.
Proof. reflexivity. Qed.

Lemma ox_hand_best (acc : Best) :
  bestScore acc = d0 ->
  bestSign (fold_left (classify_step f) signRules acc) = Some Ox
  /\ bestScore (fold_left (classify_step f) signRules acc) = oxScore.
Proof.
  intros H0.
  rewrite signRules_split_Ox, fold_left_middle.
  assert (L : ltb (bestScore (fold_left (classify_step f) rulesBeforeOx acc))
                  oxScore = true).
  { apply classify_fold_below; [rewrite H0; reflexivity | apply before_Ox_lower]. }
  destruct (classify_step_take f
              (fold_left (classify_step f) rulesBeforeOx acc) Ox Ox_rule)
    as [S1 B1].
  { rewrite Ox_score. exact L. }
  rewrite Ox_score in B1.
  destruct (classify_fold_keep f rulesAfterOx
              (classify_step f (fold_left (classify_step f) rulesBeforeOx acc)
                 (Ox, Ox_rule))) as [S2 B2].
  { rewrite B1. apply after_Ox_not_higher. }
  rewrite S2, B2, S1, B1. split; reflexivity.
Qed.

End Hand.

(** X7.  The horns: index and pinky curl below 0.4, middle and ring curl
    above 0.55.  Every such hand is classified as Ox with confidence 1,
    whatever the thumb and the distances between the tips are: the Ox
    rule adds up to 1 and no other rule reaches it. *)
Theorem horns_give_Ox (lm : list Landmark) (f : HandFeatures) :
  getHandFeatures Math_acos lm = Some f ->
  (indexCurl f < d0_4) = true ->
  (pinkyCurl f < d0_4) = true ->
  (middleCurl f > d0_55) = true ->
  (ringCurl f > d0_55) = true ->
  exists r,
    classify Math_acos lm = Some r
    /\ sign r = Some Ox
    /\ confidence r = d1.
Proof.
  intros Hf Hi Hp Hm Hr. unfold classify. rewrite Hf.
  unfold getHandFeatures in Hf.
  destruct (List.length lm <? 21)%nat; [discriminate|].
  injection Hf as Hf.
  assert (Hc : flags_consistent f) by (rewrite <- Hf; apply handFeatures_flags).
  destruct (ox_hand_best f Hc Hi Hp Hm Hr
              {| results := []; bestSign := None; bestScore := d0 |} eq_refl)
    as [Hbest Hscore].
  cbv zeta. rewrite Hscore, Hbest.
  assert (E : (oxScore < d0_45) = false) by reflexivity.
  rewrite E. eexists. split; [reflexivity|]. cbn [sign confidence].
  split; reflexivity.
Qed.

End OxHand.

(** ** Distances *)

Section Geometry.

Import F64 HandSignClassifier.
Local Open Scope f64_scope.

Lemma binary_round_aux_opp (s : bool) (m e : Z) (l : location) :
  binary_round_aux prec emax (negb s) m e l
  = SFopp (binary_round_aux prec emax s m e l).
Proof.
  unfold binary_round_aux.
  destruct (shr_fexp prec emax m e l) as [mrs' e'].
  destruct (shr_fexp prec emax _ e' loc_Exact) as [mrs'' e''].
  destruct (shr_m mrs''); [reflexivity | | reflexivity].
  destruct (e'' <=? emax - prec)%Z; reflexivity.
Qed.

Lemma binary_normalize_opp (m e : Z) :
  binary_normalize prec emax (- m) e false
  = binary_normalize prec emax m e false
  \/ binary_normalize prec emax (- m) e false
     = SFopp (binary_normalize prec emax m e false).
Proof.
  destruct m as [|p|p]; cbn [Z.opp binary_normalize]; [left; reflexivity | |];
    right; unfold binary_round;
    destruct (shl_align p e _) as [mz ez].
  - apply (binary_round_aux_opp false).
  - rewrite (binary_round_aux_opp false). destruct (binary_round_aux _ _ _ _ _ _) as [[]|[]| |[] ? ?]; reflexivity.
Qed.

(** [y - x] is [x - y] or its opposite ([+0] both ways when they cancel). *)
Lemma sub_swap (a b : float) : b - a = a - b \/ b - a = opp (a - b).
Proof.
  unfold sub, opp.
  destruct a as [sa|sa| |sa ma ea], b as [sb|sb| |sb mb eb];
    try (destruct sa, sb; cbn; auto; fail);
    try (destruct sa; cbn; auto; fail);
    try (destruct sb; cbn; auto; fail);
    try (cbn; auto; fail).
  cbn [SFsub]. rewrite (Z.min_comm eb ea).
  set (u := cond_Zopp sa (Zpos (fst (shl_align ma ea (Z.min ea eb))))).
  set (v := cond_Zopp sb (Zpos (fst (shl_align mb eb (Z.min ea eb))))).
  replace (v - u)%Z with (- (u - v))%Z by lia.
  apply binary_normalize_opp.
Qed.

Lemma mul_opp_opp (a : float) : opp a * opp a = a * a.
Proof.
  unfold mul, opp. destruct a as [[]|[]| |[] m e]; reflexivity.
Qed.

Lemma square_swap (a b : float) : (b - a) * (b - a) = (a - b) * (a - b).
Proof.
  destruct (sub_swap a b) as [->| ->]; [reflexivity | apply mul_opp_opp].
Qed.

(** X8.  [dist(a, b)] and [dist(b, a)] are the same double, for all
    landmarks: the features do not depend on the order in which the code
    names the two points. *)
Theorem dist_symmetric (a b : Landmark) : dist a b = dist b a.
Proof.
  unfold dist. cbv zeta.
  rewrite (square_swap (x a) (x b)), (square_swap (y a) (y b)),
          (square_swap (z_or_0 a) (z_or_0 b)).
  reflexivity.
Qed.

Lemma sub_diag (a : float) : is_finite a = true -> a - a = d0.
Proof.
  unfold sub. destruct a as [[]|[]| |s m e]; cbn [is_finite]; try discriminate;
    intros _; try reflexivity.
  cbn [SFsub]. rewrite Z.sub_diag. reflexivity.
Qed.

Lemma dist_self (p : Landmark) : finiteLandmark p = true -> dist p p = d0.
Proof.
  unfold finiteLandmark. rewrite !andb_true_iff. intros [[Hx Hy] Hz].
  unfold dist. cbv zeta. rewrite !sub_diag by assumption. reflexivity.
Qed.

Lemma cond_Zopp_negb (s : bool) (m : Z) : cond_Zopp (negb s) m = (- cond_Zopp s m)%Z.
Proof. destruct s; cbn [negb cond_Zopp]; lia. Qed.

(** [(-a) - (-b)] is [a - b] or its opposite. *)
Lemma sub_opp_opp (a b : float) :
  opp a - opp b = a - b \/ opp a - opp b = opp (a - b).
Proof.
  unfold sub, opp.
  destruct a as [sa|sa| |sa ma ea], b as [sb|sb| |sb mb eb];
    try (destruct sa, sb; cbn; auto; fail);
    try (destruct sa; cbn; auto; fail);
    try (destruct sb; cbn; auto; fail);
    try (cbn; auto; fail).
  cbn [SFsub SFopp]. rewrite !cond_Zopp_negb.
  set (u := cond_Zopp sa (Zpos (fst (shl_align ma ea (Z.min ea eb))))).
  set (v := cond_Zopp sb (Zpos (fst (shl_align mb eb (Z.min ea eb))))).
  replace (- u - - v)%Z with (- (u - v))%Z by lia.
  apply binary_normalize_opp.
Qed.

Lemma square_opp_opp (a b : float) :
  (opp a - opp b) * (opp a - opp b) = (a - b) * (a - b).
Proof.
  destruct (sub_opp_opp a b) as [->| ->]; [reflexivity | apply mul_opp_opp].
Qed.

Lemma dist_mirrorX (a b : Landmark) : dist (mirrorX a) (mirrorX b) = dist a b.
Proof.
  unfold dist, mirrorX, z_or_0. cbn [x y z]. cbv zeta.
  rewrite square_opp_opp. reflexivity.
Qed.

Lemma at_mirrorX (lm : list Landmark) (i : nat) :
  at_ (map mirrorX lm) i = mirrorX (at_ lm i).
Proof.
  unfold at_. change undefined_landmark with (mirrorX undefined_landmark) at 1.
  apply map_nth.
Qed.

Lemma binary_round_aux_nonneg (m e : Z) (l : location) :
  ltb (binary_round_aux prec emax false m e l) d0 = false.
Proof.
  unfold binary_round_aux.
  destruct (shr_fexp prec emax m e l) as [mrs' e'].
  destruct (shr_fexp prec emax _ e' loc_Exact) as [mrs'' e''].
  destruct (shr_m mrs''); [reflexivity | | reflexivity].
  destruct (e'' <=? emax - prec)%Z; reflexivity.
Qed.

Lemma sqrt_never_negative (a : float) : ltb (sqrt a) d0 = false.
Proof.
  unfold sqrt, SFsqrt. destruct a as [[]|[]| |[] m e]; try reflexivity.
  destruct (SFsqrt_core_binary prec emax (Zpos m) e) as [[mz ez] lz].
  apply binary_round_aux_nonneg.
Qed.

(** X9.  [dist(a, b) < 0] is false for all landmarks, those with infinite or
    NaN coordinates included: the palm size that divides the spreads is
    never negative. *)
Theorem dist_never_negative (a b : Landmark) : ltb (dist a b) d0 = false.
Proof. unfold dist. cbv zeta. apply sqrt_never_negative. Qed.

End Geometry.

(** ** The collapsed hand *)

Section Collapsed.

Import F64 HandSignClassifier.
Local Open Scope f64_scope.

Variable Math_acos : float -> float.

Lemma collapsed_rules (p : Landmark) :
  finiteLandmark p = true ->
  forall e, In e signRules ->
    snd e (handFeatures Math_acos (repeat p 21)) = snd e collapsedFeatures.
Proof.
  intros Hp e He.
  pose proof (dist_self p Hp) as D.
  assert (Y : (y p < y p) = false) by apply ltb_irrefl.
  repeat (destruct He as [<-|He];
          [ cbv beta iota zeta delta
              [snd handFeatures Tiger_rule Snake_rule Ram_rule Monkey_rule
               Boar_rule Horse_rule Bird_rule Dog_rule Dragon_rule Ox_rule
               Hare_rule Rat_rule collapsedFeatures
               getFingerCurl getThumbCurl getPalmSize at_ repeat nth
               thumbCurl indexCurl middleCurl ringCurl pinkyCurl
               indexMiddleSpread middleRingSpread ringPinkySpread
               thumbToPalm thumbToIndex
               thumbExtended indexExtended middleExtended ringExtended
               pinkyExtended thumbCurled indexCurled middleCurled ringCurled
               pinkyCurled indexMiddleTouching indexMiddleUp
               allFingersCurled allFingersExtended hornsShape];
            rewrite ?D, ?Y; vm_compute; reflexivity |]).
  destruct He.
Qed.

(** X10.  A hand whose 21 landmarks all lie on one point with finite
    coordinates has palm size 0 and is still classified: as Snake, with
    confidence 0.8. *)
Theorem coinciding_landmarks_read_as_Snake (p : Landmark) :
  finiteLandmark p = true ->
  exists r,
    classify Math_acos (repeat p 21) = Some r
    /\ sign r = Some Snake
    /\ confidence r = d0_8
    /\ palmSize (features r) = d0.
Proof.
  intros Hp. unfold classify, getHandFeatures.
  rewrite repeat_length. cbn [Nat.ltb Nat.leb].
  rewrite (classify_fold_ext _ collapsedFeatures signRules _ (collapsed_rules p Hp)).
  assert (E : fold_left (classify_step collapsedFeatures) signRules
                {| results := []; bestSign := None; bestScore := d0 |}
              = {| results := map (reported collapsedFeatures) signRules;
                   bestSign := Some Snake; bestScore := d0_8 |})
    by (vm_compute; reflexivity).
  rewrite E. cbn [bestScore bestSign results].
  assert (F : (d0_8 < d0_45) = false) by reflexivity. rewrite F.
  eexists. split; [reflexivity|]. cbn [sign confidence features].
  split; [reflexivity|]. split; [reflexivity|].
  unfold handFeatures, getPalmSize, at_. cbn [palmSize repeat nth].
  apply dist_self, Hp.
Qed.

End Collapsed.

(** ** Features no rule reads *)

Section Unread.

Import F64 HandSignClassifier.
Local Open Scope f64_scope.

Lemma rules_ignore_unread (ia ma ra pa : float) (pf tc : bool)
    (lm : list Landmark) (f : HandFeatures) :
  forall e, In e signRules -> snd e (with_unread ia ma ra pa pf tc lm f) = snd e f.
Proof.
  intros e He. destruct f.
  repeat (destruct He as [<-|He]; [reflexivity|]). destruct He.
Qed.

Lemma classify_verdict_ext (acos1 acos2 : float -> float) (l1 l2 : list Landmark)
    (ia ma ra pa : float) (pf tc : bool) :
  List.length l1 = List.length l2 ->
  handFeatures acos1 l1
  = with_unread ia ma ra pa pf tc l1 (handFeatures acos2 l2) ->
  option_map verdict (classify acos1 l1) = option_map verdict (classify acos2 l2).
Proof.
  intros Hlen H. unfold classify, getHandFeatures. rewrite Hlen.
  destruct (List.length l2 <? 21)%nat; [reflexivity|].
  rewrite H.
  rewrite (@classify_fold_ext _ _ signRules _
             (rules_ignore_unread ia ma ra pa pf tc l1 (handFeatures acos2 l2))).
  destruct (ltb (bestScore _) d0_45);
    cbn [option_map]; unfold verdict; cbn [sign confidence allScores];
    reflexivity.
Qed.

(** X11.  The sign, the confidence and the score table returned by [classify]
    do not depend on [Math.acos]: the four joint angles are the only
    features computed with it, and no rule reads them. *)
Theorem classify_ignores_acos (acos1 acos2 : float -> float) (lm : list Landmark) :
  option_map verdict (classify acos1 lm) = option_map verdict (classify acos2 lm).
Proof.
  apply (classify_verdict_ext acos1 acos2 lm lm
           (getFingerAngle acos1 lm 5 6 7) (getFingerAngle acos1 lm 9 10 11)
           (getFingerAngle acos1 lm 13 14 15) (getFingerAngle acos1 lm 17 18 19)
           (palmFacingCamera (handFeatures acos2 lm))
           (thumbCrossingPalm (handFeatures acos2 lm)));
    reflexivity.
Qed.

(** *** Mirror images *)

Lemma handFeatures_mirrorX (acos : float -> float) (lm : list Landmark) :
  exists ia ma ra pa pf tc,
    handFeatures acos (map mirrorX lm)
    = with_unread ia ma ra pa pf tc (map mirrorX lm) (handFeatures acos lm).
Proof.
  do 6 eexists.
  unfold handFeatures, getFingerCurl, getThumbCurl, getPalmSize.
  rewrite !at_mirrorX, !dist_mirrorX.
  cbn [with_unread mirrorX y]. reflexivity.
Qed.

(** X12.  A hand and its mirror image ([x] negated at every landmark) get the
    same sign, confidence and score table: the rules read distances and
    [y] comparisons only, and the two features that depend on the side,
    [palmFacingCamera] and [thumbCrossingPalm], are read by no rule. *)
Theorem mirrored_hand_same_verdict (acos : float -> float) (lm : list Landmark) :
  option_map verdict (classify acos (map mirrorX lm))
  = option_map verdict (classify acos lm).
Proof.
  destruct (handFeatures_mirrorX acos lm) as (ia & ma & ra & pa & pf & tc & H).
  apply (classify_verdict_ext acos acos (map mirrorX lm) lm ia ma ra pa pf tc);
    [apply length_map | exact H].
Qed.

End Unread.

(** ** More invariants of the detector *)

Section MatcherMore.

Import F64 JutsuDetector.

(** *** The recorded sequence never repeats a sign *)

Lemma repeatsLast_spec (s : Sign) (st : State) :
  repeatsLast s st = true <-> exists l, currentSequence st = l ++ [s].
Proof.
  unfold repeatsLast. generalize (currentSequence st) as cur. intros cur.
  destruct cur as [|a cur] using rev_ind.
  - cbn. split; [discriminate|]. intros [l H]. destruct l; discriminate H.
  - rewrite length_app. cbn [List.length].
    replace (0 <? List.length cur + 1)%nat with true
      by (symmetry; apply Nat.ltb_lt; lia).
    replace (List.length cur + 1 - 1)%nat with (List.length cur) by lia.
    rewrite nth_error_app2, Nat.sub_diag by lia. cbn.
    rewrite Sign_eqb_eq. split.
    + intros ->. exists cur. reflexivity.
    + intros [l H]. apply app_inj_tail in H. apply H.
Qed.

Lemma noRepeat_snoc (l : list Sign) (s : Sign) :
  noRepeat l = true ->
  (forall l', l <> l' ++ [s]) ->
  noRepeat (l ++ [s]) = true.
Proof.
  induction l as [|a l IH]; intros H N; [reflexivity|].
  destruct l as [|b l].
  - cbn. rewrite andb_true_r. apply negb_true_iff.
    destruct (Sign_eqb a s) eqn:E; [|reflexivity].
    apply Sign_eqb_eq in E. subst. destruct (N []). reflexivity.
  - cbn [app noRepeat] in *. apply andb_true_iff in H. destruct H as [H1 H2].
    rewrite H1. cbn [andb]. apply IH; [exact H2|].
    intros l' E. apply (N (a :: l')). cbn. rewrite E. reflexivity.
Qed.

Lemma noRepeat_registerSign (s : Sign) (now : Z) (st : State) :
  noRepeat (currentSequence st) = true -> repeatsLast s st = false ->
  noRepeat (currentSequence (fst (registerSign s now st))) = true.
Proof.
  intros H R. unfold registerSign. cbn [currentSequence matchingJutsus].
  assert (G : noRepeat (currentSequence st ++ [s]) = true).
  { apply noRepeat_snoc; [exact H|]. intros l' E.
    assert (T : repeatsLast s st = true) by (apply repeatsLast_spec; eauto).
    congruence. }
  destruct (findCompletedJutsu _); [reflexivity|].
  destruct (_ && _); exact G.
Qed.

Lemma noRepeat_acceptSign (c : Sample) (now : Z) (st : State) :
  noRepeat (currentSequence st) = true ->
  noRepeat (currentSequence (fst (acceptSign c now st))) = true.
Proof.
  intros H. unfold acceptSign.
  assert (Hclear : noRepeat (currentSequence (clearHold st)) = true).
  { destruct (clearHold_fields st) as (-> & _). exact H. }
  destruct (sign c) as [s|]; [|exact Hclear].
  destruct (ltb (confidence c) MIN_CONFIDENCE); [exact Hclear|].
  destruct (negb _); [exact H|].
  destruct (repeatsLast s (holdSign s st)) eqn:R; [exact H|].
  apply noRepeat_registerSign; [exact H | exact R].
Qed.

Lemma noRepeat_step (a : Action) (st : State) :
  noRepeat (currentSequence st) = true ->
  noRepeat (currentSequence (fst (step a st))) = true.
Proof.
  intros H. destruct a as [[c|] now| |reason|c u r]; cbn [step].
  - unfold processSign, checkTimeout.
    destruct (timedOut now st).
    + pose proof (noRepeat_acceptSign c now (fst (resetSequence "timeout" st))
                    eq_refl) as A.
      destruct (resetSequence "timeout" st) as [st1 ev1]. cbn [fst] in A.
      destruct (acceptSign c now st1). exact A.
    + pose proof (noRepeat_acceptSign c now st H) as A.
      destruct (acceptSign c now st). exact A.
  - exact H.
  - unfold fireTimer. destruct (timers st); [exact H|].
    unfold noMatchCheck. cbn [matchingJutsus].
    destruct (List.length (matchingJutsus st) =? 0)%nat; [reflexivity | exact H].
  - reflexivity.
  - exact H.
Qed.

(** X13.  In every reachable state no sign of [currentSequence] equals the one
    before it. *)
Theorem recorded_signs_never_repeat (st : State) :
  reachable st -> noRepeat (currentSequence st) = true.
Proof.
  induction 1 as [|a st _ IH]; [reflexivity | apply noRepeat_step, IH].
Qed.

(** *** The hold state *)

Lemma holdState_acceptSign (c : Sample) (now : Z) (st : State) :
  holdState_ok st -> holdState_ok (fst (acceptSign c now st)).
Proof.
  intros H. unfold acceptSign.
  assert (Hclear : holdState_ok (clearHold st)).
  { unfold clearHold, holdState_ok in *.
    destruct (lastDetectedSign st) eqn:E; [reflexivity|]. rewrite E. exact H. }
  destruct (sign c) as [s|]; [|exact Hclear].
  destruct (ltb (confidence c) MIN_CONFIDENCE); [exact Hclear|].
  assert (Hhold : holdState_ok (holdSign s st)).
  { unfold holdSign, holdState_ok. cbn [lastDetectedSign signHoldCount].
    destruct (lastDetectedSign st) as [s0|]; cbn [option_Sign_eqb];
      [destruct (Sign_eqb s s0)|]; lia. }
  destruct (negb _); [exact Hhold|].
  destruct (repeatsLast s (holdSign s st)); [exact Hhold|].
  unfold registerSign. cbn [currentSequence matchingJutsus].
  destruct (findCompletedJutsu _); [reflexivity|].
  destruct (_ && _); exact Hhold.
Qed.

(** X14.  In every reachable state [signHoldCount] is 0 exactly when
    [lastDetectedSign] is [null]. *)
Theorem hold_count_tracks_held_sign (st : State) :
  reachable st ->
  (lastDetectedSign st = None <-> signHoldCount st = 0%nat).
Proof.
  intros H.
  assert (G : holdState_ok st).
  { induction H as [|a st _ IH]; [reflexivity|].
    destruct a as [[c|] now| |reason|c u r]; cbn [step].
    - unfold processSign, checkTimeout.
      destruct (timedOut now st).
      + pose proof (holdState_acceptSign c now (fst (resetSequence "timeout" st))
                      eq_refl) as A.
        destruct (resetSequence "timeout" st) as [st1 ev1]. cbn [fst] in A.
        destruct (acceptSign c now st1). exact A.
      + pose proof (holdState_acceptSign c now st IH) as A.
        destruct (acceptSign c now st). exact A.
    - exact IH.
    - unfold fireTimer. destruct (timers st); [exact IH|].
      unfold noMatchCheck. cbn [matchingJutsus].
      destruct (List.length (matchingJutsus st) =? 0)%nat; [reflexivity | exact IH].
    - reflexivity.
    - exact IH. }
  unfold holdState_ok in G. destruct (lastDetectedSign st).
  - split; [discriminate | lia].
  - split; auto.
Qed.

(** *** One step changes the sequence in one of three ways *)

(** X15.  One action changes [currentSequence] in one of three ways, from any
    state: it leaves it as it is, it empties it, or, on a frame with a
    classification that carries a sign, it appends that sign. *)
Theorem step_keeps_appends_or_clears (a : Action) (st : State) :
  currentSequence (fst (step a st)) = currentSequence st
  \/ currentSequence (fst (step a st)) = []
  \/ exists classification now s,
       a = Frame (Some classification) now
       /\ sign classification = Some s
       /\ currentSequence (fst (step a st)) = currentSequence st ++ [s].
Proof.
  assert (A : forall c now st0,
             currentSequence (fst (acceptSign c now st0)) = currentSequence st0
             \/ currentSequence (fst (acceptSign c now st0)) = []
             \/ exists s, sign c = Some s
                          /\ currentSequence (fst (acceptSign c now st0))
                             = currentSequence st0 ++ [s]).
  { intros c now st0. unfold acceptSign.
    assert (Hclear : currentSequence (clearHold st0) = currentSequence st0)
      by apply clearHold_fields.
    destruct (sign c) as [s|]; [|left; exact Hclear].
    destruct (ltb (confidence c) MIN_CONFIDENCE); [left; exact Hclear|].
    destruct (negb _); [left; reflexivity|].
    destruct (repeatsLast s (holdSign s st0)); [left; reflexivity|].
    unfold registerSign. cbn [currentSequence matchingJutsus].
    destruct (findCompletedJutsu _); [right; left; reflexivity|].
    right. right. exists s. split; [reflexivity|].
    destruct (_ && _); reflexivity. }
  destruct a as [[c|] now| |reason|c u r]; cbn [step].
  - unfold processSign, checkTimeout.
    destruct (timedOut now st).
    + right. left.
      destruct (A c now (fst (resetSequence "timeout" st))) as [H|[H|(s & _ & H)]];
        destruct (resetSequence "timeout" st) as [st1 ev1] eqn:R;
        cbn [fst] in H;
        assert (E : currentSequence st1 = [])
          by (unfold resetSequence in R; injection R as <- _; reflexivity);
        destruct (acceptSign c now st1) as [st2 ev2] eqn:Acc; cbn [fst] in *.
      * congruence.
      * exact H.
      * exfalso. (* after a reset the hold count restarts at 1 *)
        unfold acceptSign in Acc.
        assert (K : signHoldCount st1 = 0%nat /\ lastDetectedSign st1 = None)
          by (unfold resetSequence in R; injection R as <- _; split; reflexivity).
        destruct K as [K1 K2].
        destruct (sign c) as [s'|].
        -- destruct (ltb (confidence c) MIN_CONFIDENCE).
           ++ injection Acc as <- _.
              destruct (clearHold_fields st1) as (Hc & _). rewrite Hc, E in H.
              destruct (currentSequence st1); discriminate H.
           ++ unfold holdSign in Acc at 1. cbn [signHoldCount] in Acc.
              rewrite K2 in Acc. cbn [option_Sign_eqb] in Acc.
              cbn in Acc. injection Acc as <- _. cbn in H. rewrite E in H.
              discriminate H.
        -- injection Acc as <- _.
           destruct (clearHold_fields st1) as (Hc & _). rewrite Hc, E in H.
           discriminate H.
    + destruct (A c now st) as [H|[H|(s & Hs & H)]];
        destruct (acceptSign c now st) as [st2 ev2]; cbn [fst] in *; auto.
      right. right. exists c, now, s. auto.
  - left. reflexivity.
  - unfold fireTimer. destruct (timers st); [left; reflexivity|].
    unfold noMatchCheck. cbn [matchingJutsus].
    destruct (List.length (matchingJutsus st) =? 0)%nat;
      [right; left; reflexivity | left; reflexivity].
  - right. left. reflexivity.
  - left. reflexivity.
Qed.

End MatcherMore.

Section Callbacks.

Import F64 JutsuDetector.

Lemma keepsCallbacks_same (st st' : State) :
  onJutsuComplete st' = onJutsuComplete st ->
  onSequenceUpdate st' = onSequenceUpdate st ->
  onSequenceReset st' = onSequenceReset st ->
  keepsCallbacks st st'.
Proof. intros H1 H2 H3. unfold keepsCallbacks. rewrite H1, H2, H3. auto. Qed.

Lemma keepsCallbacks_trans (a b c : State) :
  keepsCallbacks a b -> keepsCallbacks b c -> keepsCallbacks a c.
Proof. unfold keepsCallbacks. intuition. Qed.

Lemma keepsCallbacks_acceptSign (c : Sample) (now : Z) (st : State) :
  keepsCallbacks st (fst (acceptSign c now st)).
Proof.
  unfold acceptSign.
  assert (Hclear : keepsCallbacks st (clearHold st)).
  { unfold clearHold. destruct (lastDetectedSign st);
      apply keepsCallbacks_same; reflexivity. }
  destruct (sign c) as [s|]; [|exact Hclear].
  destruct (ltb (confidence c) MIN_CONFIDENCE); [exact Hclear|].
  destruct (negb _); [apply keepsCallbacks_same; reflexivity|].
  destruct (repeatsLast s (holdSign s st));
    [apply keepsCallbacks_same; reflexivity|].
  unfold registerSign. cbn [currentSequence matchingJutsus].
  destruct (findCompletedJutsu _); [apply keepsCallbacks_same; reflexivity|].
  destruct (_ && _); apply keepsCallbacks_same; reflexivity.
Qed.

Lemma keepsCallbacks_step (a : Action) (st : State) :
  keepsCallbacks st (fst (step a st)).
Proof.
  destruct a as [[c|] now| |reason|c u r]; cbn [step].
  - unfold processSign, checkTimeout.
    destruct (timedOut now st).
    + pose proof (keepsCallbacks_acceptSign c now
                    (fst (resetSequence "timeout" st))) as A.
      destruct (resetSequence "timeout" st) as [st1 ev1] eqn:R.
      cbn [fst] in A.
      assert (K : keepsCallbacks st st1)
        by (unfold resetSequence in R; injection R as <- _;
            apply keepsCallbacks_same; reflexivity).
      destruct (acceptSign c now st1). cbn [fst] in *.
      exact (keepsCallbacks_trans _ _ _ K A).
    + pose proof (keepsCallbacks_acceptSign c now st) as A.
      destruct (acceptSign c now st). exact A.
  - apply keepsCallbacks_same; reflexivity.
  - unfold fireTimer. destruct (timers st);
      [apply keepsCallbacks_same; reflexivity|].
    unfold noMatchCheck. cbn [matchingJutsus].
    destruct (List.length (matchingJutsus st) =? 0)%nat;
      apply keepsCallbacks_same; reflexivity.
  - apply keepsCallbacks_same; reflexivity.
  - unfold keepsCallbacks, setCallbacks.
    cbn [fst onJutsuComplete onSequenceUpdate onSequenceReset].
    repeat split; intros ->; apply orb_true_r.
Qed.

(** X16.  Nothing unregisters a callback: after any actions, a
    [setCallbacks] call with missing entries included, every callback
    that was registered before is still registered. *)
Theorem callbacks_stay_registered (actions : list Action) (st : State) :
  keepsCallbacks st (fst (run actions st)).
Proof.
  revert st. induction actions as [|a actions IH]; intros st.
  - apply keepsCallbacks_same; reflexivity.
  - rewrite run_cons. cbn [fst].
    exact (keepsCallbacks_trans _ _ _ (keepsCallbacks_step a st)
             (IH (fst (step a st)))).
Qed.

End Callbacks.

(** ** The two finders and the hold *)

Section Finders.

Import F64 JutsuDetector.

Lemma findMatchingJutsus_In (cur : list Sign) (m : Match) :
  In m (findMatchingJutsus cur)
  <-> exists j, In j jutsus /\ (exists rest, signs j = cur ++ rest)
                /\ m = withProgress cur j.
Proof.
  unfold findMatchingJutsus. rewrite in_map_iff. split.
  - intros (j & <- & Hj). apply filter_In in Hj. destruct Hj as [Hin Hp].
    exists j. split; [exact Hin|]. split; [apply isPrefixOf_spec, Hp | reflexivity].
  - intros (j & Hin & Hp & ->). exists j. split; [reflexivity|].
    apply filter_In. split; [exact Hin | apply isPrefixOf_spec, Hp].
Qed.

(** X17.  [findMatchingJutsus] lists, in catalog order, exactly the jutsus
    whose signs start with the recorded ones. *)
Theorem matches_are_the_prefixed_jutsus (cur : list Sign) :
  map jutsu (findMatchingJutsus cur)
  = filter (fun j => isPrefixOf cur j) jutsus
  /\ forall j, In j jutsus ->
       (In (withProgress cur j) (findMatchingJutsus cur)
        <-> exists rest, signs j = cur ++ rest).
Proof.
  split.
  - unfold findMatchingJutsus. rewrite map_map. cbn [withProgress jutsu].
    apply map_id.
  - intros j Hin. rewrite findMatchingJutsus_In. split.
    + intros (j' & _ & Hp & E).
      assert (Ej : j = j') by exact (f_equal jutsu E). subst j'. exact Hp.
    + intros Hp. exists j. auto.
Qed.

Lemma catalog_lengths (j : Jutsu) :
  In j jutsus -> List.length (signs j) = 3%nat \/ List.length (signs j) = 6%nat.
Proof.
  intros [<-|[<-|[<-|[<-|[]]]]]; cbn; auto.
Qed.

(** [(n / total) * 100] for a sequence of 3 or 6 signs. *)
Lemma percentage_range (n t : nat) :
  (n <= t)%nat -> t = 3%nat \/ t = 6%nat ->
  let p := mul (div (ofZ (Z.of_nat n)) (ofZ (Z.of_nat t))) d100 in
  leb d0 p = true /\ leb p d100 = true /\ (p = d100 <-> n = t).
Proof.
  intros Hle [->| ->]; destruct n as [|[|[|[|[|[|[|n]]]]]]]; try lia;
    vm_compute; repeat split; try reflexivity; try discriminate.
Qed.

(** X18.  Every entry of [findMatchingJutsus] has [progress] the number of
    recorded signs, [total] the number of signs of its jutsu, [progress]
    at most [total], and a [percentage] between 0 and 100 that is 100
    exactly when the two are equal. *)
Theorem match_progress_in_range (cur : list Sign) (m : Match) :
  In m (findMatchingJutsus cur) ->
  progress m = List.length cur
  /\ total m = List.length (signs (jutsu m))
  /\ (progress m <= total m)%nat
  /\ leb d0 (percentage m) = true
  /\ leb (percentage m) d100 = true
  /\ (percentage m = d100 <-> progress m = total m).
Proof.
  intros H. apply findMatchingJutsus_In in H.
  destruct H as (j & Hin & [rest Hp] & ->).
  cbn [withProgress progress total jutsu percentage].
  assert (Hle : (List.length cur <= List.length (signs j))%nat)
    by (rewrite Hp, length_app; lia).
  split; [reflexivity|]. split; [reflexivity|]. split; [exact Hle|].
  exact (percentage_range _ _ Hle (catalog_lengths j Hin)).
Qed.

(** X19.  [findCompletedJutsu] returns a jutsu exactly when the recorded signs
    are the signs of that catalog jutsu: [find] takes the first match,
    and no two catalog jutsus have the same signs. *)
Theorem completed_iff_full_sequence (cur : list Sign) (j : Jutsu) :
  findCompletedJutsu cur = Some j <-> In j jutsus /\ signs j = cur.
Proof.
  split; [apply findCompletedJutsu_Some|].
  intros [Hin <-]. apply findCompletedJutsu_catalog, Hin.
Qed.

(** X20.  When the recorded signs complete a jutsu, [findMatchingJutsus]
    returns that jutsu alone, at 100 percent: no catalog sequence is the
    beginning of another. *)
Theorem completed_sequence_has_one_match (cur : list Sign) (j : Jutsu) :
  findCompletedJutsu cur = Some j ->
  findMatchingJutsus cur
  = [ {| jutsu := j; progress := List.length cur; total := List.length cur;
         percentage := d100 |} ].
Proof.
  intros H. apply findCompletedJutsu_Some in H. destruct H as [Hin <-].
  destruct Hin as [<-|[<-|[<-|[<-|[]]]]]; vm_compute; reflexivity.
Qed.

(** X21.  What [getProgress] returns in a reachable state: with no recorded
    sign the list of matches is empty (not the whole catalog, which
    [findMatchingJutsus] would give), otherwise it is
    [findMatchingJutsus] of the recorded signs. *)
Theorem reported_matches_are_current (st : State) :
  reachable st ->
  snd (getProgress st)
  = match fst (getProgress st) with
    | [] => []
    | _ :: _ => findMatchingJutsus (fst (getProgress st))
    end.
Proof.
  intros H. apply consistent_reachable in H. unfold getProgress. cbn [fst snd].
  destruct H as [[H1 H2]|(H1 & H2 & _)].
  - rewrite H1. exact H2.
  - destruct (currentSequence st); [destruct H1; reflexivity | exact H2].
Qed.

(** *** An interrupted hold *)

Lemma run_app (a b : list Action) (st : State) :
  run (a ++ b) st
  = (fst (run b (fst (run a st))),
     snd (run a st) ++ snd (run b (fst (run a st)))).
Proof.
  revert st. induction a as [|x a IH]; intros st.
  - cbn [app run fst snd]. destruct (run b st); reflexivity.
  - cbn [app]. rewrite !run_cons. cbn [fst snd]. rewrite IH. cbn [fst snd].
    rewrite app_assoc. reflexivity.
Qed.

Lemma calm_app (a b : list Action) (st : State) :
  calm (a ++ b) st <-> calm a st /\ calm b (fst (run a st)).
Proof.
  revert st. induction a as [|x a IH]; intros st.
  - cbn. tauto.
  - cbn [app calm]. rewrite run_cons. cbn [fst]. rewrite IH. tauto.
Qed.

Lemma heldFor_holdSign (s : Sign) (st : State) :
  lastDetectedSign (holdSign s st) = Some s
  /\ signHoldCount (holdSign s st) = S (heldFor s st)
  /\ heldFor s (holdSign s st) = S (heldFor s st).
Proof.
  unfold heldFor, holdSign. cbn [lastDetectedSign signHoldCount].
  destruct (lastDetectedSign st) as [s0|]; cbn [option_Sign_eqb].
  - destruct (Sign_eqb s s0) eqn:E.
    + apply Sign_eqb_eq in E. subst s0. cbn [option_Sign_eqb].
      rewrite Sign_eqb_refl. auto.
    + cbn [option_Sign_eqb]. rewrite Sign_eqb_refl. auto.
  - cbn [option_Sign_eqb]. rewrite Sign_eqb_refl. auto.
Qed.

(** Frames that keep the hold count below 8 only count. *)
Lemma run_counting (s : Sign) (frames : list (float * Z)) (st : State) :
  (heldFor s st + List.length frames < 8)%nat ->
  Forall (fun fr => leb MIN_CONFIDENCE (fst fr) = true) frames ->
  calm (framesOf s frames) st ->
  let st' := fst (run (framesOf s frames) st) in
  currentSequence st' = currentSequence st
  /\ heldFor s st' = (heldFor s st + List.length frames)%nat
  /\ snd (run (framesOf s frames) st) = [].
Proof.
  revert st. induction frames as [|[conf now] frames IH]; intros st K C Q.
  - cbv zeta. cbn [framesOf map run fst snd List.length]. rewrite Nat.add_0_r.
    repeat split; auto.
  - cbv zeta. cbn [framesOf map fst snd] in *. fold (framesOf s frames) in *.
    rewrite run_cons. cbn [step calm List.length] in *. destruct Q as [T Q].
    inversion C as [|fr frs Cfr Cfrs]; subst. cbn [fst] in Cfr.
    destruct (heldFor_holdSign s st) as (L' & K' & H').
    rewrite (processSign_counts st s conf now T (leb_not_ltb _ _ Cfr)) in *
      by (rewrite K'; lia).
    cbn [fst snd] in *.
    destruct (IH (holdSign s st) ltac:(rewrite H'; lia) Cfrs Q)
      as (I1 & I2 & I5).
    rewrite I1, I2, I5, H'. split; [reflexivity|]. split; [lia | reflexivity].
Qed.


End Finders.

(** ** Performing a jutsu *)

Section Performance.

Import F64 JutsuDetector.

Lemma holdSign_fresh (s : Sign) (st : State) :
  heldFor s st = 0%nat -> holdSign s st = holding s 1 st.
Proof.
  unfold heldFor, holdSign, holding.
  destruct (lastDetectedSign st) as [s0|] eqn:L; cbn [option_Sign_eqb];
    [|reflexivity].
  destruct (Sign_eqb s s0) eqn:E; [|reflexivity].
  apply Sign_eqb_eq in E. subst s0. intros ->. reflexivity.
Qed.

Lemma holdSign_holding (s : Sign) (k : nat) (st : State) :
  holdSign s (holding s k st) = holding s (S k) st.
Proof.
  unfold holdSign, holding. cbn [lastDetectedSign signHoldCount option_Sign_eqb
    currentSequence matchingJutsus lastSignTime onJutsuComplete
    onSequenceUpdate onSequenceReset timers].
  rewrite Sign_eqb_refl. reflexivity.
Qed.

Lemma run_hold_holding (s : Sign) (conf : float) (now : Z) (st : State) (n k : nat) :
  (k + n < 8)%nat -> leb MIN_CONFIDENCE conf = true -> timedOut now st = false ->
  run (hold n s conf now) (holding s k st) = (holding s (k + n) st, []).
Proof.
  intros K C T. revert k K. induction n as [|n IH]; intros k K.
  - rewrite Nat.add_0_r. reflexivity.
  - unfold hold. cbn [repeat]. fold (hold n s conf now). rewrite run_cons.
    cbn [step].
    rewrite (processSign_counts (holding s k st) s conf now T (leb_not_ltb _ _ C))
      by (rewrite holdSign_holding; cbn [holding signHoldCount]; lia).
    cbn [fst snd]. rewrite holdSign_holding, IH by lia.
    cbn [fst snd app]. replace (S k + n)%nat with (k + S n)%nat by lia.
    reflexivity.
Qed.

(** Eight frames of a sign that is not being held reach [push]. *)
Lemma run_hold_8 (s : Sign) (conf : float) (now : Z) (st : State) :
  leb MIN_CONFIDENCE conf = true -> heldFor s st = 0%nat ->
  timedOut now st = false -> repeatsLast s st = false ->
  run (hold 8 s conf now) st = registerSign s now (holding s 8 st).
Proof.
  intros C H T R.
  change (hold 8 s conf now)
    with (Frame (Some {| sign := Some s; confidence := conf |}) now
          :: hold 6 s conf now
             ++ [Frame (Some {| sign := Some s; confidence := conf |}) now]).
  rewrite run_cons. cbn [step].
  rewrite (processSign_counts st s conf now T (leb_not_ltb _ _ C))
    by (rewrite (holdSign_fresh s st H); cbn [holding signHoldCount]; lia).
  cbn [fst snd app]. rewrite (holdSign_fresh s st H).
  rewrite run_app, (run_hold_holding s conf now st 6 1) by (auto; lia).
  cbn [fst snd app Nat.add]. rewrite run_cons. cbn [step run fst snd].
  rewrite (processSign_registers (holding s 7 st) s conf now T
             (leb_not_ltb _ _ C) eq_refl eq_refl R).
  rewrite holdSign_holding, app_nil_r.
  destruct (registerSign s now (holding s 8 st)); reflexivity.
Qed.

Lemma firstn_S_snoc (A : Type) (l : list A) (k : nat) (d : A) :
  (k < List.length l)%nat -> firstn (S k) l = firstn k l ++ [nth k l d].
Proof.
  revert k. induction l as [|a l IH]; intros k H; [cbn in H; lia|].
  destruct k as [|k]; [reflexivity|].
  cbn [List.length] in H. cbn [firstn nth app]. rewrite <- IH by lia.
  reflexivity.
Qed.

(** What the catalog guarantees about each next sign. *)
Lemma catalog_next_sign (j : Jutsu) (k : nat) :
  In j jutsus -> (k < List.length (signs j))%nat ->
  let cur := firstn k (signs j) in
  let s := nth k (signs j) Tiger in
  ((0 <? List.length cur)%nat
   && option_Sign_eqb (nth_error cur (List.length cur - 1)) (Some s)) = false
  /\ match k with
     | O => True
     | S k' => Sign_eqb s (nth k' (signs j) Tiger) = false
     end
  /\ ((S k < List.length (signs j))%nat ->
      findCompletedJutsu (cur ++ [s]) = None
      /\ findMatchingJutsus (cur ++ [s]) <> []).
Proof.
  intros [<-|[<-|[<-|[<-|[]]]]] H; cbn [signs fireball chidori shadowclone
    waterdragon List.length] in H |- *;
    destruct k as [|[|[|[|[|[|k]]]]]]; try lia;
    (split; [reflexivity|]); (split; [exact I || reflexivity|]);
    intros H'; try lia; (split; [vm_compute; reflexivity | vm_compute; discriminate]).
Qed.

Lemma performFrom_snoc (first : nat) (l : list Sign) (s : Sign)
    (conf : Sign -> float) (times : nat -> Z) :
  performFrom first (l ++ [s]) conf times
  = performFrom first l conf times
    ++ hold 8 s (conf s) (times (first + List.length l)%nat).
Proof.
  revert first. induction l as [|a l IH]; intros first.
  - cbn [app performFrom List.length]. rewrite Nat.add_0_r, app_nil_r.
    reflexivity.
  - cbn [app performFrom List.length]. rewrite IH, app_assoc.
    replace (S first + List.length l)%nat with (first + S (List.length l))%nat
      by lia.
    reflexivity.
Qed.

Lemma perform_snoc (l : list Sign) (k : nat) (s : Sign) (conf : Sign -> float)
    (times : nat -> Z) :
  (k <= List.length l)%nat ->
  perform (firstn k l ++ [s]) conf times
  = perform (firstn k l) conf times ++ hold 8 s (conf s) (times k).
Proof.
  intros H. unfold perform. rewrite performFrom_snoc, length_firstn.
  replace (0 + Nat.min k (List.length l))%nat with k by lia. reflexivity.
Qed.

Lemma updatesUpTo_S (st : State) (j : Jutsu) (k : nat) :
  updatesUpTo st j (S k)
  = updatesUpTo st j k
    ++ (if onSequenceUpdate st
        then [SequenceUpdate (firstn (S k) (signs j))
                (findMatchingJutsus (firstn (S k) (signs j)))]
        else []).
Proof.
  unfold updatesUpTo. destruct (onSequenceUpdate st); [|reflexivity].
  rewrite seq_S, map_app. reflexivity.
Qed.

(** The conditions under which the next sign of [j] reaches [push]. *)
Lemma next_sign_is_pushed (st st' : State) (j : Jutsu) (conf : float)
    (times : nat -> Z) (k : nat) :
  In j jutsus -> (k < List.length (signs j))%nat ->
  leb MIN_CONFIDENCE conf = true ->
  (forall i, (times (S i) - times i <= SEQUENCE_TIMEOUT_MS)%Z) ->
  recordedPrefix st j times k st' ->
  run (hold 8 (nth k (signs j) Tiger) conf (times k)) st'
  = registerSign (nth k (signs j) Tiger) (times k)
      (holding (nth k (signs j) Tiger) 8 st').
Proof.
  intros Hin Hk C Ht (Hcur & Hlast & _).
  destruct (catalog_next_sign j k Hin Hk) as (F1 & F2 & _). cbv zeta in F1, F2.
  apply run_hold_8; [exact C | | |].
  - unfold heldFor. destruct k as [|k'].
    + rewrite Hlast. reflexivity.
    + destruct Hlast as [-> _]. cbn [option_Sign_eqb]. rewrite F2. reflexivity.
  - unfold timedOut. destruct k as [|k'].
    + rewrite Hcur. reflexivity.
    + destruct Hlast as [_ ->].
      replace (SEQUENCE_TIMEOUT_MS <? times (S k') - times k')%Z with false
        by (symmetry; apply Z.ltb_ge, Ht).
      apply andb_false_r.
  - unfold repeatsLast. rewrite Hcur. exact F1.
Qed.

Lemma perform_prefix (st : State) (j : Jutsu) (conf : Sign -> float)
    (times : nat -> Z) (k : nat) :
  In j jutsus -> (k < List.length (signs j))%nat ->
  (forall s, leb MIN_CONFIDENCE (conf s) = true) ->
  (forall i, (times (S i) - times i <= SEQUENCE_TIMEOUT_MS)%Z) ->
  currentSequence st = [] -> lastDetectedSign st = None ->
  recordedPrefix st j times k
    (fst (run (perform (firstn k (signs j)) conf times) st))
  /\ snd (run (perform (firstn k (signs j)) conf times) st) = updatesUpTo st j k.
Proof.
  intros Hin Hk C Ht Hcur Hlast. induction k as [|k IH].
  - cbn [firstn perform performFrom run fst snd]. split.
    + unfold recordedPrefix. cbn [firstn]. auto.
    + unfold updatesUpTo. destruct (onSequenceUpdate st); reflexivity.
  - destruct (IH ltac:(lia)) as [P E].
    rewrite (firstn_S_snoc _ (signs j) k Tiger) by lia.
    rewrite perform_snoc, run_app by lia. cbn [fst snd]. rewrite E.
    set (st' := fst (run (perform (firstn k (signs j)) conf times) st)) in *.
    rewrite (next_sign_is_pushed st st' j _ times k Hin ltac:(lia) (C _) Ht P).
    destruct (catalog_next_sign j k Hin ltac:(lia)) as (_ & _ & F3).
    cbv zeta in F3. destruct (F3 Hk) as [N M].
    destruct P as (Pcur & _ & Pc & Pu & Pr).
    unfold registerSign.
    cbn [holding currentSequence matchingJutsus onSequenceUpdate onJutsuComplete
         onSequenceReset lastDetectedSign signHoldCount lastSignTime timers].
    rewrite Pcur, N.
    destruct (findMatchingJutsus (firstn k (signs j) ++ [nth k (signs j) Tiger]))
      as [|m ms] eqn:EM; [destruct M; reflexivity|].
    cbn [List.length Nat.eqb andb fst snd]. split.
    + unfold recordedPrefix.
      cbn [currentSequence lastDetectedSign lastSignTime onJutsuComplete
           onSequenceUpdate onSequenceReset].
      rewrite (firstn_S_snoc _ (signs j) k Tiger) by lia. auto 7.
    + rewrite updatesUpTo_S, (firstn_S_snoc _ (signs j) k Tiger) by lia.
      rewrite Pu, EM. reflexivity.
Qed.

(** Performing a catalog jutsu from an empty sequence completes it. *)
Lemma perform_completes (j : Jutsu) (conf : Sign -> float)
    (times : nat -> Z) (st : State) :
  In j jutsus -> (forall s, leb MIN_CONFIDENCE (conf s) = true) ->
  (forall i, (times (S i) - times i <= SEQUENCE_TIMEOUT_MS)%Z) ->
  currentSequence st = [] -> lastDetectedSign st = None ->
  let out := run (perform (signs j) conf times) st in
  currentSequence (fst out) = []
  /\ lastDetectedSign (fst out) = None
  /\ snd out = performanceEvents st j.
Proof.
  intros Hin C Ht Hcur Hlast. cbv zeta.
  assert (Hlen : exists n, List.length (signs j) = S n).
  { destruct (catalog_lengths j Hin) as [-> | ->]; eauto. }
  destruct Hlen as [n Hn].
  assert (Hfull : signs j = firstn n (signs j) ++ [nth n (signs j) Tiger]).
  { rewrite <- firstn_S_snoc by lia. rewrite <- Hn. symmetry. apply firstn_all. }
  destruct (perform_prefix st j conf times n Hin ltac:(lia) C Ht Hcur Hlast)
    as [P E].
  rewrite Hfull at 1 2 3. rewrite perform_snoc, run_app by lia. cbn [fst snd].
  rewrite E.
  set (st' := fst (run (perform (firstn n (signs j)) conf times) st)) in *.
  rewrite (next_sign_is_pushed st st' j _ times n Hin ltac:(lia) (C _) Ht P).
  destruct P as (Pcur & _ & Pc & Pu & Pr).
  rewrite (registerSign_completes _ _ (times n) j Hin)
    by (cbn [holding currentSequence]; rewrite Pcur; symmetry; exact Hfull).
  cbn [fst snd holding currentSequence lastDetectedSign onSequenceUpdate
       onJutsuComplete onSequenceReset].
  split; [reflexivity|]. split; [reflexivity|].
  unfold performanceEvents. rewrite Hn, updatesUpTo_S, <- Hn, firstn_all.
  rewrite Pc, Pu, Pr, <- app_assoc. reflexivity.
Qed.

Lemma performFrom_ext (first : nat) (l : list Sign) (conf conf' : Sign -> float)
    (times : nat -> Z) :
  (forall s, In s l -> conf s = conf' s) ->
  performFrom first l conf times = performFrom first l conf' times.
Proof.
  revert first. induction l as [|a l IH]; intros first H; [reflexivity|].
  cbn [performFrom].
  rewrite (H a (or_introl eq_refl)), IH; [reflexivity|].
  intros s Hs. apply H. right. exact Hs.
Qed.


End Performance.

(** ** The frame handler of app.js *)

Section AppPipeline.

Import F64 HandSignClassifier App.

Variable Math_acos : float -> float.

Lemma drawLandmarks_spec (landmarks : list Landmark) :
  drawLandmarks landmarks = Some tt <-> (21 <= List.length landmarks)%nat.
Proof.
  unfold drawLandmarks. generalize (List.length landmarks) as n. intros n.
  destruct (forallb _ HAND_CONNECTIONS) eqn:F.
  - split; [intros _ | reflexivity]. rewrite forallb_forall in F.
    assert (Hin : In (19, 20)%nat HAND_CONNECTIONS)
      by (unfold HAND_CONNECTIONS; cbn; tauto).
    apply F in Hin. cbn [fst snd] in Hin.
    apply andb_true_iff in Hin. destruct Hin as [_ Hin].
    apply Nat.ltb_lt in Hin. lia.
  - split; [discriminate|]. intros H. exfalso.
    assert (T : forallb (fun c => (fst c <? n)%nat && (snd c <? n)%nat)
                  HAND_CONNECTIONS = true).
    { apply forallb_forall. intros c Hin. unfold HAND_CONNECTIONS in Hin.
      cbn [In] in Hin.
      repeat (destruct Hin as [<-|Hin];
              [cbn [fst snd]; apply andb_true_iff; split; apply Nat.ltb_lt; lia|]).
      destruct Hin. }
    rewrite T in F. discriminate F.
Qed.

Lemma drawLandmarks_throws (landmarks : list Landmark) :
  drawLandmarks landmarks = None <-> (List.length landmarks < 21)%nat.
Proof.
  pose proof (drawLandmarks_spec landmarks) as S.
  destruct (drawLandmarks landmarks) as [[]|].
  - split; [discriminate|]. intros H. assert (21 <= List.length landmarks)%nat by (apply S; reflexivity). lia.
  - split; [|reflexivity]. intros _.
    destruct (Nat.le_gt_cases 21 (List.length landmarks)) as [H|H]; [|exact H].
    apply S in H. discriminate H.
Qed.

Lemma classify_Some (lm : list Landmark) :
  (21 <= List.length lm)%nat -> exists c, classify Math_acos lm = Some c.
Proof.
  intros H. unfold classify, getHandFeatures.
  replace (List.length lm <? 21)%nat with false by (symmetry; apply Nat.ltb_ge; lia).
  destruct (_ < _)%f64; eauto.
Qed.

Lemma kept_step (seen : list (list Landmark)) (best : option Classification)
    (landmarks : list Landmark) (c : Classification) :
  kept Math_acos seen best -> classify Math_acos landmarks = Some c ->
  kept Math_acos (seen ++ [landmarks]) (keepBest best (Some c)).
Proof.
  intros K Hc. cbn [keepBest]. destruct best as [b|].
  - destruct K as (before & lm & after & -> & Hb & Hlt & Hle).
    pose proof (classify_confidence_number Math_acos _ _ Hc) as Nc.
    pose proof (classify_confidence_number Math_acos _ _ Hb) as Nb.
    change (gtb (confidence c) (confidence b))
      with (ltb (confidence b) (confidence c)).
    destruct (ltb (confidence b) (confidence c)) eqn:E;
      cbv beta iota delta [kept].
    + exists (before ++ lm :: after), landmarks, []. split; [reflexivity|].
      split; [exact Hc|]. split; [|constructor].
      apply Forall_app. split; [|constructor].
      * eapply Forall_impl; [|exact Hlt]. cbn. intros l H c' Hc'.
        exact (ltb_trans _ _ _ (H c' Hc') E).
      * intros c' Hc'. assert (c' = b) by congruence. subst c'. exact E.
      * eapply Forall_impl; [|exact Hle]. cbn. intros l H c' Hc'.
        exact (leb_ltb_trans _ _ _ (H c' Hc') E).
    + exists before, lm, (after ++ [landmarks]). split.
      { rewrite <- app_assoc. reflexivity. }
      split; [exact Hb|]. split; [exact Hlt|].
      apply Forall_app. split; [exact Hle|]. constructor; [|constructor].
      intros c' Hc'. assert (c' = c) by congruence. subst c'.
      apply not_ltb_leb; assumption.
  - cbn in K. subst seen. exists [], landmarks, []. split; [reflexivity|].
    split; [exact Hc|]. split; constructor.
Qed.

Lemma handsLoop_spec (hands seen : list (list Landmark))
    (best : option Classification) :
  kept Math_acos seen best ->
  match handsLoop Math_acos hands best with
  | None => exists lm, In lm hands /\ (List.length lm < 21)%nat
  | Some r => Forall (fun lm => (21 <= List.length lm)%nat) hands
              /\ kept Math_acos (seen ++ hands) r
  end.
Proof.
  revert seen best. induction hands as [|lm hands IH]; intros seen best K.
  - cbn [handsLoop]. rewrite app_nil_r. split; [constructor | exact K].
  - cbn [handsLoop]. destruct (drawLandmarks lm) as [[]|] eqn:D.
    + apply drawLandmarks_spec in D.
      destruct (classify_Some lm D) as [c Hc]. rewrite Hc.
      specialize (IH (seen ++ [lm]) _ (kept_step seen best lm c K Hc)).
      destruct (handsLoop Math_acos hands (keepBest best (Some c))) as [r|].
      * destruct IH as [IH1 IH2]. split; [constructor; assumption|].
        rewrite <- app_assoc in IH2. exact IH2.
      * destruct IH as (l & Hl & Hs). exists l. split; [right; exact Hl | exact Hs].
    + apply drawLandmarks_throws in D. exists lm. split; [left; reflexivity | exact D].
Qed.

(** X24.  When [onResults] gets at least one hand and reaches [processSign], it
    passes the classification of the first hand of greatest confidence:
    the hands before it are strictly less confident, the ones after it
    are not more confident. *)
Theorem onResults_feeds_most_confident_hand
    (hands : list (list Landmark)) (now : Z) (st : JutsuDetector.State)
    (out : JutsuDetector.State * list JutsuDetector.Event) :
  hands <> [] ->
  onResults Math_acos (Some hands) now st = Some out ->
  exists before lm after best,
    hands = before ++ lm :: after
    /\ classify Math_acos lm = Some best
    /\ out = JutsuDetector.processSign
               (Some (JutsuDetector.sample_of best)) now st
    /\ Forall (fun l => forall c, classify Math_acos l = Some c ->
                        ltb (confidence c) (confidence best) = true) before
    /\ Forall (fun l => forall c, classify Math_acos l = Some c ->
                        leb (confidence c) (confidence best) = true) after.
Proof.
  intros Hne H. unfold onResults in H.
  pose proof (handsLoop_spec hands [] None eq_refl) as S.
  destruct (handsLoop Math_acos hands None) as [r|]; [|discriminate H].
  destruct S as [_ K]. cbn [app] in K. injection H as <-.
  destruct r as [best|].
  - destruct K as (before & lm & after & E & Hb & Hlt & Hle).
    exists before, lm, after, best. auto.
  - cbn in K. contradiction.
Qed.

(** X25.  [onResults] leaves with an exception, before [processSign] is
    called, exactly when one of the hands has fewer than 21 landmarks:
    [drawLandmarks] reads [landmarks[20].x] before [classify] sees the
    array, so the [null] that [classify] returns for a short array never
    reaches the detector from here. *)
Theorem onResults_throws_on_short_hand
    (multiHandLandmarks : option (list (list Landmark))) (now : Z)
    (st : JutsuDetector.State) :
  onResults Math_acos multiHandLandmarks now st = None
  <-> exists hands lm, multiHandLandmarks = Some hands /\ In lm hands
                       /\ (List.length lm < 21)%nat.
Proof.
  unfold onResults. destruct multiHandLandmarks as [hands|].
  - pose proof (handsLoop_spec hands [] None eq_refl) as S.
    destruct (handsLoop Math_acos hands None) as [r|].
    + split; [discriminate|]. intros (hs & lm & E & Hin & Hs).
      injection E as <-. destruct S as [S _].
      assert (G : (21 <= List.length lm)%nat)
        by exact (proj1 (Forall_forall _ _) S lm Hin).
      lia.
    + split; [|reflexivity]. intros _. destruct S as (lm & Hin & Hs).
      exists hands, lm. auto.
  - split; [discriminate|]. intros (hs & lm & E & _). discriminate E.
Qed.

(** X26.  If one hand of the frame is classified with a sign, the
    classification [onResults] passes to [processSign] carries a sign
    too, of at least that confidence: a hand without a sign never hides
    a recognised one. *)
Theorem recognised_sign_is_not_hidden
    (hands : list (list Landmark)) (now : Z) (st : JutsuDetector.State)
    (out : JutsuDetector.State * list JutsuDetector.Event)
    (lm : list Landmark) (c : Classification) (s : Sign) :
  onResults Math_acos (Some hands) now st = Some out ->
  In lm hands -> classify Math_acos lm = Some c -> sign c = Some s ->
  exists best s',
    out = JutsuDetector.processSign
            (Some (JutsuDetector.sample_of best)) now st
    /\ sign best = Some s'
    /\ leb (confidence c) (confidence best) = true.
Proof.
  intros H Hin Hc Hs. unfold onResults in H.
  pose proof (handsLoop_spec hands [] None eq_refl) as S.
  destruct (handsLoop Math_acos hands None) as [r|]; [|discriminate H].
  destruct S as [_ K]. cbn [app] in K. injection H as <-.
  destruct r as [best|]; [|cbn in K; subst hands; destruct Hin].
  destruct K as (before & l & after & E & Hb & Hlt & Hle).
  assert (L : leb (confidence c) (confidence best) = true).
  { rewrite E in Hin. apply in_app_or in Hin. destruct Hin as [Hin|[<-|Hin]].
    - apply ltb_leb. exact (proj1 (Forall_forall _ _) Hlt lm Hin c Hc).
    - assert (c = best) by congruence. subst c.
      apply leb_refl, (classify_confidence_number Math_acos _ _ Hb).
    - exact (proj1 (Forall_forall _ _) Hle lm Hin c Hc). }
  destruct (classify_confidence_cases Math_acos _ _ Hb) as [[_ Hz]|(s' & Hs' & _)].
  - exfalso. destruct (classify_confidence_cases Math_acos _ _ Hc) as [[Hn _]|(s0 & _ & L0)];
      [congruence|].
    pose proof (leb_trans _ _ _ L0 L) as F. rewrite Hz in F. discriminate F.
  - exists best, s'. auto.
Qed.

End AppPipeline.

(** ** From the camera frames to a completed jutsu *)

Section EndToEnd.

Import F64 HandSignClassifier App JutsuDetector Samples.

Variable Math_acos : float -> float.

Lemma handFeatures_acos (acos1 acos2 : float -> float) (lm : list Landmark) :
  handFeatures acos1 lm
  = with_unread
      (getFingerAngle acos1 lm 5 6 7) (getFingerAngle acos1 lm 9 10 11)
      (getFingerAngle acos1 lm 13 14 15) (getFingerAngle acos1 lm 17 18 19)
      (palmFacingCamera (handFeatures acos2 lm))
      (thumbCrossingPalm (handFeatures acos2 lm)) lm (handFeatures acos2 lm).
Proof. reflexivity. Qed.

Lemma handShowing_verdict (s : Sign) :
  option_map (fun r => (HandSignClassifier.sign r,
                     leb MIN_CONFIDENCE (HandSignClassifier.confidence r)))
    (classify Samples.acos_nan (handShowing s))
  = Some (Some s, true).
Proof. destruct s; vm_compute; reflexivity. Qed.

Lemma handShowing_classified (s : Sign) :
  exists r,
    classify Math_acos (handShowing s) = Some r
    /\ HandSignClassifier.sign r = Some s
    /\ leb MIN_CONFIDENCE (HandSignClassifier.confidence r) = true.
Proof.
  pose proof (handShowing_verdict s) as H.
  pose proof (classify_verdict_ext Math_acos Samples.acos_nan
                (handShowing s) (handShowing s) _ _ _ _ _ _ eq_refl
                (handFeatures_acos Math_acos Samples.acos_nan (handShowing s))) as V.
  destruct (classify Samples.acos_nan (handShowing s)) as [r0|]; [|discriminate H].
  destruct (classify Math_acos (handShowing s)) as [r|]; [|discriminate V].
  cbn [option_map] in H, V. unfold verdict in V.
  injection V as V1 V2 _. injection H as H1 H2.
  exists r. split; [reflexivity|]. rewrite V1, V2. auto.
Qed.

(** X27.  No rule is dead: for each of the twelve signs there is a hand of 21
    landmarks that [classify] reports as that sign, with a confidence of
    at least 0.5, which the detector accepts. *)
Theorem every_sign_is_recognisable (s : Sign) :
  exists landmarks r,
    List.length landmarks = 21%nat
    /\ classify Math_acos landmarks = Some r
    /\ HandSignClassifier.sign r = Some s
    /\ leb MIN_CONFIDENCE (HandSignClassifier.confidence r) = true.
Proof.
  destruct (handShowing_classified s) as (r & Hr & Hs & Hc).
  exists (handShowing s), r. split; [destruct s; reflexivity|]. auto.
Qed.

Lemma session_app (a b : list (option (list (list Landmark)) * Z))
    (st : State) :
  session Math_acos (a ++ b) st
  = match session Math_acos a st with
    | None => None
    | Some (st1, ev1) =>
      match session Math_acos b st1 with
      | None => None
      | Some (st2, ev2) => Some (st2, ev1 ++ ev2)
      end
    end.
Proof.
  revert st. induction a as [|[hands now] a IH]; intros st.
  - cbn [app session]. destruct (session Math_acos b st) as [[st2 ev2]|];
      reflexivity.
  - cbn [app session].
    destruct (onResults Math_acos hands now st) as [[st1 ev1]|]; [|reflexivity].
    rewrite IH. destruct (session Math_acos a st1) as [[st2 ev2]|]; [|reflexivity].
    destruct (session Math_acos b st2) as [[st3 ev3]|]; [|reflexivity].
    rewrite app_assoc. reflexivity.
Qed.

(** A frame with the one hand that shows [s] is a frame of [s] for the
    detector. *)
Lemma onResults_handShowing (s : Sign) (now : Z) (st : State) :
  onResults Math_acos (Some [handShowing s]) now st
  = Some (processSign
            (Some {| sign := Some s; confidence := confidenceShown Math_acos s |})
            now st).
Proof.
  unfold onResults, confidenceShown. cbn [handsLoop].
  assert (D : drawLandmarks (handShowing s) = Some tt)
    by (apply drawLandmarks_spec; destruct s; cbn; lia).
  rewrite D.
  destruct (handShowing_classified s) as (r & Hr & Hs & _). rewrite Hr.
  cbn [keepBest option_map]. unfold sample_of. rewrite Hs.
  reflexivity.
Qed.

Lemma session_repeat (s : Sign) (now : Z) (n : nat) (st : State) :
  session Math_acos (repeat (Some [handShowing s], now) n) st
  = Some (run
            (hold n s (confidenceShown Math_acos s) now) st).
Proof.
  revert st. induction n as [|n IH]; intros st; [reflexivity|].
  unfold hold. cbn [repeat session].
  fold (hold n s (confidenceShown Math_acos s) now).
  rewrite onResults_handShowing. rewrite run_cons. cbn [step].
  destruct (processSign _ now st) as [st1 ev1].
  rewrite IH. cbn [fst snd].
  destruct (run _ st1) as [st2 ev2]. reflexivity.
Qed.

Lemma session_showingFrom (first : nat) (l : list Sign) (times : nat -> Z)
    (st : State) :
  session Math_acos (showingFrom first l times) st
  = Some (run (performFrom first l (confidenceShown Math_acos) times) st).
Proof.
  revert first st. induction l as [|s l IH]; intros first st; [reflexivity|].
  cbn [showingFrom performFrom].
  rewrite session_app, session_repeat, run_app.
  destruct (run (hold 8 s _ (times first)) st) as [st1 ev1].
  rewrite IH. cbn [fst snd].
  destruct (run _ st1) as [st2 ev2]. reflexivity.
Qed.

Lemma confidenceShown_accepted (s : Sign) :
  leb MIN_CONFIDENCE (confidenceShown Math_acos s) = true.
Proof.
  unfold confidenceShown.
  destruct (handShowing_classified s) as (r & -> & _ & Hc). exact Hc.
Qed.


End EndToEnd.

Section MoreClassifierSamples.

Import F64 HandSignClassifier Samples.
Local Open Scope f64_scope.

(** [twoFingerHand] is classified, as Dragon. *)
Lemma twoFingerHand_classified :
  exists r, classify acos_nan twoFingerHand = Some r /\ sign r = Some Dragon.
Proof.
  destruct (classify acos_nan twoFingerHand) as [r|] eqn:E;
    [|vm_compute in E; discriminate E].
  exists r. split; [reflexivity|].
  assert (H : option_map sign (classify acos_nan twoFingerHand)
              = Some (Some Dragon)) by (vm_compute; reflexivity).
  rewrite E in H. injection H as H. exact H.
Qed.

(** [classify_selects_first_maximum] on [twoFingerHand]. *)
Lemma classify_selects_first_maximum_witness :
  exists r,
    classify acos_nan twoFingerHand = Some r
    /\ sign r = Some Dragon
    /\ exists before rule after,
        signRules = before ++ (Dragon, rule) :: after
        /\ confidence r = Math_min d1 (score (rule (features r)))
        /\ Forall (fun e => ltb (score (snd e (features r)))
                                (score (rule (features r))) = true) before
        /\ Forall (fun e => ltb (score (rule (features r)))
                                (score (snd e (features r))) = false) after.
Proof.
  destruct twoFingerHand_classified as (r & Hr & Hs).
  exists r. split; [exact Hr|]. split; [exact Hs|].
  exact (classify_selects_first_maximum acos_nan twoFingerHand r Dragon Hr Hs).
Defined.

(** [classify_floor] on [twoFingerHand]. *)
Lemma classify_floor_witness :
  exists r,
    classify acos_nan twoFingerHand = Some r
    /\ (sign r = None ->
        Forall (fun e => ltb (score (snd e (features r))) d0_45 = true) signRules)
    /\ (forall s, sign r = Some s -> leb d0_45 (confidence r) = true).
Proof.
  destruct twoFingerHand_classified as (r & Hr & _).
  exists r. split; [exact Hr|].
  exact (classify_floor acos_nan twoFingerHand r Hr).
Defined.

(** [confidence_is_reported_score] on [twoFingerHand]. *)
Lemma confidence_is_reported_score_witness :
  exists r entry,
    classify acos_nan twoFingerHand = Some r
    /\ sign r = Some Dragon
    /\ In (Dragon, entry) (allScores r)
    /\ score entry = confidence r.
Proof.
  destruct twoFingerHand_classified as (r & Hr & Hs).
  assert (H : option_map (fun r => existsb (fun e => Sign_eqb (fst e) Dragon)
                                           (allScores r))
                (classify acos_nan twoFingerHand) = Some true)
    by (vm_compute; reflexivity).
  rewrite Hr in H. injection H as H. apply existsb_exists in H.
  destruct H as ([s entry] & Hin & Heq). cbn [fst] in Heq.
  apply Sign_eqb_eq in Heq. subst s.
  exists r, entry. split; [exact Hr|]. split; [exact Hs|]. split; [exact Hin|].
  exact (confidence_is_reported_score acos_nan twoFingerHand r Dragon entry
           Hr Hs Hin).
Defined.


(** [coinciding_landmarks_read_as_Snake] on the point (0.5, 0.5). *)
Lemma coinciding_landmarks_read_as_Snake_witness :
  finiteLandmark (pt 50 50) = true
  /\ exists r,
      classify acos_nan (repeat (pt 50 50) 21) = Some r
      /\ sign r = Some Snake
      /\ confidence r = d0_8
      /\ palmSize (features r) = d0.
Proof.
  split; [vm_compute; reflexivity|].
  apply (coinciding_landmarks_read_as_Snake acos_nan (pt 50 50)).
  vm_compute. reflexivity.
Defined.

End MoreClassifierSamples.

Section MoreMatcherSamples.

Import F64 JutsuDetector Samples.

(** [recorded_signs_never_repeat] after Ram and three Snake frames. *)
Lemma recorded_signs_never_repeat_witness :
  reachable ramThenSnake /\ noRepeat (currentSequence ramThenSnake) = true.
Proof.
  split; [exact reachable_ramThenSnake|].
  exact (recorded_signs_never_repeat ramThenSnake reachable_ramThenSnake).
Defined.

(** [hold_count_tracks_held_sign] in the same state. *)
Lemma hold_count_tracks_held_sign_witness :
  reachable ramThenSnake
  /\ (lastDetectedSign ramThenSnake = None <-> signHoldCount ramThenSnake = 0%nat).
Proof.
  split; [exact reachable_ramThenSnake|].
  exact (hold_count_tracks_held_sign ramThenSnake reachable_ramThenSnake).
Defined.

(** [reported_matches_are_current] in the same state. *)
Lemma reported_matches_are_current_witness :
  reachable ramThenSnake
  /\ snd (getProgress ramThenSnake)
     = match fst (getProgress ramThenSnake) with
       | [] => []
       | _ :: _ => findMatchingJutsus (fst (getProgress ramThenSnake))
       end.
Proof.
  split; [exact reachable_ramThenSnake|].
  exact (reported_matches_are_current ramThenSnake reachable_ramThenSnake).
Defined.

(** [match_progress_in_range] on Chidori after Ox. *)
Lemma match_progress_in_range_witness :
  In (withProgress [Ox] chidori) (findMatchingJutsus [Ox])
  /\ progress (withProgress [Ox] chidori) = 1%nat
  /\ total (withProgress [Ox] chidori) = 3%nat
  /\ leb (percentage (withProgress [Ox] chidori)) d100 = true.
Proof.
  assert (H : In (withProgress [Ox] chidori) (findMatchingJutsus [Ox]))
    by (vm_compute; left; reflexivity).
  split; [exact H|].
  destruct (match_progress_in_range [Ox] (withProgress [Ox] chidori) H)
    as (H1 & H2 & _ & _ & H5 & _).
  split; [exact H1|]. split; [exact H2 | exact H5].
Defined.

(** [completed_sequence_has_one_match] on the signs of Chidori. *)
Lemma completed_sequence_has_one_match_witness :
  findCompletedJutsu [Ox; Hare; Monkey] = Some chidori
  /\ findMatchingJutsus [Ox; Hare; Monkey]
     = [ {| jutsu := chidori; progress := 3; total := 3; percentage := d100 |} ].
Proof.
  assert (H : findCompletedJutsu [Ox; Hare; Monkey] = Some chidori)
    by (vm_compute; reflexivity).
  split; [exact H|].
  exact (completed_sequence_has_one_match [Ox; Hare; Monkey] chidori H).
Defined.



End MoreMatcherSamples.

Section AppSamples.

Import F64 HandSignClassifier Samples App.

(** [onResults_feeds_most_confident_hand] on a frame showing
    [twoFingerHand] and [peaceHand]. *)
Lemma onResults_feeds_most_confident_hand_witness :
  [twoFingerHand; peaceHand] <> []
  /\ exists out,
      onResults acos_nan (Some [twoFingerHand; peaceHand]) 100
        JutsuDetector.initial = Some out
      /\ exists before lm after best,
          [twoFingerHand; peaceHand] = before ++ lm :: after
          /\ classify acos_nan lm = Some best
          /\ out = JutsuDetector.processSign
                     (Some (JutsuDetector.sample_of best)) 100
                     JutsuDetector.initial
          /\ Forall (fun l => forall c, classify acos_nan l = Some c ->
                              ltb (confidence c) (confidence best) = true) before
          /\ Forall (fun l => forall c, classify acos_nan l = Some c ->
                              leb (confidence c) (confidence best) = true) after.
Proof.
  assert (H1 : [twoFingerHand; peaceHand] <> []) by discriminate.
  split; [exact H1|].
  destruct (onResults acos_nan (Some [twoFingerHand; peaceHand]) 100
              JutsuDetector.initial) as [out|] eqn:E;
    [|vm_compute in E; discriminate E].
  exists out. split; [reflexivity|].
  exact (onResults_feeds_most_confident_hand acos_nan
           [twoFingerHand; peaceHand] 100 JutsuDetector.initial out H1 E).
Defined.

(** [recognised_sign_is_not_hidden] on the same frame: [twoFingerHand]
    shows Dragon, and the frame is processed with a sign. *)
Lemma recognised_sign_is_not_hidden_witness :
  In twoFingerHand [twoFingerHand; peaceHand]
  /\ exists out c,
      onResults acos_nan (Some [twoFingerHand; peaceHand]) 100
        JutsuDetector.initial = Some out
      /\ classify acos_nan twoFingerHand = Some c
      /\ sign c = Some Dragon
      /\ exists best s',
          out = JutsuDetector.processSign
                  (Some (JutsuDetector.sample_of best)) 100
                  JutsuDetector.initial
          /\ sign best = Some s'
          /\ leb (confidence c) (confidence best) = true.
Proof.
  assert (H1 : In twoFingerHand [twoFingerHand; peaceHand])
    by (left; reflexivity).
  split; [exact H1|].
  destruct twoFingerHand_classified as (c & Hc & Hs).
  destruct (onResults acos_nan (Some [twoFingerHand; peaceHand]) 100
              JutsuDetector.initial) as [out|] eqn:E;
    [|vm_compute in E; discriminate E].
  exists out, c. split; [reflexivity|]. split; [exact Hc|]. split; [exact Hs|].
  exact (recognised_sign_is_not_hidden acos_nan [twoFingerHand; peaceHand] 100
           JutsuDetector.initial out twoFingerHand c Dragon E H1 Hc Hs).
Defined.

End AppSamples.

Section EndToEndSamples.

Import F64 HandSignClassifier Samples App JutsuDetector.


End EndToEndSamples.

Section OxSamples.

Import F64 HandSignClassifier Samples.
Local Open Scope f64_scope.

(** [horns_give_Ox] on the hand that shows Ox. *)
Lemma horns_give_Ox_witness :
  getHandFeatures acos_nan (handShowing Ox)
  = Some (handFeatures acos_nan (handShowing Ox))
  /\ (indexCurl (handFeatures acos_nan (handShowing Ox)) < d0_4) = true
  /\ (pinkyCurl (handFeatures acos_nan (handShowing Ox)) < d0_4) = true
  /\ (middleCurl (handFeatures acos_nan (handShowing Ox)) > d0_55) = true
  /\ (ringCurl (handFeatures acos_nan (handShowing Ox)) > d0_55) = true
  /\ exists r,
      classify acos_nan (handShowing Ox) = Some r
      /\ sign r = Some Ox /\ confidence r = d1.
Proof.
  repeat (split; [vm_compute; reflexivity|]).
  apply (horns_give_Ox acos_nan (handShowing Ox)
           (handFeatures acos_nan (handShowing Ox))); vm_compute; reflexivity.
Defined.

End OxSamples.
